(** * wifebot: configuration resolution and platform dispatch

    A shallow embedding of [wifebot/loader.py], [wifebot/platform.py],
    [wifebot/factory.py], [wifebot/main.py] and of the four platform
    variants, together with the properties of the layered configuration
    lookup, of the registry and of the dispatcher.

    [platform.py], [factory.py] and [hinge.py] import the loading helpers
    under the module name [config_loader]; the helpers themselves are the
    ones of [loader.py], which is the module embedded here.

    Conventions.  A Python [str] is the [string] of the bytes of its
    UTF-8 encoding: an ASCII character is one byte, any other character
    two to four bytes, and a string literal of this file is the text it
    shows.  [strip] and [int] follow Python on every character; the
    decimal digits outside ASCII, which depend on the version of the
    interpreter, are a table of the environment.  [upper] and
    [capitalize], applied to the names of the registry, change ASCII
    letters, and [repr] escapes ASCII characters.
    A Python [dict] with string keys is a [gmap string _]; the registry,
    whose order matters, is an association list.  Code with effects runs
    in the monad [M]: it threads a [World] (what was printed and called,
    what is left on standard input, the process environment) and returns
    a value or raises an exception. *)

From Stdlib Require Import ZArith String Ascii List Bool Lia.
From Stdlib Require Import PrimFloat.
From stdpp Require Import base option list gmap strings pretty.

Local Open Scope Z_scope.

(* ================================================================== *)
(** * Python text primitives *)
(* ================================================================== *)

Module PyStr.

Definition chr (n : nat) : ascii := ascii_of_nat n.
Definition ord (c : ascii) : nat := nat_of_ascii c.

(** One line feed; [nl2] is the separator written ["\n\n"] in Python. *)
Definition nl : string := String (chr 10) EmptyString.
Definition nl2 : string := String (chr 10) (String (chr 10) EmptyString).

Definition between (lo hi n : nat) : bool := Nat.leb lo n && Nat.leb n hi.

(** Whitespace for the C library, which is what [int] skips around the
    digits: TAB, LF, VT, FF, CR and the space. *)
Definition is_c_space (c : ascii) : bool :=
  between 9 13 (ord c) || between 32 32 (ord c).

Fixpoint lstrip_with (ws : ascii -> bool) (s : string) : string :=
  match s with
  | EmptyString => EmptyString
  | String c s' => if ws c then lstrip_with ws s' else s
  end.

Fixpoint rstrip_with (ws : ascii -> bool) (s : string) : string :=
  match s with
  | EmptyString => EmptyString
  | String c s' =>
      match rstrip_with ws s' with
      | EmptyString => if ws c then EmptyString else String c EmptyString
      | r => String c r
      end
  end.

(** ** Characters

    A byte from 128 to 191 continues a character; a byte from 194 to 223,
    from 224 to 239, from 240 to 244 starts a character of two, three,
    four bytes. *)
Definition is_continuation (c : ascii) : bool := between 128 191 (ord c).

(** The characters of a text, each with its bytes.  A byte that starts
    no complete character, which no text has, counts as a character of
    its own. *)
Fixpoint chars (s : string) : list string :=
  match s with
  | EmptyString => []
  | String c s1 =>
      let single := String c EmptyString :: chars s1 in
      if between 194 223 (ord c) then
        match s1 with
        | String d s2 =>
            if is_continuation d
            then String c (String d EmptyString) :: chars s2
            else single
        | _ => single
        end
      else if between 224 239 (ord c) then
        match s1 with
        | String d (String e s3) =>
            if is_continuation d && is_continuation e
            then String c (String d (String e EmptyString)) :: chars s3
            else single
        | _ => single
        end
      else if between 240 244 (ord c) then
        match s1 with
        | String d (String e (String f s4)) =>
            if is_continuation d && is_continuation e && is_continuation f
            then String c (String d (String e (String f EmptyString))) :: chars s4
            else single
        | _ => single
        end
      else single
  end.

(** [''.join(l)] *)
Fixpoint concat (l : list string) : string :=
  match l with
  | [] => EmptyString
  | ch :: l' => ch +:+ concat l'
  end.

Definition byte (c : ascii) : N := N.of_nat (ord c).

(** [ord(ch)] for a character of [chars]; [None] for a byte that is no
    character. *)
Definition code_point (ch : string) : option N :=
  match ch with
  | String c EmptyString =>
      if Nat.leb (ord c) 127 then Some (byte c) else None
  | String c (String d EmptyString) =>
      Some ((byte c - 192) * 64 + (byte d - 128))%N
  | String c (String d (String e EmptyString)) =>
      Some ((byte c - 224) * 4096 + (byte d - 128) * 64 + (byte e - 128))%N
  | String c (String d (String e (String f EmptyString))) =>
      Some ((byte c - 240) * 262144 + (byte d - 128) * 4096 +
            (byte e - 128) * 64 + (byte f - 128))%N
  | _ => None
  end.

Definition in_range (lo hi n : N) : bool := N.leb lo n && N.leb n hi.

(** [str.isspace] on one code point: TAB, LF, VT, FF, CR, the separators
    FS, GS, RS, US, the space, NEL (U+0085), the no-break space (U+00A0),
    the Ogham space mark (U+1680), the spaces U+2000 to U+200A, the line
    and paragraph separators (U+2028, U+2029), the narrow no-break space
    (U+202F), the medium mathematical space (U+205F) and the ideographic
    space (U+3000). *)
Definition is_space_code (n : N) : bool :=
  in_range 9 13 n || in_range 28 32 n || N.eqb n 133 || N.eqb n 160 ||
  N.eqb n 5760 || in_range 8192 8202 n || in_range 8232 8233 n ||
  N.eqb n 8239 || N.eqb n 8287 || N.eqb n 12288.

(** [ch.isspace()] for one character. *)
Definition is_space (ch : string) : bool :=
  match code_point ch with
  | Some n => is_space_code n
  | None => false
  end.

Fixpoint lstrip_chars (l : list string) : list string :=
  match l with
  | [] => []
  | ch :: l' => if is_space ch then lstrip_chars l' else l
  end.

Fixpoint rstrip_chars (l : list string) : list string :=
  match l with
  | [] => []
  | ch :: l' =>
      match rstrip_chars l' with
      | [] => if is_space ch then [] else [ch]
      | r => ch :: r
      end
  end.

(** [s.strip()] *)
Definition strip (s : string) : string :=
  concat (rstrip_chars (lstrip_chars (chars s))).

Definition starts_space (l : list string) : bool :=
  match l with
  | [] => false
  | ch :: _ => is_space ch
  end.

Fixpoint ends_space (l : list string) : bool :=
  match l with
  | [] => false
  | [ch] => is_space ch
  | _ :: l' => ends_space l'
  end.

(** Characters are trimmed when neither the first nor the last is
    whitespace. *)
Definition trimmed (l : list string) : Prop :=
  starts_space l = false /\ ends_space l = false.

(** Has the text ASCII characters only? *)
Fixpoint is_ascii (s : string) : bool :=
  match s with
  | EmptyString => true
  | String c s' => Nat.leb (ord c) 127 && is_ascii s'
  end.

(** [s.split(sep)] for a one-character separator: never empty, and
    [""] splits into [[""]]. *)
Fixpoint split (sep : ascii) (s : string) : list string :=
  match s with
  | EmptyString => [EmptyString]
  | String c s' =>
      if Ascii.eqb c sep then EmptyString :: split sep s'
      else match split sep s' with
           | [] => [String c EmptyString]
           | h :: t => String c h :: t
           end
  end.

Definition upper_char (c : ascii) : ascii :=
  if between 97 122 (ord c) then chr (ord c - 32) else c.
Definition lower_char (c : ascii) : ascii :=
  if between 65 90 (ord c) then chr (ord c + 32) else c.

Fixpoint map_chars (f : ascii -> ascii) (s : string) : string :=
  match s with
  | EmptyString => EmptyString
  | String c s' => String (f c) (map_chars f s')
  end.

(** [s.upper()], [s.capitalize()] *)
Definition upper (s : string) : string := map_chars upper_char s.
Definition capitalize (s : string) : string :=
  match s with
  | EmptyString => EmptyString
  | String c s' => String (upper_char c) (map_chars lower_char s')
  end.

(** [sep.join(l)] *)
Fixpoint join (sep : string) (l : list string) : string :=
  match l with
  | [] => EmptyString
  | [x] => x
  | x :: l' => x +:+ sep +:+ join sep l'
  end.

(** [c * n] for a one-character string [c] *)
Fixpoint repeat_char (c : ascii) (n : nat) : string :=
  match n with
  | O => EmptyString
  | S n' => String c (repeat_char c n')
  end.

Fixpoint any_char (f : ascii -> bool) (s : string) : bool :=
  match s with
  | EmptyString => false
  | String c s' => f c || any_char f s'
  end.

Fixpoint concat_map (f : ascii -> string) (s : string) : string :=
  match s with
  | EmptyString => EmptyString
  | String c s' => f c +:+ concat_map f s'
  end.

Definition quote : ascii := "'".
Definition dquote : ascii := chr 34.
Definition backslash : ascii := chr 92.

Definition hex_digit (n : nat) : ascii :=
  if Nat.ltb n 10 then chr (48 + n) else chr (87 + n).

(** Does [repr] copy the byte?  It copies the printable ASCII
    characters, and the bytes of the characters outside ASCII. *)
Definition is_printable (c : ascii) : bool :=
  between 32 126 (ord c) || Nat.leb 128 (ord c).

(** How [repr] writes one character between quotes [q]. *)
Definition repr_char (q c : ascii) : string :=
  if Ascii.eqb c backslash then String backslash (String backslash EmptyString)
  else if Ascii.eqb c q then String backslash (String q EmptyString)
  else if Nat.eqb (ord c) 10 then String backslash "n"
  else if Nat.eqb (ord c) 13 then String backslash "r"
  else if Nat.eqb (ord c) 9 then String backslash "t"
  else if is_printable c then String c EmptyString
  else String backslash
         (String "x" (String (hex_digit (Nat.div (ord c) 16))
                             (String (hex_digit (Nat.modulo (ord c) 16)) EmptyString))).

(** [repr(s)]: single quotes, unless the string has a single quote and
    no double quote. *)
Definition repr_str (s : string) : string :=
  let q := if any_char (Ascii.eqb quote) s && negb (any_char (Ascii.eqb dquote) s)
           then dquote else quote in
  String q (concat_map (repr_char q) s) +:+ String q EmptyString.

(** [repr] of a list of strings. *)
Definition repr_list (l : list string) : string :=
  "[" +:+ join ", " (map repr_str l) +:+ "]".

Definition digit_of (c : ascii) : option Z :=
  if between 48 57 (ord c) then Some (Z.of_nat (ord c - 48)) else None.

(** The digits of a decimal literal: groups of digits separated by
    single underscores.  [after_digit] tells whether the previous
    character was a digit; the result carries the number of digits. *)
Fixpoint parse_digits (s : string) (acc : Z) (ndigits : nat)
         (after_digit : bool) : option (Z * nat) :=
  match s with
  | EmptyString => if after_digit then Some (acc, ndigits) else None
  | String c s' =>
      match digit_of c with
      | Some d => parse_digits s' (10 * acc + d) (S ndigits) true
      | None =>
          if Ascii.eqb c "_" && after_digit
          then parse_digits s' acc ndigits false
          else None
      end
  end.

(** What [int] makes of one character before it parses: an ASCII
    character is kept; outside ASCII, whitespace becomes a space and a
    decimal digit the ASCII digit of its value; any other character is
    refused.  [decimal] is the interpreter's table of the decimal digits
    outside ASCII. *)
Definition to_ascii (decimal : N -> option Z) (ch : string) : option ascii :=
  match ch with
  | String c EmptyString =>
      if Nat.leb (ord c) 127 then Some c else None
  | _ =>
      match code_point ch with
      | Some n =>
          if is_space_code n then Some " "%char
          else
            match decimal n with
            | Some d =>
                if (0 <=? d) && (d <=? 9) then Some (chr (48 + Z.to_nat d)) else None
            | None => None
            end
      | None => None
      end
  end.

Fixpoint transliterate (decimal : N -> option Z) (l : list string) : option string :=
  match l with
  | [] => Some EmptyString
  | ch :: l' =>
      match to_ascii decimal ch, transliterate decimal l' with
      | Some c, Some s => Some (String c s)
      | _, _ => None
      end
  end.

(** [int(s)] in base ten: whitespace around, an optional sign, digits;
    [None] stands for [ValueError].  [max_digits]
    is the interpreter's [sys.get_int_max_str_digits()]: [0] disables
    the limit, otherwise a literal with more digits is refused. *)
Definition parse_int (decimal : N -> option Z) (max_digits : nat) (s : string)
  : option Z :=
  match transliterate decimal (chars s) with
  | None => None
  | Some a =>
      let t := rstrip_with is_c_space (lstrip_with is_c_space a) in
      let '(neg, body) :=
        match t with
        | String c r =>
            if Ascii.eqb c "-" then (true, r)
            else if Ascii.eqb c "+" then (false, r)
            else (false, t)
        | EmptyString => (false, t)
        end in
      match parse_digits body 0 0 false with
      | Some (n, k) =>
          if negb (Nat.eqb max_digits 0) && Nat.ltb max_digits k then None
          else Some (if neg then - n else n)
      | None => None
      end
  end.

End PyStr.

(* ================================================================== *)
(** * Values and exceptions *)
(* ================================================================== *)

(** The values a configuration document, an override set or a resolved
    setting can hold: what [json.load] produces, which is also what the
    command line supplies. *)
#[warnings="-register-all"]
Inductive value : Type :=
| VNone
| VBool (b : bool)
| VInt (n : Z)
| VFloat (f : float)
| VStr (s : string)
| VList (l : list value)
| VDict (d : gmap string value).

(** Truth value of an object, as tested by [if v:]. *)
Definition truthy (v : value) : bool :=
  match v with
  | VNone => false
  | VBool b => b
  | VInt n => negb (Z.eqb n 0)
  | VFloat f => negb (PrimFloat.eqb f 0%float)
  | VStr s => negb (String.eqb s "")
  | VList l => match l with [] => false | _ => true end
  | VDict d => negb (bool_decide (d = ∅))
  end.

(** [type(v).__name__] *)
Definition type_name (v : value) : string :=
  match v with
  | VNone => "NoneType"
  | VBool _ => "bool"
  | VInt _ => "int"
  | VFloat _ => "float"
  | VStr _ => "str"
  | VList _ => "list"
  | VDict _ => "dict"
  end.

(** [v is None] *)
Definition is_none (v : value) : bool :=
  match v with VNone => true | _ => false end.

(** The exception classes the code raises, catches or lets through. *)
Inductive exn_class : Set :=
| BaseException | SystemExit | KeyboardInterrupt | CancelledError
| Exception | OSError | FileNotFoundError | EOFError
| ValueError | JSONDecodeError
| LookupError | KeyError | IndexError
| TypeError | AttributeError | TemplateError.

Definition exn_class_eqb (c d : exn_class) : bool :=
  match c, d with
  | BaseException, BaseException | SystemExit, SystemExit
  | KeyboardInterrupt, KeyboardInterrupt | CancelledError, CancelledError
  | Exception, Exception | OSError, OSError
  | FileNotFoundError, FileNotFoundError | EOFError, EOFError
  | ValueError, ValueError | JSONDecodeError, JSONDecodeError
  | LookupError, LookupError | KeyError, KeyError | IndexError, IndexError
  | TypeError, TypeError | AttributeError, AttributeError
  | TemplateError, TemplateError => true
  | _, _ => false
  end.

(** The direct base class. *)
Definition base_of (c : exn_class) : option exn_class :=
  match c with
  | BaseException => None
  | SystemExit | KeyboardInterrupt | CancelledError | Exception => Some BaseException
  | OSError | EOFError | ValueError | LookupError | TypeError
  | AttributeError | TemplateError => Some Exception
  | FileNotFoundError => Some OSError
  | JSONDecodeError => Some ValueError
  | KeyError | IndexError => Some LookupError
  end.

Fixpoint subclass_upto (fuel : nat) (c d : exn_class) : bool :=
  exn_class_eqb c d ||
  match fuel with
  | O => false
  | S fuel' =>
      match base_of c with
      | Some b => subclass_upto fuel' b d
      | None => false
      end
  end.

(** [issubclass(c, d)]; the hierarchy is three levels deep. *)
Definition issubclass (c d : exn_class) : bool := subclass_upto 3 c d.

(** A raised exception: its class and [str(e)]. *)
Record exn : Set := mk_exn { exn_cls : exn_class; exn_str : string }.

(** [isinstance(e, d)], the test of an [except d:] clause. *)
Definition isinstance (e : exn) (d : exn_class) : bool :=
  issubclass (exn_cls e) d.

Inductive result (A : Type) : Type :=
| Ok (a : A)
| Raise (e : exn).
Arguments Ok {A} a.
Arguments Raise {A} e.

(* ================================================================== *)
(** * Dotted-path lookup and the three-tier resolution *)
(* ================================================================== *)

(** [value[key]] for a string [key]. *)
Definition subscript (v : value) (key : string) : result value :=
  match v with
  | VDict d =>
      match d !! key with
      | Some x => Ok x
      | None => Raise (mk_exn KeyError (PyStr.repr_str key))
      end
  | VList _ => Raise (mk_exn TypeError "list indices must be integers or slices, not str")
  | VStr _ => Raise (mk_exn TypeError "string indices must be integers, not 'str'")
  | _ => Raise (mk_exn TypeError ("'" +:+ type_name v +:+ "' object is not subscriptable"))
  end.

(** The loop [for key in keys: value = value[key]]. *)
Fixpoint walk (v : value) (keys : list string) : result value :=
  match keys with
  | [] => Ok v
  | key :: keys' =>
      match subscript v key with
      | Ok v' => walk v' keys'
      | Raise e => Raise e
      end
  end.

(** loader.py, [get_default_config_value(config, key_path, default)].
    The handler is [except (KeyError, TypeError)]; these are the only
    classes the loop raises ([walk_raises] below), so every exception of
    the loop ends in [default]. *)
Definition get_default_config_value (config : value) (key_path : string)
           (default : value) : value :=
  let keys := PyStr.split "." key_path in
  match walk config keys with
  | Ok v => v
  | Raise _ => default
  end.

(** The lookup as the specification words it: every segment of the path
    must be a key present in a mapping; the value found there, if any. *)
Fixpoint path_value (doc : value) (segments : list string) : option value :=
  match segments with
  | [] => Some doc
  | seg :: rest =>
      match doc with
      | VDict d =>
          match d !! seg with
          | Some v => path_value v rest
          | None => None
          end
      | _ => None
      end
  end.

(* ================================================================== *)
(** * The world the program runs in *)
(* ================================================================== *)

(** One constructor per [print] statement of the package; [render_log]
    below gives the text. *)
Inductive log_msg : Type :=
(* platform.py, [run], verbose block *)
| LConfiguration (browser_config : value)
| LLlm (llm_config : value)
| LProfileDir (dir : value)
| LTracePath (path : value)
(* factory.py, [run_single_platform] *)
| LStartingSingle (name : string)
| LCompleted (name : string)
| LErrorSingle (name : string) (e : exn)
(* factory.py, [run_all_platforms] *)
| LRunningAll (names : list string)
| LBannerTop
| LStartingAll (name : string)
| LBannerBottom
| LErrorAll (name : string) (e : exn)
| LSessionEnded (name : string)
(* factory.py, [interactive_mode] *)
| LMenuHeader
| LMenuItem (i : Z) (name : string)
| LMenuAll (i : Z)
| LMenuExit (i : Z)
| LGoodbye
| LInvalidChoice (hi : Z)
| LNotANumber
(* factory.py, [run_from_args] *)
| LMustSpecify
| LUnknownPlatform (name : string)
| LAvailable (names : list string)
| LUseAll
| LFatal (e : exn).

(** The calls into the automation library.  A session is identified by
    the keyword arguments of its [BrowserProfile]. *)
Inductive call : Type :=
| NewSession (profile : gmap string value)
| Start (profile : gmap string value)
| Navigate (profile : gmap string value) (url : string)
| NewLlm (llm_config : gmap string value)
| NewAgent (args : gmap string value)
| AgentRun (args : gmap string value)
| Stop (profile : gmap string value).

Inductive event : Type :=
| EvPrint (m : log_msg)
| EvInput (prompt : string)
| EvLoadDotenv
| EvCall (c : call) (failure : option exn).

Record World : Type := mk_World {
  trace : list event;            (* what happened so far, oldest first *)
  stdin : list string;           (* the lines still to be read *)
  environ : gmap string string   (* os.environ *)
}.

(** The namespace [parser.parse_args()] returns. *)
Record Args : Type := mk_Args {
  a_platform : option string;
  a_config : option string;
  a_headless : bool;
  a_viewport_width : option Z;
  a_viewport_height : option Z;
  a_min_wait : option float;
  a_max_wait : option float;
  a_profile_dir : option string;
  a_trace_path : option string;
  a_model : option string;
  a_verbose : bool;
  a_interactive : bool
}.

(** An error a library raises when it fails: an instance of
    [Exception], of whatever class. *)
Record failure : Type := mk_failure {
  failure_exn : exn;
  failure_is_exception : isinstance failure_exn Exception = true
}.

(** What the package takes from its collaborators: the file system, the
    JSON and template libraries, the interpreter, the argument parser and
    the automation library.  A path names nothing or a text file that can
    be read; apart from that, nothing is assumed about them. *)
Record Env : Type := mk_Env {
  home : string;                                (* Path.home() *)
  project_root : string;                        (* Path(__file__).parent.parent *)
  files : string -> option string;              (* content of the file a path names *)
  json_load : string -> string + value;         (* message of JSONDecodeError, or the document *)
  jinja_render : string -> string -> value -> failure + string;
                                                (* directory, template, context:
                                                   the error of get_template or of
                                                   render (TemplateError, or the
                                                   TypeError or ValueError of a context
                                                   that is no mapping), or the text *)
  dotenv : gmap string string;                  (* the variables of the .env file *)
  py_repr : value -> string;                    (* repr(v) *)
  format_field : string -> string -> result string;
                                                (* str.format on a replacement field
                                                   that is not a plain name *)
  unicode_decimal : N -> option Z;              (* unicodedata.decimal(chr(n), None),
                                                   asked for n outside ASCII *)
  int_max_str_digits : nat;                     (* sys.get_int_max_str_digits() *)
  parse_args : result Args;                     (* parser.parse_args() on sys.argv *)
  ext : list event -> call -> option exn        (* does this call fail, given the past? *)
}.

(** ** The monad of effectful code *)

Definition M (A : Type) : Type := World -> result A * World.

Definition ret {A} (a : A) : M A := fun w => (Ok a, w).

Definition bind {A B} (m : M A) (k : A -> M B) : M B :=
  fun w =>
    match m w with
    | (Ok a, w') => k a w'
    | (Raise e, w') => (Raise e, w')
    end.

Definition raise {A} (e : exn) : M A := fun w => (Raise e, w).

Definition lift {A} (r : result A) : M A := fun w => (r, w).

Declare Scope py_scope.
Delimit Scope py_scope with py.
Notation "'let!' x ':=' m 'in' k" := (bind m (fun x => k))
  (at level 10, x name, m at level 100, k at level 200) : py_scope.
Notation "m ';;;' k" := (bind m (fun _ => k))
  (at level 100, k at level 200, right associativity) : py_scope.
Local Open Scope py_scope.

(** [try: body / except cls as e: handler e] *)
Definition try_except {A} (body : M A) (cls : exn_class) (handler : exn -> M A) : M A :=
  fun w =>
    match body w with
    | (Ok a, w') => (Ok a, w')
    | (Raise e, w') => if isinstance e cls then handler e w' else (Raise e, w')
    end.

(** [try: body / finally: final]: [final] runs on every exit of [body];
    an exception of [final] replaces the outcome of [body]. *)
Definition try_finally {A} (body : M A) (final : M unit) : M A :=
  fun w =>
    match body w with
    | (r, w') =>
        match final w' with
        | (Ok _, w'') => (r, w'')
        | (Raise e, w'') => (Raise e, w'')
        end
    end.

Definition emit (ev : event) : M unit :=
  fun w => (Ok tt, mk_World (trace w ++ [ev]) (stdin w) (environ w)).

Definition print (m : log_msg) : M unit := emit (EvPrint m).

(** [sys.exit(code)] *)
Definition sys_exit {A} (code : Z) : M A := raise (mk_exn SystemExit (pretty code)).

(** [for x in l: body x] *)
Fixpoint for_each {A} (l : list A) (body : A -> M unit) : M unit :=
  match l with
  | [] => ret tt
  | x :: l' => body x ;;; for_each l' body
  end.

(** [str(v)], as an f-string does it. *)
Definition py_str (env : Env) (v : value) : string :=
  match v with
  | VStr s => s
  | _ => py_repr env v
  end.

(** [int(s)], as this interpreter computes it. *)
Definition py_int (env : Env) (s : string) : option Z :=
  PyStr.parse_int (unicode_decimal env) (int_max_str_digits env) s.

Definition banner : string := PyStr.repeat_char "=" 50.

(** The line a [print] statement writes, for a platform name in ASCII,
    as the names of the registry are. *)
Definition render_log (env : Env) (m : log_msg) : string :=
  match m with
  | LConfiguration c => "Configuration: " +:+ py_repr env c
  | LLlm c => "LLM: " +:+ py_repr env c
  | LProfileDir d => "Profile dir: " +:+ py_str env d
  | LTracePath t => "Trace path: " +:+ py_str env t
  | LStartingSingle n => "Starting " +:+ PyStr.upper n +:+ " dating agent..."
  | LCompleted n => PyStr.upper n +:+ " agent completed successfully."
  | LErrorSingle n e => "Error running " +:+ PyStr.upper n +:+ " agent: " +:+ exn_str e
  | LRunningAll ns => "Running agents for all platforms: " +:+ PyStr.join ", " ns
  | LBannerTop => PyStr.nl +:+ banner
  | LStartingAll n => "Starting " +:+ PyStr.upper n +:+ " agent..."
  | LBannerBottom => banner
  | LErrorAll n e => "Error running " +:+ PyStr.upper n +:+ " agent: " +:+ exn_str e
  | LSessionEnded n => PyStr.nl +:+ PyStr.upper n +:+ " agent session ended."
  | LMenuHeader => "Available dating platforms:"
  | LMenuItem i n => "  " +:+ pretty i +:+ ". " +:+ PyStr.capitalize n
  | LMenuAll i => "  " +:+ pretty i +:+ ". All platforms"
  | LMenuExit i => "  " +:+ pretty i +:+ ". Exit"
  | LGoodbye => "Goodbye!"
  | LInvalidChoice hi => "Invalid choice. Please enter 1-" +:+ pretty hi
  | LNotANumber => "Please enter a valid number."
  | LMustSpecify => "Error: You must specify a platform or use --interactive"
  | LUnknownPlatform n => "Error: Unknown platform '" +:+ n +:+ "'"
  | LAvailable ns => "Available platforms: " +:+ PyStr.join ", " ns
  | LUseAll => "Use 'all' to run all platforms or --interactive for interactive mode"
  | LFatal e => "Fatal error: " +:+ exn_str e
  end.

(* ================================================================== *)
(** * loader.py *)
(* ================================================================== *)

Section Loader.
Variable env : Env.

(** [Path(a) / b].  Paths are strings in [pathlib]'s normal form (no
    doubled or trailing separator, no [.] segment), for which [Path(p)]
    prints as [p]; [files] tells what the file system holds under each. *)
Definition joinpath (a b : string) : string := a +:+ "/" +:+ b.

Definition path_exists (path : string) : bool :=
  match files env path with Some _ => true | None => false end.

Definition get_project_root : string := project_root env.

(** [get_xdg_config_home()]: reads [os.environ] when called. *)
Definition get_xdg_config_home : M string :=
  fun w =>
    match environ w !! "XDG_CONFIG_HOME" with
    | Some xdg_config_home =>
        if negb (String.eqb xdg_config_home "") then (Ok xdg_config_home, w)
        else (Ok (joinpath (home env) ".config"), w)
    | None => (Ok (joinpath (home env) ".config"), w)
    end.

Definition get_default_config_path : M string :=
  let! d := get_xdg_config_home in
  ret (joinpath (joinpath d "wifebot") "config.json").

(** [load_config(config_path)], for a path that names nothing or a text
    file that can be read: [files] has no directory and no file that
    [open] or the decoder refuses. *)
Definition load_config (config_path : value) : M value :=
  let! path :=
    match config_path with
    | VNone => get_default_config_path
    | VStr p => ret p
    | _ => raise (mk_exn TypeError
                    ("expected str, bytes or os.PathLike object, not " +:+
                     type_name config_path))
    end in
  if negb (path_exists path)
  then raise (mk_exn FileNotFoundError ("Configuration file not found: " +:+ path))
  else
    match files env path with
    | Some content =>
        match json_load env content with
        | inr config => ret config
        | inl msg => raise (mk_exn JSONDecodeError msg)
        end
    | None => raise (mk_exn FileNotFoundError
                       ("[Errno 2] No such file or directory: " +:+ PyStr.repr_str path))
    end.

Definition prompts_dir_or_default (prompts_dir : option string) : string :=
  match prompts_dir with
  | None => joinpath get_project_root "prompts"
  | Some d => d
  end.

(** [load_prompt(prompt_name, prompts_dir)] *)
Definition load_prompt (prompt_name : string) (prompts_dir : option string)
  : result string :=
  let prompt_file := joinpath (prompts_dir_or_default prompts_dir)
                              (prompt_name +:+ ".txt") in
  if negb (path_exists prompt_file)
  then Raise (mk_exn FileNotFoundError ("Prompt file not found: " +:+ prompt_file))
  else
    match files env prompt_file with
    | Some content => Ok (PyStr.strip content)
    | None => Raise (mk_exn FileNotFoundError
                       ("[Errno 2] No such file or directory: " +:+
                        PyStr.repr_str prompt_file))
    end.

(** [render_prompt_template(template_name, config, prompts_dir)] *)
Definition render_prompt_template (template_name : string) (config : value)
           (prompts_dir : option string) : result string :=
  match jinja_render env (prompts_dir_or_default prompts_dir) template_name config with
  | inr rendered => Ok (PyStr.strip rendered)
  | inl f => Raise (failure_exn f)
  end.

(** ** [str.format] with the single keyword argument [platform] *)

Definition is_field_operator (c : ascii) : bool :=
  Ascii.eqb c "!" || Ascii.eqb c ":" || Ascii.eqb c "." ||
  Ascii.eqb c "[" || Ascii.eqb c "{" || Ascii.eqb c "}".

Fixpoint all_digits (s : string) : bool :=
  match s with
  | EmptyString => true
  | String c s' =>
      match PyStr.digit_of c with Some _ => all_digits s' | None => false end
  end.

(** The value of one replacement field.  A plain name is looked up among
    the keyword arguments, of which there is one.  A field with a
    conversion, a format spec, an attribute, an index or a nested field,
    a numbered or empty field, and a field with a character outside
    ASCII, is left to the interpreter. *)
Definition eval_field (field platform : string) : result string :=
  if PyStr.any_char is_field_operator field || all_digits field ||
     negb (PyStr.is_ascii field)
  then format_field env field platform
  else if String.eqb field "platform" then Ok platform
  else Raise (mk_exn KeyError (PyStr.repr_str field)).

Inductive fmt_state : Type :=
| InText
| InField (depth : nat) (field : string).

Definition snoc (s : string) (c : ascii) : string := s +:+ String c EmptyString.

Fixpoint format_go (s : string) (st : fmt_state) (out platform : string)
  : result string :=
  match s with
  | EmptyString =>
      match st with
      | InText => Ok out
      | InField _ _ => Raise (mk_exn ValueError "expected '}' before end of string")
      end
  | String c s' =>
      match st with
      | InText =>
          if Ascii.eqb c "{" then
            match s' with
            | EmptyString =>
                Raise (mk_exn ValueError "Single '{' encountered in format string")
            | String c' s'' =>
                if Ascii.eqb c' "{" then format_go s'' InText (snoc out "{") platform
                else format_go s' (InField 0 EmptyString) out platform
            end
          else if Ascii.eqb c "}" then
            match s' with
            | String c' s'' =>
                if Ascii.eqb c' "}" then format_go s'' InText (snoc out "}") platform
                else Raise (mk_exn ValueError "Single '}' encountered in format string")
            | EmptyString =>
                Raise (mk_exn ValueError "Single '}' encountered in format string")
            end
          else format_go s' InText (snoc out c) platform
      | InField depth field =>
          if Ascii.eqb c "}" then
            match depth with
            | O =>
                match eval_field field platform with
                | Ok v => format_go s' InText (out +:+ v) platform
                | Raise e => Raise e
                end
            | S d => format_go s' (InField d (snoc field c)) out platform
            end
          else if Ascii.eqb c "{"
               then format_go s' (InField (S depth) (snoc field c)) out platform
               else format_go s' (InField depth (snoc field c)) out platform
      end
  end.

(** [expand_path_template(template, platform=platform)], that is
    [template.format(platform=platform)]; only a [str] has [format]. *)
Definition expand_path_template (template : value) (platform : string)
  : result string :=
  match template with
  | VStr t => format_go t InText EmptyString platform
  | _ => Raise (mk_exn AttributeError
                  ("'" +:+ type_name template +:+ "' object has no attribute 'format'"))
  end.

(** [get_profile_dir(config, platform, custom_dir)] *)
Definition get_profile_dir (config : value) (platform : string)
           (custom_dir : value) : result value :=
  if truthy custom_dir then Ok custom_dir
  else
    let template :=
      get_default_config_value config "paths.profile_dir_template"
        (VStr "~/.config/browseruse/profiles/{platform}") in
    match expand_path_template template platform with
    | Ok s => Ok (VStr s)
    | Raise e => Raise e
    end.

(** [get_trace_path(config, platform, custom_path)] *)
Definition get_trace_path (config : value) (platform : string)
           (custom_path : value) : result value :=
  if truthy custom_path then Ok custom_path
  else
    let template :=
      get_default_config_value config "paths.trace_path_template"
        (VStr "/tmp/wifebot/{platform}") in
    match expand_path_template template platform with
    | Ok s => Ok (VStr s)
    | Raise e => Raise e
    end.

End Loader.

(* ================================================================== *)
(** * platform.py and the four variants *)
(* ================================================================== *)

(** What a subclass of [Platform] defines: [name], [url], and the prompt
    that [platform_instructions] loads. *)
Record Variant : Type := mk_Variant {
  v_name : string;
  v_url : string;
  v_instructions : string
}.

(** bumble.py, tinder.py, hinge.py, okcupid.py *)
Definition BumblePlatform : Variant :=
  mk_Variant "bumble" "https://bumble.com/app" "bumble_instructions".
Definition TinderPlatform : Variant :=
  mk_Variant "tinder" "https://tinder.com/app/recs" "tinder_instructions".
Definition HingePlatform : Variant :=
  mk_Variant "hinge" "https://hinge.co/discover" "hinge_instructions".
Definition OkCupidPlatform : Variant :=
  mk_Variant "okcupid" "https://www.okcupid.com/discover" "okcupid_instructions".

Module Platform.

(** An instance: its class and the attributes [__init__] sets. *)
Record t : Type := mk {
  variant : Variant;
  config : value;
  base_task : string;
  headless : value;
  viewport_width : value;
  viewport_height : value;
  min_wait : value;
  max_wait : value;
  model : value;
  verbose : value;
  _custom_profile_dir : value;
  _custom_trace_path : value
}.

Definition name (self : t) : string := v_name (variant self).
Definition url (self : t) : string := v_url (variant self).

(** [_resolve_config_value(self, param_name, kwargs, config_key,
    default_value)]; [cfg] is [self.config]. *)
Definition _resolve_config_value (cfg : value) (param_name : string)
           (kwargs : gmap string value) (config_key : string)
           (default_value : value) : value :=
  match kwargs !! param_name with
  | Some v => v
  | None =>
      let config_value := get_default_config_value cfg config_key VNone in
      if negb (is_none config_value) then config_value
      else default_value
  end.

(** [kwargs.get(key)] *)
Definition kwargs_get (kwargs : gmap string value) (key : string) : value :=
  match kwargs !! key with
  | Some v => v
  | None => VNone
  end.

(** The constructor defaults. *)
Definition defaults : gmap string value :=
  <["headless" := VBool false]>
  (<["viewport_width" := VInt 1280]>
  (<["viewport_height" := VInt 1100]>
  (<["min_wait" := VInt 1]>
  (<["max_wait" := VInt 10]>
  (<["model" := VStr "gpt-4o-mini"]>
  (<["verbose" := VBool false]> ∅)))))).

(** [defaults[key]] for a key of the literal above. *)
Definition default_of (key : string) : value := kwargs_get defaults key.

Section WithEnv.
Variable env : Env.

(** [load_dotenv()]: variables of the .env file are added to the
    environment; those already set keep their value. *)
Definition load_dotenv : M unit :=
  fun w => (Ok tt, mk_World (trace w ++ [EvLoadDotenv]) (stdin w)
                            (environ w ∪ dotenv env)).

(** [__init__], with [config_path] defaulting to [None] and the other
    keyword arguments collected in [kwargs] *)
Definition __init__ (cls : Variant) (config_path : value)
           (kwargs : gmap string value) : M t :=
  load_dotenv ;;;
  let! cfg := try_except (load_config env config_path) FileNotFoundError
                         (fun _ => ret (VDict ∅)) in
  let! base := lift (render_prompt_template env "base_task.tpl" cfg None) in
  let resolve param key := _resolve_config_value cfg param kwargs key (default_of param) in
  ret (mk cls cfg base
          (resolve "headless" "browser.headless")
          (resolve "viewport_width" "browser.viewport.width")
          (resolve "viewport_height" "browser.viewport.height")
          (resolve "min_wait" "browser.minimum_wait_page_load_time")
          (resolve "max_wait" "browser.maximum_wait_page_load_time")
          (resolve "model" "llm.model")
          (resolve "verbose" "verbose")
          (kwargs_get kwargs "profile_dir")
          (kwargs_get kwargs "trace_path")).

(** The call of the class on unpacked keyword arguments: a
    [config_path] entry binds the named parameter, the others are
    collected as [kwargs]. *)
Definition new (cls : Variant) (kwargs : gmap string value) : M t :=
  __init__ cls (kwargs_get kwargs "config_path") (delete "config_path" kwargs).

(** The properties. *)
Definition platform_instructions (self : t) : result string :=
  load_prompt env (v_instructions (variant self)) None.

Definition profile_dir (self : t) : result value :=
  get_profile_dir env (config self) (name self) (_custom_profile_dir self).

Definition trace_path (self : t) : result value :=
  get_trace_path env (config self) (name self) (_custom_trace_path self).

Definition viewport (self : t) : gmap string value :=
  <["width" := viewport_width self]> (<["height" := viewport_height self]> ∅).

Definition browser_config (self : t) : gmap string value :=
  <["headless" := headless self]>
  (<["minimum_wait_page_load_time" := min_wait self]>
  (<["maximum_wait_page_load_time" := max_wait self]>
  (<["viewport" := VDict (viewport self)]> ∅))).

Definition llm_config (self : t) : gmap string value :=
  <["model" := model self]> ∅.

Definition task (self : t) : result string :=
  match platform_instructions self with
  | Ok instructions => Ok (base_task self +:+ PyStr.nl2 +:+ instructions)
  | Raise e => Raise e
  end.

(** A call into the automation library: it is recorded, and fails
    or not as the library decides. *)
Definition external (c : call) : M unit :=
  fun w =>
    let failure := ext env (trace w) c in
    let w' := mk_World (trace w ++ [EvCall c failure]) (stdin w) (environ w) in
    match failure with
    | None => (Ok tt, w')
    | Some e => (Raise e, w')
    end.

(** The keyword arguments of [Agent(...)], once the session and the
    model client exist. *)
Definition agent_args (task_text : string) (tp : value) : gmap string value :=
  <["task" := VStr task_text]>
  (<["available_file_paths" := VList [tp]]>
  (<["file_system_path" := tp]>
  (<["save_conversation_path" := VStr (py_str env tp +:+ "/conversation.json")]> ∅))).

(** [async def run(self)] *)
Definition run (self : t) : M unit :=
  (if truthy (verbose self) then
     print (LConfiguration (VDict (browser_config self))) ;;;
     print (LLlm (VDict (llm_config self))) ;;;
     (let! d := lift (profile_dir self) in print (LProfileDir d)) ;;;
     (let! p := lift (trace_path self) in print (LTracePath p))
   else ret tt) ;;;
  let! d := lift (profile_dir self) in
  let! p := lift (trace_path self) in
  let profile :=
    <["user_data_dir" := d]> (<["trace_path" := p]> (browser_config self)) in
  external (NewSession profile) ;;;
  external (Start profile) ;;;
  try_finally
    (external (Navigate profile (url self)) ;;;
     let! task_text := lift (task self) in
     external (NewLlm (llm_config self)) ;;;
     let! p' := lift (trace_path self) in
     let args := agent_args task_text p' in
     external (NewAgent args) ;;;
     external (AgentRun args))
    (external (Stop profile)).

End WithEnv.

End Platform.

(* ================================================================== *)
(** * factory.py and main.py *)
(* ================================================================== *)

Module PlatformFactory.

Record t : Type := mk {
  platforms : list (string * Variant);   (* the registry, in declaration order *)
  config : value;
  config_path : value
}.

(** The dictionary literal of [__init__]. *)
Definition registry : list (string * Variant) :=
  [ ("bumble", BumblePlatform);
    ("tinder", TinderPlatform);
    ("hinge", HingePlatform);
    ("okcupid", OkCupidPlatform) ].

(** [self.platforms[name]] *)
Fixpoint getitem (l : list (string * Variant)) (name : string) : option Variant :=
  match l with
  | [] => None
  | (k, cls) :: l' => if String.eqb k name then Some cls else getitem l' name
  end.

(** [name in self.platforms] *)
Definition contains (l : list (string * Variant)) (name : string) : bool :=
  match getitem l name with Some _ => true | None => false end.

(** [get_available_platforms(self)] *)
Definition get_available_platforms (self : t) : list string :=
  map fst (platforms self).

(** The message of the [ValueError] of [create_platform]. *)
Definition unknown_platform (self : t) (platform_name : string) : exn :=
  mk_exn ValueError
    ("Unknown platform: " +:+ platform_name +:+ ". Available: " +:+
     PyStr.repr_list (get_available_platforms self)).

(** Truth value of an optional command-line string. *)
Definition given (o : option string) : bool :=
  match o with
  | Some s => negb (String.eqb s "")
  | None => false
  end.

Definition set_if {A} (test : bool) (key : string) (v : A)
           (inj : A -> value) (d : gmap string value) : gmap string value :=
  if test then <[key := inj v]> d else d.

Definition set_some {A} (o : option A) (key : string) (inj : A -> value)
           (d : gmap string value) : gmap string value :=
  match o with
  | Some v => <[key := inj v]> d
  | None => d
  end.

(** [extract_platform_config(self, args)]; the assignments are applied
    in the order of the source, the first one innermost. *)
Definition extract_platform_config (self : t) (args : Args) : gmap string value :=
  let c0 : gmap string value :=
    if given (a_config args)
    then set_some (a_config args) "config_path" VStr ∅
    else if truthy (config_path self)
         then <["config_path" := config_path self]> ∅
         else ∅ in
  let c1 := set_if (a_headless args) "headless" true VBool c0 in
  let c2 := set_some (a_viewport_width args) "viewport_width" VInt c1 in
  let c3 := set_some (a_viewport_height args) "viewport_height" VInt c2 in
  let c4 := set_some (a_min_wait args) "min_wait" VFloat c3 in
  let c5 := set_some (a_max_wait args) "max_wait" VFloat c4 in
  let c6 := set_some (a_model args) "model" VStr c5 in
  let c7 := set_if (a_verbose args) "verbose" true VBool c6 in
  let c8 := if given (a_profile_dir args)
            then set_some (a_profile_dir args) "profile_dir" VStr c7 else c7 in
  if given (a_trace_path args)
  then set_some (a_trace_path args) "trace_path" VStr c8 else c8.

Section WithEnv.
Variable env : Env.

(** [__init__(self, config_path=None)] *)
Definition __init__ (config_path : value) : M t :=
  let! cfg := load_config env config_path in
  ret (mk registry cfg config_path).

(** [create_platform(self, platform_name, kwargs)] *)
Definition create_platform (self : t) (platform_name : string)
           (kwargs : gmap string value) : M Platform.t :=
  if negb (contains (platforms self) platform_name)
  then raise (unknown_platform self platform_name)
  else
    match getitem (platforms self) platform_name with
    | Some cls => Platform.new env cls kwargs
    | None => raise (mk_exn KeyError (PyStr.repr_str platform_name))
    end.

(** [run_single_platform(self, platform_name, kwargs)] *)
Definition run_single_platform (self : t) (platform_name : string)
           (kwargs : gmap string value) : M unit :=
  print (LStartingSingle platform_name) ;;;
  try_except
    (let! platform := create_platform self platform_name kwargs in
     Platform.run env platform ;;;
     print (LCompleted platform_name))
    Exception
    (fun e => print (LErrorSingle platform_name e) ;;; raise e).

(** [run_all_platforms(self, kwargs)] *)
Definition run_all_platforms (self : t) (kwargs : gmap string value) : M unit :=
  let names := get_available_platforms self in
  print (LRunningAll names) ;;;
  for_each names (fun platform =>
    print LBannerTop ;;;
    print (LStartingAll platform) ;;;
    print LBannerBottom ;;;
    try_except (run_single_platform self platform kwargs)
               Exception
               (fun e => print (LErrorAll platform e)) ;;;
    print (LSessionEnded platform)).

(** The [while True] loop of [interactive_mode], over the lines left
    on standard input: the result, what was shown, and the lines not
    read.  Reading past the last line is [EOFError], which the
    [except ValueError] clause does not catch. *)
Fixpoint select_loop (names : list string) (inputs : list string)
  : result (option string) * list event * list string :=
  let n := Z.of_nat (length names) in
  let prompt :=
    EvInput (PyStr.nl +:+ "Select platform (1-" +:+ pretty (n + 2) +:+ "): ") in
  match inputs with
  | [] => (Raise (mk_exn EOFError "EOF when reading a line"), [prompt], [])
  | line :: rest =>
      match py_int env line with
      | None =>
          let '(r, evs, rest') := select_loop names rest in
          (r, prompt :: EvPrint LNotANumber :: evs, rest')
      | Some choice =>
          if choice =? n + 2 then (Ok None, [prompt; EvPrint LGoodbye], rest)
          else if choice =? n + 1 then (Ok (Some "all"), [prompt], rest)
          else if (1 <=? choice) && (choice <=? n) then
            match names !! Z.to_nat (choice - 1) with
            | Some name => (Ok (Some name), [prompt], rest)
            | None => (Raise (mk_exn IndexError "list index out of range"),
                       [prompt], rest)
            end
          else
            let '(r, evs, rest') := select_loop names rest in
            (r, prompt :: EvPrint (LInvalidChoice (n + 2)) :: evs, rest')
      end
  end.

(** The lines [interactive_mode] prints before it asks. *)
Fixpoint menu_items (i : Z) (names : list string) : list log_msg :=
  match names with
  | [] => []
  | name :: names' => LMenuItem i name :: menu_items (i + 1) names'
  end.

Definition menu (names : list string) : list log_msg :=
  let n := Z.of_nat (length names) in
  LMenuHeader :: menu_items 1 names ++ [LMenuAll (n + 1); LMenuExit (n + 2)].

(** [interactive_mode(self)]: a platform name, ["all"], or [None]. *)
Definition interactive_mode (self : t) : M (option string) :=
  let names := get_available_platforms self in
  for_each (menu names) print ;;;
  fun w =>
    let '(r, evs, rest) := select_loop names (stdin w) in
    (r, mk_World (trace w ++ evs) rest (environ w)).

(** [run_from_args(self, args)] *)
Definition run_from_args (self : t) (args : Args) : M unit :=
  let cfg := extract_platform_config self args in
  let guidance : M unit :=
    print (LAvailable (get_available_platforms self)) ;;;
    print LUseAll ;;;
    sys_exit 1 in
  try_except
    (if a_interactive args then
       let! selected_platform := interactive_mode self in
       match selected_platform with
       | None => ret tt
       | Some sel =>
           if String.eqb sel "all" then run_all_platforms self cfg
           else run_single_platform self sel cfg
       end
     else
       match a_platform args with
       | Some p =>
           if String.eqb p "all" then run_all_platforms self cfg
           else if contains (platforms self) p then run_single_platform self p cfg
           else print (LUnknownPlatform p) ;;; guidance
       | None => print LMustSpecify ;;; guidance
       end)
    Exception
    (fun e => print (LFatal e) ;;; sys_exit 1).

End WithEnv.

End PlatformFactory.

Section Main.
Variable env : Env.

(** main.py, [async_main()] *)
Definition async_main : M unit :=
  let! factory := PlatformFactory.__init__ env VNone in
  let! args := lift (parse_args env) in
  PlatformFactory.run_from_args env factory args.

(** main.py, [main()] *)
Definition main : M unit := async_main.

End Main.

(* ================================================================== *)
(** * Vocabulary of the properties *)
(* ================================================================== *)

(** The setting an instance gets when the configuration document says
    nothing: the override when there is one, else the built-in default. *)
Definition override_or_default (kwargs : gmap string value) (param : string) : value :=
  match kwargs !! param with
  | Some v => v
  | None => Platform.default_of param
  end.

(** The world right after [load_dotenv()]. *)
Definition after_dotenv (env : Env) (w : World) : World :=
  mk_World (trace w ++ [EvLoadDotenv]) (stdin w) (environ w ∪ dotenv env).

(** The file [load_config(config_path)] reads in world [w]. *)
Definition config_file (env : Env) (config_path : value) (w : World) : option string :=
  match config_path with
  | VNone =>
      match get_default_config_path env w with
      | (Ok path, _) => Some path
      | _ => None
      end
  | VStr p => Some p
  | _ => None
  end.

(** Is a browser session open after these events?  It is from a
    successful [start] until [stop] is called. *)
Fixpoint session_open_from (opened : bool) (evs : list event) : bool :=
  match evs with
  | [] => opened
  | EvCall (Start _) None :: evs' => session_open_from true evs'
  | EvCall (Stop _) _ :: evs' => session_open_from false evs'
  | _ :: evs' => session_open_from opened evs'
  end.

Definition session_open (evs : list event) : bool := session_open_from false evs.

(** The platforms [run_single_platform] was entered for, in order. *)
Definition attempt_of (ev : event) : option string :=
  match ev with EvPrint (LStartingSingle n) => Some n | _ => None end.
Definition attempts (evs : list event) : list string := omap attempt_of evs.

(** The platforms whose turn in [run_all_platforms] came to its end. *)
Definition ended_of (ev : event) : option string :=
  match ev with EvPrint (LSessionEnded n) => Some n | _ => None end.
Definition ended (evs : list event) : list string := omap ended_of evs.

(** The failures [run_single_platform] reported before raising them
    again, and those [run_all_platforms] caught and reported. *)
Definition raised_of (ev : event) : option (string * exn) :=
  match ev with EvPrint (LErrorSingle n e) => Some (n, e) | _ => None end.
Definition caught_of (ev : event) : option (string * exn) :=
  match ev with EvPrint (LErrorAll n e) => Some (n, e) | _ => None end.
Definition raised (evs : list event) : list (string * exn) := omap raised_of evs.
Definition caught (evs : list event) : list (string * exn) := omap caught_of evs.

(** The prompts shown, and the lines printed. *)
Definition prompt_of (ev : event) : option string :=
  match ev with EvInput p => Some p | _ => None end.
Definition prompts (evs : list event) : list string := omap prompt_of evs.
Definition printed_of (ev : event) : option log_msg :=
  match ev with EvPrint m => Some m | _ => None end.
Definition printed (evs : list event) : list log_msg := omap printed_of evs.

(** The events that are none of the four marks above: entering
    [run_single_platform], its report of a failure, the report of
    [run_all_platforms], and the end of a turn. *)
Definition inner_event (ev : event) : bool :=
  match ev with
  | EvPrint (LStartingSingle _ | LErrorSingle _ _ | LErrorAll _ _ | LSessionEnded _) => false
  | _ => true
  end.

(** The collaborators fail with ordinary errors only, that is with
    instances of [Exception]. *)
Definition ordinary (env : Env) : Prop :=
  (forall tr c e, ext env tr c = Some e -> isinstance e Exception = true) /\
  (forall field platform e,
      format_field env field platform = Raise e -> isinstance e Exception = true).

(** The text [t] is [s] without the whitespace at its two ends: the
    characters of [s] are whitespace characters [l], the characters [m]
    of [t], whose first and last are no whitespace, and whitespace
    characters [r]. *)
Definition is_strip_of (s t : string) : Prop :=
  exists l m r,
    PyStr.chars s = l ++ m ++ r /\
    s = PyStr.concat l +:+ t +:+ PyStr.concat r /\
    t = PyStr.concat m /\
    forallb PyStr.is_space l = true /\
    forallb PyStr.is_space r = true /\
    PyStr.trimmed m.

(** A computation is tame when it only adds unmarked events to the trace
    and raises ordinary errors only. *)
Definition tame {A : Type} (m : M A) : Prop :=
  forall w, exists evs,
    trace (snd (m w)) = trace w ++ evs /\
    forallb inner_event evs = true /\
    forall e, fst (m w) = Raise e -> isinstance e Exception = true.

(** What [interactive_mode] returns for the choice [c] among [names]. *)
Definition selection (names : list string) (c : Z) : option string :=
  let n := Z.of_nat (length names) in
  if c =? n + 2 then None
  else if c =? n + 1 then Some "all"
  else names !! Z.to_nat (c - 1).

(** An entry the menu refuses: not a number, or not one of its numbers. *)
Definition refused (env : Env) (names : list string) (line : string) : bool :=
  match py_int env line with
  | None => true
  | Some c => negb ((1 <=? c) && (c <=? Z.of_nat (length names) + 2))
  end.

(** What the menu answers to an entry it refuses. *)
Definition refusal (env : Env) (names : list string) (line : string) : log_msg :=
  match py_int env line with
  | None => LNotANumber
  | Some _ => LInvalidChoice (Z.of_nat (length names) + 2)
  end.

(** ** A concrete installation, for examples *)

Module Demo.

Definition config_json : string := "/home/u/.config/wifebot/config.json".

(** Four characters outside ASCII, by their bytes: the no-break space
    (U+00A0), the next-line control (U+0085), the Arabic-Indic digit two
    (U+0662) and the fullwidth digit one (U+FF11). *)
Definition no_break_space : string :=
  String (PyStr.chr 194) (String (PyStr.chr 160) EmptyString).
Definition next_line : string :=
  String (PyStr.chr 194) (String (PyStr.chr 133) EmptyString).
Definition arabic_two : string :=
  String (PyStr.chr 217) (String (PyStr.chr 162) EmptyString).
Definition fullwidth_one : string :=
  String (PyStr.chr 239) (String (PyStr.chr 188) (String (PyStr.chr 145) EmptyString)).

(** The prompts directory holds the four instruction files. *)
Definition files (config_content : option string) (path : string) : option string :=
  if String.eqb path config_json then config_content
  else if String.eqb path "/opt/wifebot/prompts/bumble_instructions.txt"
  then Some "  Make the first move. "
  else if String.eqb path "/opt/wifebot/prompts/tinder_instructions.txt"
  then Some (" Swipe right on matching profiles." +:+ PyStr.nl)
  else if String.eqb path "/opt/wifebot/prompts/hinge_instructions.txt"
  then Some "Like one prompt per profile."
  else if String.eqb path "/opt/wifebot/prompts/okcupid_instructions.txt"
  then Some (no_break_space +:+ "Answer the questions first." +:+ next_line +:+ PyStr.nl)
  else None.

(** Three documents the JSON library knows; anything else is malformed. *)
Definition json_load (content : string) : string + value :=
  if String.eqb content "empty object" then inr (VDict ∅)
  else if String.eqb content "headless on"
  then inr (VDict {[ "browser" := VDict {[ "headless" := VBool true ]} ]})
  else if String.eqb content "verbose null"
  then inr (VDict {[ "verbose" := VNone ]})
  else inl "Expecting value: line 1 column 1 (char 0)".

Definition jinja_render (dir name : string) (context : value) : failure + string :=
  if String.eqb name "base_task.tpl"
  then inr (PyStr.nl +:+ "You are a dating assistant." +:+ PyStr.nl)
  else inl (mk_failure (mk_exn TemplateError name) eq_refl).

(** The decimal digits outside ASCII this installation knows: the
    Arabic-Indic digits (U+0660 to U+0669) and the fullwidth digits
    (U+FF10 to U+FF19). *)
Definition unicode_decimal (n : N) : option Z :=
  if PyStr.in_range 1632 1641 n then Some (Z.of_N n - 1632)
  else if PyStr.in_range 65296 65305 n then Some (Z.of_N n - 65296)
  else None.

Definition args : Args :=
  mk_Args (Some "all") None false None None None None None None None false false.

(** [config_content]: what the configuration file holds, if it exists;
    [failing]: the calls of the automation library that fail. *)
Definition env (config_content : option string) (failing : call -> option exn) : Env :=
  mk_Env "/home/u" "/opt/wifebot" (files config_content) json_load jinja_render
         ∅ (fun _ => "<object>")
         (fun field _ => Raise (mk_exn ValueError ("Invalid field " +:+ field)))
         unicode_decimal 4300 (Ok args) (fun _ c => failing c).

Definition no_failure (c : call) : option exn := None.

(** Tinder's site is unreachable and Hinge's agent crashes. *)
Definition two_fail (c : call) : option exn :=
  match c with
  | Navigate _ url =>
      if String.eqb url "https://tinder.com/app/recs"
      then Some (mk_exn OSError "net::ERR_CONNECTION_REFUSED") else None
  | AgentRun a =>
      match a !! "file_system_path" with
      | Some (VStr p) =>
          if String.eqb p "/tmp/wifebot/hinge"
          then Some (mk_exn Exception "agent stopped") else None
      | _ => None
      end
  | _ => None
  end.

Definition world (lines : list string) : World := mk_World [] lines ∅.

(** A Tinder profile with the default settings. *)
Definition tinder : Platform.t :=
  Platform.mk TinderPlatform (VDict ∅) "You are a dating assistant."
              (VBool false) (VInt 1280) (VInt 1100) (VInt 1) (VInt 10)
              (VStr "gpt-4o-mini") (VBool false) VNone VNone.

(** The factory, once constructed. *)
Definition factory : PlatformFactory.t :=
  PlatformFactory.mk PlatformFactory.registry (VDict ∅) VNone.

End Demo.

(* ================================================================== *)
(** * The rest of loader.py, and more vocabulary *)
(* ================================================================== *)

Section LoaderRest.
Variable env : Env.

(** loader.py, [load_template(template_name, prompts_dir)] *)
Definition load_template (template_name : string) (prompts_dir : option string)
  : result string :=
  let template_file := joinpath (prompts_dir_or_default env prompts_dir) template_name in
  if negb (path_exists env template_file)
  then Raise (mk_exn FileNotFoundError ("Template file not found: " +:+ template_file))
  else
    match files env template_file with
    | Some content => Ok (PyStr.strip content)
    | None => Raise (mk_exn FileNotFoundError
                       ("[Errno 2] No such file or directory: " +:+
                        PyStr.repr_str template_file))
    end.

End LoaderRest.

(** [isinstance(v, dict)] *)
Definition is_mapping (v : value) : bool :=
  match v with VDict _ => true | _ => false end.

(** [isinstance(v, str)] *)
Definition is_str (v : value) : bool :=
  match v with VStr _ => true | _ => false end.

(** A text without the separator of dotted paths. *)
Definition dot_free (s : string) : bool := negb (PyStr.any_char (Ascii.eqb ".") s).

(** A text without braces: [str.format] copies it. *)
Definition is_brace (c : ascii) : bool := Ascii.eqb c "{" || Ascii.eqb c "}".
Definition brace_free (s : string) : bool := negb (PyStr.any_char is_brace s).

(** A replacement field that is a plain keyword name, in ASCII. *)
Definition plain_name (field : string) : bool :=
  negb (PyStr.any_char is_field_operator field || all_digits field ||
        negb (PyStr.is_ascii field)).

(** The keyword arguments the constructor of a profile reads. *)
Definition recognized : list string :=
  ["config_path"; "headless"; "viewport_width"; "viewport_height"; "min_wait";
   "max_wait"; "model"; "verbose"; "profile_dir"; "trace_path"].

(** The calls into the automation library among some events, with
    their outcome, and the calls alone. *)
Definition call_of (ev : event) : option (call * option exn) :=
  match ev with EvCall c f => Some (c, f) | _ => None end.
Definition calls (evs : list event) : list (call * option exn) := omap call_of evs.

(** The keyword arguments [run] gives to [BrowserProfile]. *)
Definition profile_kwargs (self : Platform.t) (dir path : value) : gmap string value :=
  <["user_data_dir" := dir]> (<["trace_path" := path]> (Platform.browser_config self)).

(** The automation library never fails. *)
Definition reliable (env : Env) : Prop := forall tr c, ext env tr c = None.

(** The three-tier value of a setting, as the constructor wires it. *)
Definition three_tier (config : value) (kwargs : gmap string value)
           (param : string) (segments : list string) (default : value) : value :=
  match kwargs !! param with
  | Some v => v
  | None =>
      match path_value config segments with
      | Some v => if is_none v then default else v
      | None => default
      end
  end.

Module Demo2.


(** The browser cannot be launched. *)
Definition no_browser (c : call) : option exn :=
  match c with
  | Start _ => Some (mk_exn OSError "browser executable not found")
  | _ => None
  end.

(** The site is down and closing the browser fails as well. *)
Definition down_and_stuck (c : call) : option exn :=
  match c with
  | Navigate _ _ => Some (mk_exn OSError "net::ERR_CONNECTION_REFUSED")
  | Stop _ => Some (mk_exn OSError "browser did not exit")
  | _ => None
  end.

(** A profile of a platform that has no instruction file. *)
Definition grindr : Platform.t :=
  Platform.mk (mk_Variant "grindr" "https://grindr.example/app" "grindr_instructions")
              (VDict ∅) "You are a dating assistant."
              (VBool false) (VInt 1280) (VInt 1100) (VInt 1) (VInt 10)
              (VStr "gpt-4o-mini") (VBool false) VNone VNone.

(** The command line [tinder --headless --model gpt-4]. *)
Definition tinder_args : Args :=
  mk_Args (Some "tinder") None true None None None None None None (Some "gpt-4")
          false false.

(** The command line with no argument at all. *)
Definition no_args : Args :=
  mk_Args None None false None None None None None None None false false.

End Demo2.

(* ================================================================== *)
(** * Properties of the text primitives *)
(* ================================================================== *)

Lemma append_cons c (l x : string) : String c l +:+ x = String c (l +:+ x).
Proof. reflexivity. Qed.

Lemma append_nil (x : string) : EmptyString +:+ x = x.
Proof. reflexivity. Qed.

Lemma append_assoc_str (a b c : string) : (a +:+ b) +:+ c = a +:+ b +:+ c.
Proof.
  induction a as [|x a IH]; [reflexivity|]. rewrite !append_cons, IH. reflexivity.
Qed.

Lemma concat_app l1 l2 :
  PyStr.concat (l1 ++ l2) = PyStr.concat l1 +:+ PyStr.concat l2.
Proof.
  induction l1 as [|ch l1 IH]; [reflexivity|].
  cbn [app PyStr.concat]. rewrite IH, append_assoc_str. reflexivity.
Qed.

Lemma concat_chars_upto n : forall s,
  (String.length s <= n)%nat -> PyStr.concat (PyStr.chars s) = s.
Proof.
  induction n as [|n IH]; intros [|c s1] Hlen; try reflexivity;
    cbn [String.length] in Hlen; [lia|].
  assert (Hsingle : PyStr.concat (String c EmptyString :: PyStr.chars s1) = String c s1).
  { cbn [PyStr.concat]. rewrite IH by lia. reflexivity. }
  cbn [PyStr.chars].
  destruct (PyStr.between 194 223 _).
  { destruct s1 as [|d s2]; [exact Hsingle|].
    destruct (PyStr.is_continuation d); [|exact Hsingle].
    cbn [PyStr.concat String.length] in *. rewrite IH by lia. reflexivity. }
  destruct (PyStr.between 224 239 _).
  { destruct s1 as [|d [|e s3]]; try exact Hsingle.
    destruct (_ && _); [|exact Hsingle].
    cbn [PyStr.concat String.length] in *. rewrite IH by lia. reflexivity. }
  destruct (PyStr.between 240 244 _); [|exact Hsingle].
  destruct s1 as [|d [|e [|f s4]]]; try exact Hsingle.
  destruct (_ && _); [|exact Hsingle].
  cbn [PyStr.concat String.length] in *. rewrite IH by lia. reflexivity.
Qed.

(** The characters of a text, put together again, are the text. *)
Lemma concat_chars s : PyStr.concat (PyStr.chars s) = s.
Proof. exact (concat_chars_upto (String.length s) s (le_n _)). Qed.

Lemma lstrip_chars_starts l : PyStr.starts_space (PyStr.lstrip_chars l) = false.
Proof.
  induction l as [|ch l IH]; cbn [PyStr.lstrip_chars]; [reflexivity|].
  destruct (PyStr.is_space ch) eqn:Hc; [exact IH|]. exact Hc.
Qed.

Lemma rstrip_chars_ends l : PyStr.ends_space (PyStr.rstrip_chars l) = false.
Proof.
  induction l as [|ch l IH]; cbn [PyStr.rstrip_chars]; [reflexivity|].
  destruct (PyStr.rstrip_chars l) as [|ch' r] eqn:Hr.
  - destruct (PyStr.is_space ch) eqn:Hc; [reflexivity|exact Hc].
  - exact IH.
Qed.

Lemma rstrip_chars_starts l :
  PyStr.starts_space l = false -> PyStr.starts_space (PyStr.rstrip_chars l) = false.
Proof.
  destruct l as [|ch l]; cbn [PyStr.rstrip_chars PyStr.starts_space]; [reflexivity|].
  intros Hc. destruct (PyStr.rstrip_chars l); [rewrite Hc|]; exact Hc.
Qed.

Lemma lstrip_chars_decompose l :
  exists a, l = a ++ PyStr.lstrip_chars l /\ forallb PyStr.is_space a = true.
Proof.
  induction l as [|ch l (a & Ha & Hs)]; cbn [PyStr.lstrip_chars].
  - exists []. split; reflexivity.
  - destruct (PyStr.is_space ch) eqn:Hc.
    + exists (ch :: a). cbn [app forallb]. rewrite Hc, Hs.
      split; [f_equal; exact Ha|reflexivity].
    + exists []. split; reflexivity.
Qed.

Lemma rstrip_chars_decompose l :
  exists b, l = PyStr.rstrip_chars l ++ b /\ forallb PyStr.is_space b = true.
Proof.
  induction l as [|ch l (b & Hb & Hs)]; cbn [PyStr.rstrip_chars].
  - exists []. split; reflexivity.
  - destruct (PyStr.rstrip_chars l) as [|ch' t] eqn:Ht.
    + destruct (PyStr.is_space ch) eqn:Hc.
      * exists (ch :: b). cbn [app forallb] in *. rewrite Hc, Hs.
        split; [f_equal; exact Hb|reflexivity].
      * exists b. cbn [app] in *. split; [f_equal; exact Hb|exact Hs].
    + exists b. cbn [app] in *. split; [f_equal; exact Hb|exact Hs].
Qed.

(** [strip] removes the whitespace characters at both ends and nothing
    else. *)
Lemma strip_is_strip_of s : is_strip_of s (PyStr.strip s).
Proof.
  destruct (lstrip_chars_decompose (PyStr.chars s)) as (l & Hl & Hls).
  destruct (rstrip_chars_decompose (PyStr.lstrip_chars (PyStr.chars s)))
    as (r & Hr & Hrs).
  exists l, (PyStr.rstrip_chars (PyStr.lstrip_chars (PyStr.chars s))), r.
  assert (Hchars : PyStr.chars s =
                   l ++ PyStr.rstrip_chars (PyStr.lstrip_chars (PyStr.chars s)) ++ r).
  { rewrite <- Hr. exact Hl. }
  split; [exact Hchars|]. split.
  { rewrite <- (concat_chars s) at 1. rewrite Hchars at 1.
    rewrite !concat_app. reflexivity. }
  split; [reflexivity|]. split; [exact Hls|]. split; [exact Hrs|].
  split; [apply rstrip_chars_starts, lstrip_chars_starts|apply rstrip_chars_ends].
Qed.

(* ================================================================== *)
(** * Properties of the dotted-path lookup *)
(* ================================================================== *)

Lemma subscript_raises v key e :
  subscript v key = Raise e ->
  isinstance e KeyError || isinstance e TypeError = true.
Proof.
  destruct v; simpl; try (intros [= <-]; reflexivity).
  destruct (d !! key); [discriminate|]. intros [= <-]. reflexivity.
Qed.

(** The loop of [get_default_config_value] raises nothing but what its
    handler catches. *)
Lemma walk_raises keys : forall v e,
  walk v keys = Raise e ->
  isinstance e KeyError || isinstance e TypeError = true.
Proof.
  induction keys as [|k keys IH]; simpl; intros v e; [discriminate|].
  destruct (subscript v k) eqn:Hs.
  - apply IH.
  - intros [= <-]. exact (subscript_raises _ _ _ Hs).
Qed.

(** The loop finds exactly the value at the path, when there is one. *)
Lemma walk_path_value keys : forall doc,
  match path_value doc keys with
  | Some v => walk doc keys = Ok v
  | None => exists e, walk doc keys = Raise e
  end.
Proof.
  induction keys as [|k keys IH]; simpl; intros doc; [reflexivity|].
  destruct doc; simpl; eauto.
  destruct (d !! k) as [v|]; [apply IH|eauto].
Qed.

Lemma get_default_config_value_path config key_path default :
  get_default_config_value config key_path default =
  match path_value config (PyStr.split "." key_path) with
  | Some v => v
  | None => default
  end.
Proof.
  unfold get_default_config_value.
  pose proof (walk_path_value (PyStr.split "." key_path) config) as H.
  destruct (path_value config (PyStr.split "." key_path)).
  - rewrite H. reflexivity.
  - destruct H as [e ->]. reflexivity.
Qed.

(* ================================================================== *)
(** * The three-tier resolution *)
(* ================================================================== *)

(** C1.  An override that is present wins, whatever its value: for every
    setting name [s] that is a key of the override set, the resolution
    returns the value stored under [s], for every configuration document,
    every dotted key and every default - so neither the document nor the
    default has a say, also when the value is [False], [0] or [""]. *)
Theorem resolve_override_wins :
  forall (s : string) (kwargs : gmap string value) (v : value),
    kwargs !! s = Some v ->
    forall (config : value) (k : string) (d : value),
      Platform._resolve_config_value config s kwargs k d = v.
Proof.
  intros s kwargs v Hs config k d.
  unfold Platform._resolve_config_value. rewrite Hs. reflexivity.
Qed.

(** An explicit [headless=False] is not overridden by a configuration
    file that says [true], nor a [0] or an empty string by a default. *)
Lemma resolve_override_wins_witness :
  Platform._resolve_config_value
    (VDict {[ "browser" := VDict {[ "headless" := VBool true ]} ]})
    "headless" {[ "headless" := VBool false ]} "browser.headless" (VBool true)
  = VBool false
  /\ Platform._resolve_config_value (VDict ∅) "viewport_width"
       {[ "viewport_width" := VInt 0 ]} "browser.viewport.width" (VInt 1280)
     = VInt 0
  /\ Platform._resolve_config_value (VDict {[ "llm" := VDict {[ "model" := VStr "gpt-4" ]} ]})
       "model" {[ "model" := VStr "" ]} "llm.model" (VStr "gpt-4o-mini")
     = VStr "".
Proof.
  split; [|split].
  - apply (resolve_override_wins "headless" {[ "headless" := VBool false ]}).
    vm_compute. reflexivity.
  - apply (resolve_override_wins "viewport_width" {[ "viewport_width" := VInt 0 ]}).
    vm_compute. reflexivity.
  - apply (resolve_override_wins "model" {[ "model" := VStr "" ]}).
    vm_compute. reflexivity.
Defined.

(** C2, as the code has it.  For a setting absent from the override set,
    the resolution returns the value found at the dotted path when every
    segment is present and that value is not [None] (a JSON [null]); it
    returns the built-in default when a segment is missing, when an
    intermediate node is not a mapping, or when the value found is
    [None]. *)
Theorem resolve_config_or_default :
  forall (s : string) (kwargs : gmap string value) (config : value)
         (k : string) (d : value),
    kwargs !! s = None ->
    Platform._resolve_config_value config s kwargs k d =
    match path_value config (PyStr.split "." k) with
    | Some v => if is_none v then d else v
    | None => d
    end.
Proof.
  intros s kwargs config k d Hs.
  unfold Platform._resolve_config_value. rewrite Hs.
  rewrite get_default_config_value_path.
  destruct (path_value config (PyStr.split "." k)) as [v|]; [|reflexivity].
  destruct v; reflexivity.
Qed.

Lemma resolve_config_or_default_witness :
  Platform._resolve_config_value
    (VDict {[ "browser" := VDict {[ "viewport" := VDict {[ "width" := VInt 1920 ]} ]} ]})
    "viewport_width" ∅ "browser.viewport.width" (VInt 1280) = VInt 1920
  /\ Platform._resolve_config_value
       (VDict {[ "browser" := VStr "chromium" ]})
       "viewport_width" ∅ "browser.viewport.width" (VInt 1280) = VInt 1280.
Proof.
  split.
  - rewrite (resolve_config_or_default "viewport_width" ∅); [|vm_compute; reflexivity].
    vm_compute. reflexivity.
  - rewrite (resolve_config_or_default "viewport_width" ∅); [|vm_compute; reflexivity].
    vm_compute. reflexivity.
Defined.

(** C2 as stated fails: with [{"verbose": null}] as the document, the
    path [verbose] is present and holds [None], yet the setting resolves
    to the default [False], not to the value found. *)
Lemma resolve_null_not_verbatim :
  ~ (forall (s : string) (kwargs : gmap string value) (config : value)
            (k : string) (d v : value),
        kwargs !! s = None ->
        path_value config (PyStr.split "." k) = Some v ->
        Platform._resolve_config_value config s kwargs k d = v).
Proof.
  intros H.
  specialize (H "verbose" ∅ (VDict {[ "verbose" := VNone ]}) "verbose"
                (VBool false) VNone).
  assert (Hc : Platform._resolve_config_value (VDict {[ "verbose" := VNone ]})
                 "verbose" ∅ "verbose" (VBool false) = VBool false)
    by (vm_compute; reflexivity).
  rewrite Hc in H. discriminate H; vm_compute; reflexivity.
Qed.

(* ================================================================== *)
(** * Loading the configuration *)
(* ================================================================== *)

Lemma split_nonempty sep s : PyStr.split sep s <> [].
Proof.
  destruct s as [|c s]; simpl; [discriminate|].
  destruct (Ascii.eqb c sep); [discriminate|].
  destruct (PyStr.split sep s); discriminate.
Qed.

(** Nothing is found in the empty document. *)
Lemma path_value_empty k : path_value (VDict ∅) (PyStr.split "." k) = None.
Proof.
  pose proof (split_nonempty "." k) as H.
  destruct (PyStr.split "." k) as [|seg rest]; [congruence|].
  simpl. rewrite lookup_empty. reflexivity.
Qed.

Lemma resolve_empty_config s kwargs k :
  Platform._resolve_config_value (VDict ∅) s kwargs k (Platform.default_of s) =
  override_or_default kwargs s.
Proof.
  unfold override_or_default, Platform._resolve_config_value.
  destruct (kwargs !! s) as [v|]; [reflexivity|].
  rewrite get_default_config_value_path, path_value_empty. reflexivity.
Qed.

(** [load_config] in terms of the file it reads. *)
Lemma load_config_spec env config_path w path :
  config_file env config_path w = Some path ->
  load_config env config_path w =
  (match files env path with
   | None => Raise (mk_exn FileNotFoundError ("Configuration file not found: " +:+ path))
   | Some content =>
       match json_load env content with
       | inr config => Ok config
       | inl msg => Raise (mk_exn JSONDecodeError msg)
       end
   end, w).
Proof.
  unfold config_file, load_config, bind, path_exists.
  destruct config_path; try discriminate.
  - unfold get_default_config_path, bind, get_xdg_config_home, ret.
    destruct (environ w !! "XDG_CONFIG_HOME") as [x|];
      [destruct (negb (String.eqb x ""))|];
      intros [= <-]; simpl;
      (match goal with |- context [files env ?p] => destruct (files env p) end);
      simpl; try reflexivity; unfold ret, raise;
      (match goal with |- context [json_load env ?c] => destruct (json_load env c) end);
      reflexivity.
  - intros [= <-]. unfold ret. simpl.
    destruct (files env s); simpl; [|reflexivity].
    unfold ret, raise. destruct (json_load env s0); reflexivity.
Qed.

(** C3.  Constructing a platform instance reads the configuration file
    right after [load_dotenv()].  When that file does not exist, the
    [FileNotFoundError] of [load_config] is caught: construction goes on
    with the empty document, so that, if the base task renders, every
    setting is the override or else the built-in default.  When the file
    exists and is not well-formed, the parse error is not caught: it
    leaves the constructor. *)
Theorem init_tolerates_missing_config :
  forall (env : Env) (cls : Variant) (config_path : value)
         (kwargs : gmap string value) (w : World) (path : string),
    config_file env config_path (after_dotenv env w) = Some path ->
    (files env path = None ->
     Platform.__init__ env cls config_path kwargs w =
     (match render_prompt_template env "base_task.tpl" (VDict ∅) None with
      | Ok base =>
          Ok (Platform.mk cls (VDict ∅) base
                (override_or_default kwargs "headless")
                (override_or_default kwargs "viewport_width")
                (override_or_default kwargs "viewport_height")
                (override_or_default kwargs "min_wait")
                (override_or_default kwargs "max_wait")
                (override_or_default kwargs "model")
                (override_or_default kwargs "verbose")
                (Platform.kwargs_get kwargs "profile_dir")
                (Platform.kwargs_get kwargs "trace_path"))
      | Raise e => Raise e
      end, after_dotenv env w))
    /\
    (forall content msg,
        files env path = Some content ->
        json_load env content = inl msg ->
        Platform.__init__ env cls config_path kwargs w =
        (Raise (mk_exn JSONDecodeError msg), after_dotenv env w)).
Proof.
  intros env cls config_path kwargs w path Hpath.
  pose proof (load_config_spec env config_path _ path Hpath) as Hload.
  split.
  - intros Hnone. rewrite Hnone in Hload.
    unfold Platform.__init__, bind, Platform.load_dotenv, try_except.
    fold (after_dotenv env w). rewrite Hload. simpl.
    unfold ret, lift.
    destruct (render_prompt_template env "base_task.tpl" (VDict ∅) None); [|reflexivity].
    rewrite !resolve_empty_config. reflexivity.
  - intros content msg Hsome Hjson. rewrite Hsome, Hjson in Hload.
    unfold Platform.__init__, bind, Platform.load_dotenv, try_except.
    fold (after_dotenv env w). rewrite Hload. reflexivity.
Qed.

Lemma init_tolerates_missing_config_witness :
  fst (Platform.__init__ (Demo.env None Demo.no_failure) TinderPlatform VNone
         {[ "headless" := VBool true; "model" := VStr "gpt-4" ]} (Demo.world []))
  = Ok (Platform.mk TinderPlatform (VDict ∅) "You are a dating assistant."
          (VBool true) (VInt 1280) (VInt 1100) (VInt 1) (VInt 10)
          (VStr "gpt-4") (VBool false) VNone VNone)
  /\
  fst (Platform.__init__ (Demo.env (Some "{headless: tru") Demo.no_failure)
         TinderPlatform VNone ∅ (Demo.world []))
  = Raise (mk_exn JSONDecodeError "Expecting value: line 1 column 1 (char 0)").
Proof.
  split.
  - destruct (init_tolerates_missing_config (Demo.env None Demo.no_failure)
                TinderPlatform VNone
                {[ "headless" := VBool true; "model" := VStr "gpt-4" ]}
                (Demo.world []) Demo.config_json) as [H _];
      [vm_compute; reflexivity|].
    rewrite H; [|vm_compute; reflexivity]. vm_compute. reflexivity.
  - destruct (init_tolerates_missing_config (Demo.env (Some "{headless: tru") Demo.no_failure)
                TinderPlatform VNone ∅ (Demo.world []) Demo.config_json) as [_ H];
      [vm_compute; reflexivity|].
    rewrite (H "{headless: tru" "Expecting value: line 1 column 1 (char 0)");
      vm_compute; reflexivity.
Defined.

(** C4.  Constructing the factory calls [load_config] outside any
    handler: when the file it would read does not exist - the path given
    to the constructor, or the default one under the configuration home
    when none is given - construction raises [FileNotFoundError] and the
    world is untouched.  The entry point constructs the factory with no
    path before anything else, so when the default file is missing it
    ends with that error, having parsed no argument, asked and printed
    nothing, constructed no profile and called nothing. *)
Theorem factory_requires_config_file :
  forall (env : Env) (w : World),
    (forall (config_path : value) (path : string),
        config_file env config_path w = Some path ->
        files env path = None ->
        PlatformFactory.__init__ env config_path w =
        (Raise (mk_exn FileNotFoundError ("Configuration file not found: " +:+ path)), w))
    /\
    (forall path : string,
        config_file env VNone w = Some path ->
        files env path = None ->
        async_main env w =
        (Raise (mk_exn FileNotFoundError ("Configuration file not found: " +:+ path)), w)).
Proof.
  intros env w.
  assert (Hinit : forall config_path path,
             config_file env config_path w = Some path ->
             files env path = None ->
             PlatformFactory.__init__ env config_path w =
             (Raise (mk_exn FileNotFoundError
                       ("Configuration file not found: " +:+ path)), w)).
  { intros config_path path Hpath Hnone.
    unfold PlatformFactory.__init__, bind.
    rewrite (load_config_spec env config_path w path Hpath), Hnone. reflexivity. }
  split; [exact Hinit|].
  intros path Hpath Hnone. unfold async_main, bind.
  rewrite (Hinit VNone path Hpath Hnone). reflexivity.
Qed.

Lemma factory_requires_config_file_witness :
  async_main (Demo.env None Demo.no_failure) (Demo.world ["2"]) =
  (Raise (mk_exn FileNotFoundError
            "Configuration file not found: /home/u/.config/wifebot/config.json"),
   Demo.world ["2"])
  /\
  PlatformFactory.__init__ (Demo.env None Demo.no_failure) (VStr "/etc/wifebot.json")
    (Demo.world []) =
  (Raise (mk_exn FileNotFoundError "Configuration file not found: /etc/wifebot.json"),
   Demo.world []).
Proof.
  destruct (factory_requires_config_file (Demo.env None Demo.no_failure)
              (Demo.world ["2"])) as [_ Hmain].
  destruct (factory_requires_config_file (Demo.env None Demo.no_failure)
              (Demo.world [])) as [Hinit _].
  split.
  - apply (Hmain Demo.config_json); vm_compute; reflexivity.
  - apply (Hinit (VStr "/etc/wifebot.json") "/etc/wifebot.json"); vm_compute; reflexivity.
Defined.

(* ================================================================== *)
(** * Construction of a profile *)
(* ================================================================== *)

(** What the constructor sets, whatever the configuration. *)
Lemma init_ok env cls config_path kwargs w self w' :
  Platform.__init__ env cls config_path kwargs w = (Ok self, w') ->
  Platform.variant self = cls /\
  Platform._custom_profile_dir self = Platform.kwargs_get kwargs "profile_dir" /\
  Platform._custom_trace_path self = Platform.kwargs_get kwargs "trace_path" /\
  exists rendered,
    jinja_render env (joinpath (project_root env) "prompts") "base_task.tpl"
                 (Platform.config self) = inr rendered /\
    Platform.base_task self = PyStr.strip rendered.
Proof.
  unfold Platform.__init__, bind, Platform.load_dotenv, try_except, lift, ret.
  destruct (load_config env config_path _) as [[cfg|e] w1].
  - unfold render_prompt_template, prompts_dir_or_default, get_project_root.
    destruct (jinja_render env _ "base_task.tpl" cfg) as [msg|rendered] eqn:Hr;
      [discriminate|].
    intros [= <- <-]. simpl. eauto 6.
  - destruct (isinstance e FileNotFoundError); [|discriminate].
    unfold render_prompt_template, prompts_dir_or_default, get_project_root.
    destruct (jinja_render env _ "base_task.tpl" (VDict ∅)) as [msg|rendered] eqn:Hr;
      [discriminate|].
    intros [= <- <-]. simpl. eauto 6.
Qed.

(** [load_config] changes nothing in the world. *)
Lemma load_config_snd env config_path w : snd (load_config env config_path w) = w.
Proof.
  unfold load_config, bind, raise, ret, get_default_config_path, bind,
    get_xdg_config_home, ret.
  destruct config_path; try reflexivity.
  - destruct (environ w !! "XDG_CONFIG_HOME") as [x|];
      [destruct (negb (String.eqb x ""))|];
      (destruct (negb (path_exists env _)); [reflexivity|];
       destruct (files env _); [|reflexivity];
       destruct (json_load env _); reflexivity).
  - destruct (negb (path_exists env s)); [reflexivity|].
    destruct (files env s); [|reflexivity].
    destruct (json_load env _); reflexivity.
Qed.

(** The errors of [load_config] are ordinary ones, and none of them is
    the error of an unknown platform. *)
Lemma load_config_raises env config_path w e w' :
  load_config env config_path w = (Raise e, w') ->
  isinstance e Exception = true /\
  forall self name, e <> PlatformFactory.unknown_platform self name.
Proof.
  assert (Hcls : forall c msg,
             c = TypeError \/ c = FileNotFoundError \/ c = JSONDecodeError ->
             isinstance (mk_exn c msg) Exception = true /\
             forall self name, mk_exn c msg <> PlatformFactory.unknown_platform self name).
  { intros c msg [-> | [-> | ->]];
      (split; [reflexivity|intros self name H; apply (f_equal exn_cls) in H;
                           discriminate H]). }
  unfold load_config, bind, raise, ret.
  destruct config_path; try (intros [= <- <-]; apply Hcls; tauto).
  - destruct (get_default_config_path env w) as [[p|e0] w1] eqn:Hp.
    + destruct (negb (path_exists env p)); [intros [= <- <-]; apply Hcls; tauto|].
      destruct (files env p); [|intros [= <- <-]; apply Hcls; tauto].
      destruct (json_load env s); [intros [= <- <-]; apply Hcls; tauto|discriminate].
    + unfold get_default_config_path, bind, get_xdg_config_home, ret in Hp.
      destruct (environ w !! "XDG_CONFIG_HOME") as [x|];
        [destruct (negb (String.eqb x ""))|]; discriminate.
  - destruct (negb (path_exists env s)); [intros [= <- <-]; apply Hcls; tauto|].
    destruct (files env s); [|intros [= <- <-]; apply Hcls; tauto].
    destruct (json_load env s0); [intros [= <- <-]; apply Hcls; tauto|discriminate].
Qed.

(** The constructor changes the world by [load_dotenv] only. *)
Lemma init_snd env cls config_path kwargs w :
  snd (Platform.__init__ env cls config_path kwargs w) = after_dotenv env w.
Proof.
  unfold Platform.__init__, bind, Platform.load_dotenv, try_except, lift, ret.
  fold (after_dotenv env w).
  pose proof (load_config_snd env config_path (after_dotenv env w)) as Hw.
  destruct (load_config env config_path _) as [[cfg|e] w1]; simpl in Hw; subst w1.
  - destruct (render_prompt_template env "base_task.tpl" cfg None); reflexivity.
  - destruct (isinstance e FileNotFoundError); [|reflexivity].
    destruct (render_prompt_template env "base_task.tpl" (VDict ∅) None); reflexivity.
Qed.

(** An error that leaves the constructor is an error of [load_config]
    or an error of the template library. *)
Lemma init_raises env cls config_path kwargs w e w' :
  Platform.__init__ env cls config_path kwargs w = (Raise e, w') ->
  (exists w0, load_config env config_path (after_dotenv env w) = (Raise e, w0)) \/
  (exists doc f,
      jinja_render env (joinpath (project_root env) "prompts") "base_task.tpl" doc
        = inl f /\
      e = failure_exn f).
Proof.
  unfold Platform.__init__, bind, Platform.load_dotenv, try_except, lift, ret.
  fold (after_dotenv env w).
  destruct (load_config env config_path _) as [[cfg|e0] w1] eqn:Hload.
  - unfold render_prompt_template, prompts_dir_or_default, get_project_root.
    destruct (jinja_render env _ "base_task.tpl" cfg) as [f|rendered] eqn:Hr;
      [|discriminate].
    intros [= <- <-]. right. eauto.
  - destruct (isinstance e0 FileNotFoundError).
    + unfold render_prompt_template, prompts_dir_or_default, get_project_root.
      destruct (jinja_render env _ "base_task.tpl" (VDict ∅)) as [f|rendered] eqn:Hr;
        [|discriminate].
      intros [= <- <-]. right. eauto.
    + intros [= <- <-]. left. eauto.
Qed.

Lemma getitem_elem_of l name cls :
  PlatformFactory.getitem l name = Some cls -> (name, cls) ∈ l.
Proof.
  induction l as [|[k c] l IH]; cbn [PlatformFactory.getitem]; [discriminate|].
  destruct (String.eqb_spec k name) as [->|Hne].
  - intros [= ->]. apply elem_of_cons. auto.
  - intros H. apply elem_of_cons. auto.
Qed.

Lemma contains_keys l name :
  PlatformFactory.contains l name = true <-> name ∈ map fst l.
Proof.
  unfold PlatformFactory.contains.
  induction l as [|[k c] l IH]; cbn [PlatformFactory.getitem map fst].
  - rewrite elem_of_nil. split; [discriminate|tauto].
  - rewrite elem_of_cons.
    destruct (String.eqb_spec k name) as [->|Hne]; [tauto|].
    rewrite IH. split; [tauto|]. intros [?|?]; [congruence|assumption].
Qed.

Lemma contains_registry name :
  PlatformFactory.contains PlatformFactory.registry name = true <->
  name ∈ ["bumble"; "tinder"; "hinge"; "okcupid"].
Proof. apply (contains_keys PlatformFactory.registry). Qed.

Lemma getitem_registry_name name cls :
  PlatformFactory.getitem PlatformFactory.registry name = Some cls ->
  v_name cls = name.
Proof.
  intros H. apply getitem_elem_of in H. unfold PlatformFactory.registry in H.
  rewrite !elem_of_cons, elem_of_nil in H.
  destruct H as [H|[H|[H|[H|[]]]]]; injection H as -> ->; reflexivity.
Qed.

(** C6.  For a factory as its constructor builds it, [create_platform]
    raises the unknown-platform error, before anything else happens,
    exactly when the name is not one of [bumble], [tinder], [hinge],
    [okcupid]; the error is a [ValueError] whose message lists these four
    names.  For a registry key the call is the construction of the class
    registered under it, whose [name] is that key: what it returns is an
    instance of that class, and the environment file has been loaded by
    then.  So, unless the template library itself raises the very error
    of an unknown platform, [create_platform] raises that error, in
    whatever state, exactly when the name is no registry key. *)
Theorem create_platform_unknown_iff :
  forall (env : Env) (config config_path : value) (name : string)
         (kwargs : gmap string value) (w : World),
    let self := PlatformFactory.mk PlatformFactory.registry config config_path in
    (name ∉ ["bumble"; "tinder"; "hinge"; "okcupid"] <->
     PlatformFactory.create_platform env self name kwargs w =
     (Raise (PlatformFactory.unknown_platform self name), w))
    /\
    (name ∉ ["bumble"; "tinder"; "hinge"; "okcupid"] ->
     PlatformFactory.create_platform env self name kwargs w =
     (Raise (mk_exn ValueError
               ("Unknown platform: " +:+ name +:+
                ". Available: ['bumble', 'tinder', 'hinge', 'okcupid']")), w))
    /\
    (name ∈ ["bumble"; "tinder"; "hinge"; "okcupid"] ->
     exists cls,
       PlatformFactory.getitem PlatformFactory.registry name = Some cls /\
       v_name cls = name /\
       PlatformFactory.create_platform env self name kwargs w =
       Platform.new env cls kwargs w /\
       snd (PlatformFactory.create_platform env self name kwargs w) =
       after_dotenv env w /\
       forall p w',
         PlatformFactory.create_platform env self name kwargs w = (Ok p, w') ->
         Platform.variant p = cls /\ Platform.name p = name)
    /\
    ((forall doc f,
         jinja_render env (joinpath (project_root env) "prompts") "base_task.tpl" doc
           = inl f ->
         failure_exn f <> PlatformFactory.unknown_platform self name) ->
     (name ∉ ["bumble"; "tinder"; "hinge"; "okcupid"] <->
      exists w', PlatformFactory.create_platform env self name kwargs w =
                 (Raise (PlatformFactory.unknown_platform self name), w'))).
Proof.
  intros env config config_path name kwargs w self.
  pose proof (contains_registry name) as Hc.
  assert (Hin : name ∈ ["bumble"; "tinder"; "hinge"; "okcupid"] ->
          exists cls,
            PlatformFactory.getitem PlatformFactory.registry name = Some cls /\
            v_name cls = name /\
            PlatformFactory.create_platform env self name kwargs w =
            Platform.new env cls kwargs w /\
            snd (PlatformFactory.create_platform env self name kwargs w) =
            after_dotenv env w /\
            forall p w',
              PlatformFactory.create_platform env self name kwargs w = (Ok p, w') ->
              Platform.variant p = cls /\ Platform.name p = name).
  { intros Hk. apply Hc in Hk.
    unfold PlatformFactory.create_platform, self. cbn [PlatformFactory.platforms].
    rewrite Hk. cbn [negb].
    unfold PlatformFactory.contains in Hk.
    destruct (PlatformFactory.getitem PlatformFactory.registry name) as [cls|] eqn:Hg;
      [|discriminate].
    exists cls. pose proof (getitem_registry_name _ _ Hg) as Hn.
    split; [reflexivity|]. split; [exact Hn|]. split; [reflexivity|].
    split; [unfold Platform.new; apply init_snd|].
    intros inst w' Hnew. unfold Platform.new in Hnew.
    apply init_ok in Hnew. destruct Hnew as (Hv & _).
    unfold Platform.name. rewrite Hv. auto. }
  assert (Hout : name ∉ ["bumble"; "tinder"; "hinge"; "okcupid"] ->
          PlatformFactory.create_platform env self name kwargs w =
          (Raise (PlatformFactory.unknown_platform self name), w)).
  { intros Hk. unfold PlatformFactory.create_platform, self.
    cbn [PlatformFactory.platforms].
    destruct (PlatformFactory.contains PlatformFactory.registry name) eqn:Hk';
      [exfalso; apply Hk, Hc; reflexivity|reflexivity]. }
  split; [split|split; [|split]].
  - exact Hout.
  - intros Hraise Hk.
    destruct (Hin Hk) as (cls & _ & _ & _ & Hsnd & _).
    rewrite Hraise in Hsnd. cbn [snd] in Hsnd.
    apply (f_equal (fun x => length (trace x))) in Hsnd.
    unfold after_dotenv in Hsnd. cbn [trace] in Hsnd.
    rewrite length_app in Hsnd. cbn [length] in Hsnd. lia.
  - intros Hk. rewrite (Hout Hk). reflexivity.
  - exact Hin.
  - intros Hjinja. split.
    + intros Hk. exists w. apply Hout, Hk.
    + intros [w' Hraise] Hk.
      destruct (Hin Hk) as (cls & _ & _ & Hnew & _).
      rewrite Hnew in Hraise. unfold Platform.new in Hraise.
      apply init_raises in Hraise. destruct Hraise as [[w0 Hl]|(doc & f & Hr & He)].
      * apply load_config_raises in Hl. destruct Hl as [_ Hl].
        exact (Hl self name eq_refl).
      * exact (Hjinja doc f Hr (eq_sym He)).
Qed.

Lemma create_platform_unknown_iff_witness :
  PlatformFactory.create_platform (Demo.env None Demo.no_failure)
    (PlatformFactory.mk PlatformFactory.registry (VDict ∅) VNone)
    "grindr" ∅ (Demo.world []) =
  (Raise (mk_exn ValueError
     "Unknown platform: grindr. Available: ['bumble', 'tinder', 'hinge', 'okcupid']"),
   Demo.world [])
  /\
  (exists cls,
    PlatformFactory.getitem PlatformFactory.registry "hinge" = Some cls /\
    v_name cls = "hinge" /\
    PlatformFactory.create_platform (Demo.env None Demo.no_failure)
      (PlatformFactory.mk PlatformFactory.registry (VDict ∅) VNone)
      "hinge" ∅ (Demo.world []) =
    Platform.new (Demo.env None Demo.no_failure) cls ∅ (Demo.world []))
  /\
  ("Tinder" ∉ ["bumble"; "tinder"; "hinge"; "okcupid"] <->
   exists w',
     PlatformFactory.create_platform (Demo.env None Demo.no_failure)
       (PlatformFactory.mk PlatformFactory.registry (VDict ∅) VNone)
       "Tinder" ∅ (Demo.world []) =
     (Raise (PlatformFactory.unknown_platform
               (PlatformFactory.mk PlatformFactory.registry (VDict ∅) VNone) "Tinder"),
      w')).
Proof.
  split; [|split].
  - destruct (create_platform_unknown_iff (Demo.env None Demo.no_failure)
                (VDict ∅) VNone "grindr" ∅ (Demo.world [])) as (_ & H & _).
    apply H. apply (bool_decide_unpack _). vm_compute. exact I.
  - destruct (create_platform_unknown_iff (Demo.env None Demo.no_failure)
                (VDict ∅) VNone "hinge" ∅ (Demo.world [])) as (_ & _ & H & _).
    destruct H as (cls & Hg & Hn & Hc & _).
    + apply (bool_decide_unpack _). vm_compute. exact I.
    + exists cls. auto.
  - destruct (create_platform_unknown_iff (Demo.env None Demo.no_failure)
                (VDict ∅) VNone "Tinder" ∅ (Demo.world [])) as (_ & _ & _ & H).
    apply H. intros doc f Hr. vm_compute in Hr. discriminate Hr.
Defined.

(* ================================================================== *)
(** * The task text and the derived paths *)
(* ================================================================== *)

Lemma load_prompt_spec env prompt_name :
  load_prompt env prompt_name None =
  match files env (joinpath (joinpath (project_root env) "prompts")
                            (prompt_name +:+ ".txt")) with
  | Some content => Ok (PyStr.strip content)
  | None => Raise (mk_exn FileNotFoundError
                     ("Prompt file not found: " +:+
                      joinpath (joinpath (project_root env) "prompts")
                               (prompt_name +:+ ".txt")))
  end.
Proof.
  unfold load_prompt, path_exists, prompts_dir_or_default, get_project_root.
  destruct (files env _); reflexivity.
Qed.

(** C7.  For an instance of any variant, as its constructor leaves it:
    the base task is the rendered template without the whitespace
    characters at its ends, as [str.strip] removes them - those of ASCII
    and those outside; and when the variant's instruction file exists,
    [task] is that base task, then exactly two line feeds, then the
    content of the file without the whitespace characters at its ends.
    (Without the instruction file, [task] raises [FileNotFoundError].) *)
Theorem task_is_base_and_instructions :
  forall (env : Env) (cls : Variant) (config_path : value)
         (kwargs : gmap string value) (w w' : World) (self : Platform.t),
    Platform.__init__ env cls config_path kwargs w = (Ok self, w') ->
    exists rendered,
      jinja_render env (joinpath (project_root env) "prompts") "base_task.tpl"
                   (Platform.config self) = inr rendered /\
      Platform.base_task self = PyStr.strip rendered /\
      is_strip_of rendered (Platform.base_task self) /\
      PyStr.nl2 = String (PyStr.chr 10) (String (PyStr.chr 10) EmptyString) /\
      match files env (joinpath (joinpath (project_root env) "prompts")
                                (v_instructions cls +:+ ".txt")) with
      | Some content =>
          exists instructions,
            Platform.platform_instructions env self = Ok instructions /\
            is_strip_of content instructions /\
            Platform.task env self =
              Ok (Platform.base_task self +:+ PyStr.nl2 +:+ instructions) /\
            Platform.task env self =
              Ok (PyStr.strip rendered +:+ PyStr.nl2 +:+ PyStr.strip content)
      | None =>
          exists e, Platform.task env self = Raise e /\
                    isinstance e FileNotFoundError = true
      end.
Proof.
  intros env cls config_path kwargs w w' self Hinit.
  apply init_ok in Hinit. destruct Hinit as (Hv & _ & _ & rendered & Hr & Hb).
  exists rendered. split; [exact Hr|]. split; [exact Hb|].
  split; [rewrite Hb; apply strip_is_strip_of|]. split; [reflexivity|].
  unfold Platform.task, Platform.platform_instructions.
  rewrite load_prompt_spec, Hv, Hb.
  destruct (files env _) as [content|].
  - exists (PyStr.strip content). split; [reflexivity|].
    split; [apply strip_is_strip_of|]. split; reflexivity.
  - eexists. split; reflexivity.
Qed.

Lemma task_is_base_and_instructions_witness :
  files (Demo.env None Demo.no_failure) "/opt/wifebot/prompts/okcupid_instructions.txt" =
    Some (Demo.no_break_space +:+ "Answer the questions first." +:+
          Demo.next_line +:+ PyStr.nl) /\
  exists self w',
    Platform.new (Demo.env None Demo.no_failure) OkCupidPlatform ∅ (Demo.world [])
    = (Ok self, w') /\
    Platform.task (Demo.env None Demo.no_failure) self =
    Ok ("You are a dating assistant." +:+ PyStr.nl2 +:+
        "Answer the questions first.").
Proof.
  split; [reflexivity|].
  eexists. eexists. split; [vm_compute; reflexivity|].
  lazymatch goal with
  | |- Platform.task ?env ?self = _ =>
      destruct (task_is_base_and_instructions env OkCupidPlatform VNone ∅
                  (Demo.world []) (after_dotenv env (Demo.world [])) self)
        as (rendered & Hr & _ & _ & _ & Ht); [vm_compute; reflexivity|]
  end.
  vm_compute in Hr. injection Hr as <-.
  lazymatch type of Ht with
  | match ?f with _ => _ end =>
      let v := eval vm_compute in f in change f with v in Ht
  end.
  destruct Ht as (instructions & _ & _ & _ & Ht). rewrite Ht. vm_compute. reflexivity.
Defined.

(** C8, as the code has it.  The profile directory and the trace path of
    an instance are the custom value of the override set when that value
    is truthy - a non-empty string - and returned as it is; when the
    override is absent, [None] or falsy such as the empty string, they are
    the path template - the one at [paths.profile_dir_template], resp.
    [paths.trace_path_template], of the configuration document, else the
    built-in one - with the platform name substituted by [str.format]. *)
Theorem custom_path_when_truthy :
  forall (env : Env) (cls : Variant) (config_path : value)
         (kwargs : gmap string value) (w w' : World) (self : Platform.t),
    Platform.__init__ env cls config_path kwargs w = (Ok self, w') ->
    (forall v, kwargs !! "profile_dir" = Some v -> truthy v = true ->
               Platform.profile_dir env self = Ok v) /\
    (forall v, kwargs !! "trace_path" = Some v -> truthy v = true ->
               Platform.trace_path env self = Ok v) /\
    (truthy (Platform.kwargs_get kwargs "profile_dir") = false ->
     Platform.profile_dir env self =
     match expand_path_template env
             (get_default_config_value (Platform.config self)
                "paths.profile_dir_template"
                (VStr "~/.config/browseruse/profiles/{platform}"))
             (v_name cls) with
     | Ok s => Ok (VStr s)
     | Raise e => Raise e
     end) /\
    (truthy (Platform.kwargs_get kwargs "trace_path") = false ->
     Platform.trace_path env self =
     match expand_path_template env
             (get_default_config_value (Platform.config self)
                "paths.trace_path_template" (VStr "/tmp/wifebot/{platform}"))
             (v_name cls) with
     | Ok s => Ok (VStr s)
     | Raise e => Raise e
     end).
Proof.
  intros env cls config_path kwargs w w' self Hinit.
  apply init_ok in Hinit. destruct Hinit as (Hv & Hp & Ht & _).
  unfold Platform.profile_dir, Platform.trace_path, get_profile_dir, get_trace_path,
    Platform.name.
  rewrite Hv, Hp, Ht. unfold Platform.kwargs_get.
  repeat apply conj.
  - intros v -> ->. reflexivity.
  - intros v -> ->. reflexivity.
  - intros ->. reflexivity.
  - intros ->. reflexivity.
Qed.

Lemma custom_path_when_truthy_witness :
  exists self w',
    Platform.new (Demo.env None Demo.no_failure) HingePlatform
      {[ "profile_dir" := VStr "/data/hinge"; "trace_path" := VStr "" ]} (Demo.world [])
    = (Ok self, w') /\
    Platform.profile_dir (Demo.env None Demo.no_failure) self = Ok (VStr "/data/hinge") /\
    Platform.trace_path (Demo.env None Demo.no_failure) self = Ok (VStr "/tmp/wifebot/hinge").
Proof.
  eexists. eexists. split; [vm_compute; reflexivity|].
  lazymatch goal with
  | |- Platform.profile_dir ?env ?self = _ /\ _ =>
      destruct (custom_path_when_truthy env HingePlatform VNone
                  {[ "profile_dir" := VStr "/data/hinge"; "trace_path" := VStr "" ]}
                  (Demo.world []) (after_dotenv env (Demo.world [])) self)
        as (Hp & _ & _ & Ht); [vm_compute; reflexivity|]
  end.
  split.
  - apply Hp; vm_compute; reflexivity.
  - rewrite Ht; vm_compute; reflexivity.
Defined.

(** C8 as stated fails: an empty string given as [profile_dir] is in the
    override set, yet the profile directory is the templated default. *)
Lemma empty_profile_dir_not_returned :
  ~ (forall (env : Env) (cls : Variant) (kwargs : gmap string value)
            (w w' : World) (self : Platform.t) (v : value),
        Platform.new env cls kwargs w = (Ok self, w') ->
        kwargs !! "profile_dir" = Some v ->
        Platform.profile_dir env self = Ok v).
Proof.
  intros H.
  pose (env := Demo.env None Demo.no_failure).
  pose (self := Platform.mk TinderPlatform (VDict ∅) "You are a dating assistant."
                  (VBool false) (VInt 1280) (VInt 1100) (VInt 1) (VInt 10)
                  (VStr "gpt-4o-mini") (VBool false) (VStr "") VNone).
  specialize (H env TinderPlatform {[ "profile_dir" := VStr "" ]} (Demo.world [])
                (after_dotenv env (Demo.world [])) self (VStr "")).
  assert (Hd : Platform.profile_dir env self =
               Ok (VStr "~/.config/browseruse/profiles/tinder"))
    by (vm_compute; reflexivity).
  rewrite Hd in H. discriminate H; vm_compute; reflexivity.
Qed.


(* ================================================================== *)
(** * Running one profile *)
(* ================================================================== *)

Ltac case_step :=
  match goal with
  | |- context [match ?x with _ => _ end] =>
      lazymatch x with
      | context [match _ with _ => _ end] => fail
      | _ => destruct x eqn:?
      end
  end.

Lemma session_open_from_app a : forall o b,
  session_open_from o (a ++ b) = session_open_from (session_open_from o a) b.
Proof.
  induction a as [|ev a IH]; intros o b; [reflexivity|].
  destruct ev as [| | |c f]; simpl; try apply IH.
  destruct c; try apply IH. destruct f; apply IH.
Qed.

(** C10.  Whatever the automation library does, [run] adds to the trace
    a sequence of events such that: if the session was started (the call
    of [start] returned), then the last event before [run] returns or
    raises is the call of [stop] on that session; hence no session
    started by [run] is open when control is back at the caller, and one
    that was not open before is not open after. *)
Theorem run_stops_started_session :
  forall (env : Env) (self : Platform.t) (w : World),
    exists evs,
      trace (snd (Platform.run env self w)) = trace w ++ evs /\
      (forall profile, EvCall (Start profile) None ∈ evs ->
         exists failure, last evs = Some (EvCall (Stop profile) failure)) /\
      session_open_from false evs = false /\
      (session_open (trace w) = false ->
       session_open (trace (snd (Platform.run env self w))) = false).
Proof.
  intros env self w.
  cut (exists evs,
      trace (snd (Platform.run env self w)) = trace w ++ evs /\
      (forall profile, EvCall (Start profile) None ∈ evs ->
         exists failure, last evs = Some (EvCall (Stop profile) failure)) /\
      session_open_from false evs = false).
  { intros (evs & Htr & Hlast & Hclosed). exists evs.
    repeat (split; [assumption|]).
    intros Hw. rewrite Htr. unfold session_open.
    rewrite session_open_from_app. fold (session_open (trace w)).
    rewrite Hw. exact Hclosed. }
  unfold Platform.run, bind, try_finally, lift, print, emit, Platform.external, ret.
  repeat (case_step; cbn [trace stdin environ fst snd]).
  all: cbn [trace stdin environ fst snd]; rewrite <- ?app_assoc; cbn [app].
  all: eexists; (split; [try reflexivity; symmetry; apply app_nil_r|]).
  all: split; [|reflexivity].
  all: intros profile Hin.
  all: repeat (apply elem_of_cons in Hin as [Hin|Hin]; [try discriminate Hin|]).
  all: try (apply elem_of_nil in Hin; contradiction).
  all: injection Hin as <-; eexists; reflexivity.
Qed.

(** Tinder's site cannot be reached: [run] raises, and the session it
    had started is stopped first. *)
Lemma run_stops_started_session_witness :
  fst (Platform.run (Demo.env None Demo.two_fail) Demo.tinder (Demo.world [])) =
    Raise (mk_exn OSError "net::ERR_CONNECTION_REFUSED") /\
  session_open (trace (snd (Platform.run (Demo.env None Demo.two_fail) Demo.tinder
                                         (Demo.world [])))) = false /\
  exists profile failure,
    last (trace (snd (Platform.run (Demo.env None Demo.two_fail) Demo.tinder
                                   (Demo.world [])))) =
    Some (EvCall (Stop profile) failure).
Proof.
  destruct (run_stops_started_session (Demo.env None Demo.two_fail) Demo.tinder
              (Demo.world []))
    as (evs & Htr & Hlast & _ & Hclosed).
  split; [vm_compute; reflexivity|]. split; [apply Hclosed; reflexivity|].
  rewrite Htr. cbn [Demo.world trace app].
  assert (Hevs : exists profile rest,
             evs = EvCall (NewSession profile) None ::
                   EvCall (Start profile) None :: rest).
  { vm_compute in Htr. rewrite <- Htr. eexists. eexists. reflexivity. }
  destruct Hevs as (profile & rest & Hevs).
  exists profile. apply Hlast. rewrite Hevs.
  apply elem_of_cons. right. apply elem_of_cons. left. reflexivity.
Defined.

(* ================================================================== *)
(** * Tame computations *)
(* ================================================================== *)

Lemma tame_ret {A} (a : A) : tame (ret a).
Proof.
  intros w. exists []. simpl. rewrite app_nil_r. repeat split. discriminate.
Qed.

Lemma tame_lift {A} (r : result A) :
  (forall e, r = Raise e -> isinstance e Exception = true) -> tame (lift r).
Proof.
  intros Hr w. exists []. simpl. rewrite app_nil_r. repeat split. exact Hr.
Qed.

Lemma tame_raise {A} (e : exn) :
  isinstance e Exception = true -> tame (raise (A := A) e).
Proof.
  intros He w. exists []. simpl. rewrite app_nil_r. repeat split.
  intros e' [= <-]. exact He.
Qed.

Lemma tame_bind {A B} (m : M A) (k : A -> M B) :
  tame m -> (forall a, tame (k a)) -> tame (bind m k).
Proof.
  intros Hm Hk w. unfold bind.
  destruct (Hm w) as (evs & Htr & Hin & Hex).
  destruct (m w) as [[a|e] w1]; simpl in *.
  - destruct (Hk a w1) as (evs' & Htr' & Hin' & Hex').
    exists (evs ++ evs'). rewrite Htr', Htr, app_assoc, forallb_app, Hin, Hin'.
    repeat split. exact Hex'.
  - exists evs. split; [exact Htr|]. split; [exact Hin|].
    intros e' [= <-]. apply Hex. reflexivity.
Qed.

Lemma tame_try_except {A} (body : M A) cls (handler : exn -> M A) :
  tame body -> (forall e, tame (handler e)) -> tame (try_except body cls handler).
Proof.
  intros Hb Hh w. unfold try_except.
  destruct (Hb w) as (evs & Htr & Hin & Hex).
  destruct (body w) as [[a|e] w1]; simpl in *.
  - exists evs. split; [exact Htr|]. split; [exact Hin|exact Hex].
  - destruct (isinstance e cls).
    + destruct (Hh e w1) as (evs' & Htr' & Hin' & Hex').
      exists (evs ++ evs'). rewrite Htr', Htr, app_assoc, forallb_app, Hin, Hin'.
      repeat split. exact Hex'.
    + exists evs. split; [exact Htr|]. split; [exact Hin|exact Hex].
Qed.

Lemma tame_try_finally {A} (body : M A) (final : M unit) :
  tame body -> tame final -> tame (try_finally body final).
Proof.
  intros Hb Hf w. unfold try_finally.
  destruct (Hb w) as (evs & Htr & Hin & Hex).
  destruct (body w) as [r w1]; simpl in *.
  destruct (Hf w1) as (evs' & Htr' & Hin' & Hex').
  exists (evs ++ evs').
  destruct (final w1) as [[[]|e'] w2]; simpl in *;
    rewrite Htr', Htr, app_assoc, forallb_app, Hin, Hin';
    (split; [reflexivity|]); (split; [reflexivity|]).
  - exact Hex.
  - intros e [= <-]. apply Hex'. reflexivity.
Qed.

Lemma tame_emit (ev : event) : inner_event ev = true -> tame (emit ev).
Proof.
  intros Hev w. exists [ev]. simpl. rewrite Hev. repeat split. discriminate.
Qed.

(** [str.format] raises ordinary errors only, when the evaluation of the
    special fields does. *)
Lemma format_go_raises_upto env
  (Hf : forall field p e, format_field env field p = Raise e ->
                          isinstance e Exception = true) n :
  forall s st out platform e,
    (String.length s <= n)%nat ->
    format_go env s st out platform = Raise e -> isinstance e Exception = true.
Proof.
  induction n as [|n IH]; intros s st out platform e Hlen.
  - destruct s; [|simpl in Hlen; lia]. simpl.
    destruct st; [discriminate|]. intros [= <-]. reflexivity.
  - destruct s as [|c s]; simpl.
    + destruct st; [discriminate|]. intros [= <-]. reflexivity.
    + simpl in Hlen.
      assert (Hs : forall st' out', format_go env s st' out' platform = Raise e ->
                                    isinstance e Exception = true)
        by (intros; eapply IH; [|eassumption]; lia).
      destruct st as [|depth field].
      * destruct (Ascii.eqb c "{").
        -- destruct s as [|c' s']; [intros [= <-]; reflexivity|].
           destruct (Ascii.eqb c' "{"); [|apply Hs].
           apply IH. simpl in Hlen. lia.
        -- destruct (Ascii.eqb c "}"); [|apply Hs].
           destruct s as [|c' s']; [intros [= <-]; reflexivity|].
           destruct (Ascii.eqb c' "}"); [|intros [= <-]; reflexivity].
           apply IH. simpl in Hlen. lia.
      * destruct (Ascii.eqb c "}").
        -- destruct depth; [|apply Hs].
           destruct (eval_field env field platform) as [v|e'] eqn:Hev; [apply Hs|].
           intros [= <-]. revert Hev. unfold eval_field.
           destruct (PyStr.any_char is_field_operator field || all_digits field ||
                     negb (PyStr.is_ascii field));
             [apply Hf|].
           destruct (String.eqb field "platform"); [discriminate|].
           intros [= <-]. reflexivity.
        -- destruct (Ascii.eqb c "{"); apply Hs.
Qed.

Lemma expand_path_template_raises env template platform e :
  ordinary env ->
  expand_path_template env template platform = Raise e ->
  isinstance e Exception = true.
Proof.
  intros [_ Hf]. destruct template; simpl; try (intros [= <-]; reflexivity).
  apply (format_go_raises_upto env Hf (String.length s)). lia.
Qed.

Section Tame.
Variable env : Env.
Hypothesis Hord : ordinary env.

Lemma tame_external c : tame (Platform.external env c).
Proof.
  intros w. unfold Platform.external.
  destruct (ext env (trace w) c) as [e|] eqn:He; eexists [_]; simpl;
    (split; [reflexivity|]); (split; [reflexivity|]).
  - intros e' [= <-]. destruct Hord as [Hext _]. exact (Hext _ _ _ He).
  - discriminate.
Qed.

Lemma tame_profile_dir self : tame (lift (Platform.profile_dir env self)).
Proof.
  apply tame_lift. intros e. unfold Platform.profile_dir, get_profile_dir.
  destruct (truthy _); [discriminate|].
  destruct (expand_path_template env _ _) eqn:Hx; [discriminate|].
  intros [= <-]. exact (expand_path_template_raises _ _ _ _ Hord Hx).
Qed.

Lemma tame_trace_path self : tame (lift (Platform.trace_path env self)).
Proof.
  apply tame_lift. intros e. unfold Platform.trace_path, get_trace_path.
  destruct (truthy _); [discriminate|].
  destruct (expand_path_template env _ _) eqn:Hx; [discriminate|].
  intros [= <-]. exact (expand_path_template_raises _ _ _ _ Hord Hx).
Qed.

Lemma tame_task self : tame (lift (Platform.task env self)).
Proof.
  apply tame_lift. intros e. unfold Platform.task, Platform.platform_instructions.
  rewrite load_prompt_spec. destruct (files env _); [discriminate|].
  intros [= <-]. reflexivity.
Qed.

Ltac tame_step :=
  lazymatch goal with
  | |- tame (bind _ _) => apply tame_bind; [|intros ?]
  | |- tame (try_finally _ _) => apply tame_try_finally
  | |- tame (try_except _ _ _) => apply tame_try_except; [|intros ?]
  | |- tame (ret _) => apply tame_ret
  | |- tame (print _) => apply tame_emit; reflexivity
  | |- tame (Platform.external _ _) => apply tame_external
  | |- tame (lift (Platform.profile_dir _ _)) => apply tame_profile_dir
  | |- tame (lift (Platform.trace_path _ _)) => apply tame_trace_path
  | |- tame (lift (Platform.task _ _)) => apply tame_task
  | |- tame (if ?b then _ else _) => destruct b
  end.

Lemma tame_run self : tame (Platform.run env self).
Proof. unfold Platform.run. repeat tame_step. Qed.

Lemma load_config_world config_path w : snd (load_config env config_path w) = w.
Proof.
  unfold load_config, bind, raise, ret, get_default_config_path, bind,
    get_xdg_config_home, ret.
  repeat (case_step; cbn [fst snd]); try reflexivity; congruence.
Qed.

Lemma tame_load_config config_path : tame (load_config env config_path).
Proof.
  intros w. exists []. rewrite load_config_world, app_nil_r.
  split; [reflexivity|]. split; [reflexivity|].
  intros e He. destruct (load_config env config_path w) as [r w'] eqn:Hl.
  simpl in He. subst r. apply load_config_raises in Hl. apply Hl.
Qed.

Lemma tame_new cls kwargs : tame (Platform.new env cls kwargs).
Proof.
  unfold Platform.new, Platform.__init__.
  apply tame_bind; [|intros _].
  { intros w. exists [EvLoadDotenv]. simpl. repeat split. discriminate. }
  apply tame_bind; [|intros cfg].
  { apply tame_try_except; [apply tame_load_config|intros; apply tame_ret]. }
  apply tame_bind; [|intros base; apply tame_ret].
  apply tame_lift. intros e. unfold render_prompt_template.
  destruct (jinja_render env _ _ _) as [f|]; [|discriminate].
  intros [= <-]. apply failure_is_exception.
Qed.

Lemma tame_create_platform self name kwargs :
  tame (PlatformFactory.create_platform env self name kwargs).
Proof.
  unfold PlatformFactory.create_platform.
  destruct (negb _); [apply tame_raise; reflexivity|].
  destruct (PlatformFactory.getitem _ _);
    [apply tame_new|apply tame_raise; reflexivity].
Qed.

End Tame.

(* ================================================================== *)
(** * Running all platforms *)
(* ================================================================== *)

Lemma inner_silent evs :
  forallb inner_event evs = true ->
  attempts evs = [] /\ ended evs = [] /\ raised evs = [] /\ caught evs = [].
Proof.
  induction evs as [|ev evs IH]; [repeat split|].
  cbn [forallb]. intros [Hev Hevs]%andb_true_iff.
  destruct (IH Hevs) as (Ha & He & Hr & Hc).
  unfold attempts, ended, raised, caught in *.
  destruct ev as [m| | |]; [destruct m; try discriminate Hev| | |];
    cbn [omap list_omap attempt_of ended_of raised_of caught_of];
    rewrite Ha, He, Hr, Hc; repeat split; reflexivity.
Qed.

Section RunAll.
Variable env : Env.
Hypothesis Hord : ordinary env.

(** One run: it is entered once, and a failure is reported once and
    raised again. *)
Lemma run_single_platform_spec self name kwargs w :
  exists r w' evs,
    PlatformFactory.run_single_platform env self name kwargs w = (r, w') /\
    trace w' = trace w ++ EvPrint (LStartingSingle name) :: evs /\
    attempts evs = [] /\ ended evs = [] /\ caught evs = [] /\
    raised evs = match r with Raise e => [(name, e)] | Ok _ => [] end /\
    forall e, r = Raise e -> isinstance e Exception = true.
Proof.
  unfold PlatformFactory.run_single_platform.
  set (body := bind (PlatformFactory.create_platform env self name kwargs) _).
  assert (Hbody : tame body).
  { unfold body. apply tame_bind; [apply tame_create_platform; exact Hord|intros p].
    apply tame_bind; [apply tame_run; exact Hord|intros _].
    apply tame_emit. reflexivity. }
  unfold bind at 1, print at 1, emit at 1, try_except.
  set (w0 := mk_World (trace w ++ [EvPrint (LStartingSingle name)]) (stdin w) (environ w)).
  destruct (Hbody w0) as (evs & Htr & Hin & Hex).
  destruct (inner_silent evs Hin) as (Ha & He & Hr & Hc).
  destruct (body w0) as [[[]|e] w1]; simpl in Htr, Hex.
  - exists (Ok tt), w1, evs. rewrite Htr. unfold w0. simpl. rewrite <- app_assoc.
    repeat (split; [first [reflexivity|assumption]|]). discriminate.
  - rewrite (Hex e eq_refl).
    exists (Raise e), (mk_World (trace w1 ++ [EvPrint (LErrorSingle name e)])
                               (stdin w1) (environ w1)),
           (evs ++ [EvPrint (LErrorSingle name e)]).
    split; [reflexivity|]. simpl. rewrite Htr. unfold w0. simpl.
    rewrite <- !app_assoc. split; [reflexivity|].
    unfold attempts, ended, raised, caught in *.
    rewrite !omap_app, Ha, He, Hr, Hc.
    repeat (split; [reflexivity|]). intros e' [= <-]. exact (Hex e eq_refl).
Qed.

(** The loop of [run_all_platforms], over any list of names. *)
Lemma run_all_loop self kwargs names : forall w,
  exists w' evs,
    for_each names (fun platform =>
        print LBannerTop ;;;
        print (LStartingAll platform) ;;;
        print LBannerBottom ;;;
        try_except (PlatformFactory.run_single_platform env self platform kwargs)
                   Exception
                   (fun e => print (LErrorAll platform e)) ;;;
        print (LSessionEnded platform))%py w = (Ok tt, w') /\
    trace w' = trace w ++ evs /\
    attempts evs = names /\ ended evs = names /\ raised evs = caught evs.
Proof.
  induction names as [|name names IH]; intros w.
  - exists w, []. simpl. rewrite app_nil_r. repeat split.
  - cbn [for_each]. unfold bind, print, emit, try_except. cbn [trace stdin environ].
    lazymatch goal with
    | |- context [PlatformFactory.run_single_platform env self name kwargs ?w0] =>
        destruct (run_single_platform_spec self name kwargs w0)
          as (r & w1 & evs & Hrun & Htr & Ha & He & Hc & Hr & Hex);
        rewrite Hrun
    end.
    cbn [trace] in Htr.
    destruct r as [[]|e]; [|rewrite (Hex e eq_refl)]; cbn [trace stdin environ].
    + lazymatch goal with
      | |- context [for_each names _ ?w2] =>
          destruct (IH w2) as (w' & evs' & Hloop & Htr' & Ha' & He' & Hrc')
      end.
      exists w', ([EvPrint LBannerTop; EvPrint (LStartingAll name); EvPrint LBannerBottom;
                   EvPrint (LStartingSingle name)] ++ evs ++
                  [EvPrint (LSessionEnded name)] ++ evs').
      split; [exact Hloop|].
      split.
      { rewrite Htr'. cbn [trace]. rewrite Htr. rewrite <- !app_assoc. reflexivity. }
      unfold attempts, ended, raised, caught in *.
      rewrite !omap_app, Ha, He, Hc, Hr, Ha', He', Hrc'. repeat split.
    + lazymatch goal with
      | |- context [for_each names _ ?w2] =>
          destruct (IH w2) as (w' & evs' & Hloop & Htr' & Ha' & He' & Hrc')
      end.
      exists w', ([EvPrint LBannerTop; EvPrint (LStartingAll name); EvPrint LBannerBottom;
                   EvPrint (LStartingSingle name)] ++ evs ++
                  [EvPrint (LErrorAll name e); EvPrint (LSessionEnded name)] ++ evs').
      split; [exact Hloop|].
      split.
      { rewrite Htr'. cbn [trace]. rewrite Htr. rewrite <- !app_assoc. reflexivity. }
      unfold attempts, ended, raised, caught in *.
      rewrite !omap_app, Ha, He, Hc, Hr, Ha', He', Hrc'. repeat split.
Qed.

End RunAll.

(** C5.  For a factory as its constructor builds it, and collaborators
    that fail with ordinary errors only: [run_all_platforms] returns
    normally, whichever platforms fail; [run_single_platform] is entered
    exactly once for each of [bumble], [tinder], [hinge], [okcupid], in
    this order; each of the four turns comes to its end, in this order;
    and the failures [run_single_platform] raised are exactly those
    caught and reported by the loop, platform by platform. *)
Theorem run_all_platforms_isolates_failures :
  forall (env : Env) (config config_path : value)
         (kwargs : gmap string value) (w : World),
    ordinary env ->
    exists w' evs,
      PlatformFactory.run_all_platforms env
        (PlatformFactory.mk PlatformFactory.registry config config_path) kwargs w
      = (Ok tt, w') /\
      trace w' = trace w ++ evs /\
      attempts evs = ["bumble"; "tinder"; "hinge"; "okcupid"] /\
      ended evs = ["bumble"; "tinder"; "hinge"; "okcupid"] /\
      raised evs = caught evs.
Proof.
  intros env config config_path kwargs w Hord.
  unfold PlatformFactory.run_all_platforms.
  set (self := PlatformFactory.mk PlatformFactory.registry config config_path).
  change (PlatformFactory.get_available_platforms self)
    with ["bumble"; "tinder"; "hinge"; "okcupid"].
  unfold bind at 1, print at 1, emit at 1.
  set (w0 := mk_World _ _ _).
  destruct (run_all_loop env Hord self kwargs ["bumble"; "tinder"; "hinge"; "okcupid"] w0)
    as (w' & evs & Hloop & Htr & Ha & He & Hrc).
  exists w', (EvPrint (LRunningAll ["bumble"; "tinder"; "hinge"; "okcupid"]) :: evs).
  split; [exact Hloop|].
  split; [rewrite Htr; unfold w0; cbn [trace]; rewrite <- app_assoc; reflexivity|].
  unfold attempts, ended, raised, caught in *.
  cbn [omap list_omap attempt_of ended_of raised_of caught_of].
  auto.
Qed.

Lemma demo_ordinary config_content : ordinary (Demo.env config_content Demo.two_fail).
Proof.
  split.
  - intros tr c e. simpl. unfold Demo.two_fail.
    repeat (case_step; try discriminate); intros [= <-]; reflexivity.
  - intros field platform e. simpl. intros [= <-]. reflexivity.
Qed.

(** With Tinder and Hinge failing, all four platforms are still run, and
    the two failures are the two reports. *)
Lemma run_all_platforms_isolates_failures_witness :
  exists w' evs,
    PlatformFactory.run_all_platforms (Demo.env None Demo.two_fail) Demo.factory ∅
      (Demo.world []) = (Ok tt, w') /\
    trace w' = evs /\
    attempts evs = ["bumble"; "tinder"; "hinge"; "okcupid"] /\
    ended evs = ["bumble"; "tinder"; "hinge"; "okcupid"] /\
    raised evs = caught evs /\
    caught evs = [("tinder", mk_exn OSError "net::ERR_CONNECTION_REFUSED");
                  ("hinge", mk_exn Exception "agent stopped")].
Proof.
  destruct (run_all_platforms_isolates_failures (Demo.env None Demo.two_fail)
              (VDict ∅) VNone ∅ (Demo.world []) (demo_ordinary None))
    as (w' & evs & Hrun & Htr & Ha & He & Hrc).
  exists w', evs. change (trace (Demo.world []) ++ evs) with evs in Htr.
  repeat (split; [assumption|]).
  rewrite <- Htr.
  change w' with (snd (@Ok unit tt, w')). rewrite <- Hrun.
  vm_compute. reflexivity.
Defined.

(* ================================================================== *)
(** * The interactive menu *)
(* ================================================================== *)

Lemma for_each_print msgs : forall w,
  for_each msgs print w =
  (Ok tt, mk_World (trace w ++ map EvPrint msgs) (stdin w) (environ w)).
Proof.
  induction msgs as [|m msgs IH]; intros w; cbn [for_each map].
  - unfold ret. rewrite app_nil_r. destruct w; reflexivity.
  - unfold bind, print at 1, emit. rewrite IH. cbn [trace stdin environ].
    rewrite <- app_assoc. reflexivity.
Qed.

(** The loop skips the entries it refuses, asking again after each, and
    settles on the first entry that is a number of the menu. *)
Lemma select_loop_spec env names bad : forall line rest c,
  Forall (fun l => refused env names l = true) bad ->
  py_int env line = Some c ->
  1 <= c <= Z.of_nat (length names) + 2 ->
  exists evs,
    PlatformFactory.select_loop env names (bad ++ line :: rest) =
    (Ok (selection names c), evs, rest) /\
    prompts evs =
      replicate (S (length bad))
        (PyStr.nl +:+ "Select platform (1-" +:+
         pretty (Z.of_nat (length names) + 2) +:+ "): ") /\
    printed evs =
      map (refusal env names) bad ++
      (if c =? Z.of_nat (length names) + 2 then [LGoodbye] else []).
Proof.
  induction bad as [|b bad IH]; intros line rest c Hbad Hline Hc.
  - cbn [app PlatformFactory.select_loop]. rewrite Hline. unfold selection.
    destruct (c =? Z.of_nat (length names) + 2) eqn:H2;
      [eexists; split; [reflexivity|split; reflexivity]|].
    destruct (c =? Z.of_nat (length names) + 1) eqn:H1;
      [eexists; split; [reflexivity|split; reflexivity]|].
    apply Z.eqb_neq in H1, H2.
    replace ((1 <=? c) && (c <=? Z.of_nat (length names))) with true
      by (symmetry; apply andb_true_iff; split; apply Z.leb_le; lia).
    destruct (lookup_lt_is_Some_2 names (Z.to_nat (c - 1))) as [name Hname]; [lia|].
    rewrite Hname. eexists; split; [reflexivity|split; reflexivity].
  - apply Forall_cons in Hbad as [Hb Hbad].
    destruct (IH line rest c Hbad Hline Hc) as (evs & Hloop & Hprompts & Hprinted).
    cbn [app PlatformFactory.select_loop map]. rewrite Hloop.
    unfold refused in Hb. unfold refusal at 1.
    destruct (py_int env b) as [choice|].
    + apply negb_true_iff, andb_false_iff in Hb.
      replace (choice =? Z.of_nat (length names) + 2) with false
        by (symmetry; apply Z.eqb_neq; destruct Hb as [Hb|Hb];
            [apply Z.leb_gt in Hb|apply Z.leb_gt in Hb]; lia).
      replace (choice =? Z.of_nat (length names) + 1) with false
        by (symmetry; apply Z.eqb_neq; destruct Hb as [Hb|Hb];
            [apply Z.leb_gt in Hb|apply Z.leb_gt in Hb]; lia).
      replace ((1 <=? choice) && (choice <=? Z.of_nat (length names))) with false
        by (symmetry; apply andb_false_iff; destruct Hb as [Hb|Hb];
            [left; exact Hb|right; apply Z.leb_gt; apply Z.leb_gt in Hb; lia]).
      eexists. split; [reflexivity|].
      unfold prompts, printed in *.
      cbn [omap list_omap prompt_of printed_of length replicate map app].
      rewrite Hprompts, Hprinted. split; reflexivity.
    + eexists. split; [reflexivity|].
      unfold prompts, printed in *.
      cbn [omap list_omap prompt_of printed_of length replicate map app].
      rewrite Hprompts, Hprinted. split; reflexivity.
Qed.

(** The loop of the menu when every line is refused. *)
Lemma select_loop_eof env names inputs :
  Forall (fun l => refused env names l = true) inputs ->
  exists evs,
    PlatformFactory.select_loop env names inputs =
    (Raise (mk_exn EOFError "EOF when reading a line"), evs, []) /\
    length (prompts evs) = S (length inputs) /\
    printed evs = map (refusal env names) inputs.
Proof.
  induction inputs as [|line inputs IH]; intros Hall.
  - eexists. split; [reflexivity|]. split; reflexivity.
  - apply Forall_cons in Hall as [Hline Hall].
    destruct (IH Hall) as (evs & Hloop & Hprompts & Hprinted).
    cbn [PlatformFactory.select_loop map]. rewrite Hloop.
    unfold refused in Hline. unfold refusal at 1.
    destruct (py_int env line) as [choice|].
    + apply negb_true_iff, andb_false_iff in Hline.
      replace (choice =? Z.of_nat (length names) + 2) with false
        by (symmetry; apply Z.eqb_neq; destruct Hline as [Hb|Hb];
            apply Z.leb_gt in Hb; lia).
      replace (choice =? Z.of_nat (length names) + 1) with false
        by (symmetry; apply Z.eqb_neq; destruct Hline as [Hb|Hb];
            apply Z.leb_gt in Hb; lia).
      replace ((1 <=? choice) && (choice <=? Z.of_nat (length names))) with false
        by (symmetry; apply andb_false_iff; destruct Hline as [Hb|Hb];
            [left; exact Hb|right; apply Z.leb_gt; apply Z.leb_gt in Hb; lia]).
      eexists. split; [reflexivity|].
      unfold prompts, printed in *.
      cbn [omap list_omap prompt_of printed_of length].
      rewrite Hprompts, Hprinted. split; reflexivity.
    + eexists. split; [reflexivity|].
      unfold prompts, printed in *.
      cbn [omap list_omap prompt_of printed_of length].
      rewrite Hprompts, Hprinted. split; reflexivity.
Qed.

(** Every input is of one of two kinds: all its lines are refused, or
    a first line is a number of the menu. *)
Lemma first_accepted env names inputs :
  Forall (fun l => refused env names l = true) inputs \/
  exists bad line rest c,
    inputs = bad ++ line :: rest /\
    Forall (fun l => refused env names l = true) bad /\
    py_int env line = Some c /\
    1 <= c <= Z.of_nat (length names) + 2.
Proof.
  induction inputs as [|line inputs IH]; [left; constructor|].
  destruct (refused env names line) eqn:Hline.
  - destruct IH as [Hall|(bad & l & rest & c & -> & Hbad & Hl & Hc)].
    + left. constructor; assumption.
    + right. exists (line :: bad), l, rest, c.
      split; [reflexivity|]. split; [constructor; assumption|]. auto.
  - right. exists [], line, inputs. unfold refused in Hline.
    destruct (py_int env line) as [c|]; [|discriminate].
    exists c. apply negb_false_iff, andb_true_iff in Hline as [H1 H2].
    apply Z.leb_le in H1, H2.
    split; [reflexivity|]. split; [constructor|]. split; [reflexivity|lia].
Qed.

Lemma abc_refused env names : refused env names "abc" = true.
Proof. reflexivity. Qed.

Lemma ninety_nine_refused env : refused env ["bumble"; "tinder"; "hinge"; "okcupid"] "99" = true.
Proof.
  unfold refused, py_int. generalize (int_max_str_digits env) as limit.
  generalize (unicode_decimal env) as decimal. intros decimal limit.
  cbv -[Nat.eqb Nat.ltb].
  destruct (Nat.eqb limit 0); [reflexivity|].
  destruct (Nat.ltb limit 2); reflexivity.
Qed.

Lemma two_parsed env : py_int env "2" = Some 2.
Proof.
  unfold py_int. generalize (int_max_str_digits env) as limit.
  intros [|[|limit]]; reflexivity.
Qed.

(** C9.  For a factory as its constructor builds it, [interactive_mode]
    first prints the menu: a header, the four platforms numbered 1 to 4,
    [All platforms] as number 5 and [Exit] as number 6.  Then, for every
    input that starts with entries that are refused - not a number for
    [int], or a number outside 1..6 - followed by an entry that is a
    number [c] of the menu: each refused entry is answered with a message
    and a new prompt, and the call returns [None] for 6, ["all"] for 5
    and the [c]-th registered name for 1 to 4, leaving the rest of the
    input unread.  Every other input has refused entries only: each is
    answered in the same way, and the prompt that follows the last finds
    no line, so the call ends with [EOFError].  In particular, on
    ["abc"], ["99"], ["2"] it prompts three times, refuses twice and
    returns [tinder], the second name. *)
Theorem interactive_mode_selects :
  forall (env : Env) (config config_path : value) (w : World),
    map (render_log env)
        (PlatformFactory.menu ["bumble"; "tinder"; "hinge"; "okcupid"]) =
      ["Available dating platforms:"; "  1. Bumble"; "  2. Tinder"; "  3. Hinge";
       "  4. Okcupid"; "  5. All platforms"; "  6. Exit"]
    /\
    (forall bad line rest c,
        stdin w = bad ++ line :: rest ->
        Forall (fun l => refused env ["bumble"; "tinder"; "hinge"; "okcupid"] l = true) bad ->
        py_int env line = Some c ->
        1 <= c <= 6 ->
        exists evs,
          PlatformFactory.interactive_mode env
            (PlatformFactory.mk PlatformFactory.registry config config_path) w =
          (Ok (selection ["bumble"; "tinder"; "hinge"; "okcupid"] c),
           mk_World (trace w ++
                     map EvPrint (PlatformFactory.menu
                                    ["bumble"; "tinder"; "hinge"; "okcupid"]) ++ evs)
                    rest (environ w)) /\
          prompts evs =
            replicate (S (length bad)) (PyStr.nl +:+ "Select platform (1-6): ") /\
          printed evs =
            map (refusal env ["bumble"; "tinder"; "hinge"; "okcupid"]) bad ++
            (if c =? 6 then [LGoodbye] else []))
    /\
    (selection ["bumble"; "tinder"; "hinge"; "okcupid"] 6 = None /\
     selection ["bumble"; "tinder"; "hinge"; "okcupid"] 5 = Some "all" /\
     map (selection ["bumble"; "tinder"; "hinge"; "okcupid"]) [1; 2; 3; 4] =
       [Some "bumble"; Some "tinder"; Some "hinge"; Some "okcupid"])
    /\
    (Forall (fun l => refused env ["bumble"; "tinder"; "hinge"; "okcupid"] l = true)
            (stdin w) \/
     exists bad line rest c,
       stdin w = bad ++ line :: rest /\
       Forall (fun l => refused env ["bumble"; "tinder"; "hinge"; "okcupid"] l = true) bad /\
       py_int env line = Some c /\
       1 <= c <= 6)
    /\
    (Forall (fun l => refused env ["bumble"; "tinder"; "hinge"; "okcupid"] l = true)
            (stdin w) ->
     exists evs,
       PlatformFactory.interactive_mode env
         (PlatformFactory.mk PlatformFactory.registry config config_path) w =
       (Raise (mk_exn EOFError "EOF when reading a line"),
        mk_World (trace w ++
                  map EvPrint (PlatformFactory.menu
                                 ["bumble"; "tinder"; "hinge"; "okcupid"]) ++ evs)
                 [] (environ w)) /\
       length (prompts evs) = S (length (stdin w)) /\
       printed evs =
         map (refusal env ["bumble"; "tinder"; "hinge"; "okcupid"]) (stdin w))
    /\
    (stdin w = ["abc"; "99"; "2"] ->
     exists evs,
       PlatformFactory.interactive_mode env
         (PlatformFactory.mk PlatformFactory.registry config config_path) w =
       (Ok (Some "tinder"),
        mk_World (trace w ++
                  map EvPrint (PlatformFactory.menu
                                 ["bumble"; "tinder"; "hinge"; "okcupid"]) ++ evs)
                 [] (environ w)) /\
       length (prompts evs) = 3%nat /\
       length (printed evs) = 2%nat).
Proof.
  intros env config config_path w.
  assert (Hgen : forall bad line rest c,
        stdin w = bad ++ line :: rest ->
        Forall (fun l => refused env ["bumble"; "tinder"; "hinge"; "okcupid"] l = true) bad ->
        py_int env line = Some c ->
        1 <= c <= 6 ->
        exists evs,
          PlatformFactory.interactive_mode env
            (PlatformFactory.mk PlatformFactory.registry config config_path) w =
          (Ok (selection ["bumble"; "tinder"; "hinge"; "okcupid"] c),
           mk_World (trace w ++
                     map EvPrint (PlatformFactory.menu
                                    ["bumble"; "tinder"; "hinge"; "okcupid"]) ++ evs)
                    rest (environ w)) /\
          prompts evs =
            replicate (S (length bad)) (PyStr.nl +:+ "Select platform (1-6): ") /\
          printed evs =
            map (refusal env ["bumble"; "tinder"; "hinge"; "okcupid"]) bad ++
            (if c =? 6 then [LGoodbye] else [])).
  { intros bad line rest c Hin Hbad Hline Hc.
    destruct (select_loop_spec env ["bumble"; "tinder"; "hinge"; "okcupid"]
                bad line rest c Hbad Hline Hc) as (evs & Hloop & Hprompts & Hprinted).
    exists evs. split; [|split; [exact Hprompts|exact Hprinted]].
    unfold PlatformFactory.interactive_mode, bind.
    change (PlatformFactory.get_available_platforms _)
      with ["bumble"; "tinder"; "hinge"; "okcupid"].
    rewrite for_each_print. cbn [stdin trace environ].
    rewrite Hin, Hloop, <- app_assoc. reflexivity. }
  split; [reflexivity|]. split; [exact Hgen|]. split; [repeat split|].
  split; [exact (first_accepted env ["bumble"; "tinder"; "hinge"; "okcupid"] (stdin w))|].
  split.
  { intros Hall.
    destruct (select_loop_eof env ["bumble"; "tinder"; "hinge"; "okcupid"] (stdin w) Hall)
      as (evs & Hloop & Hprompts & Hprinted).
    exists evs. split; [|split; [exact Hprompts|exact Hprinted]].
    unfold PlatformFactory.interactive_mode, bind.
    change (PlatformFactory.get_available_platforms _)
      with ["bumble"; "tinder"; "hinge"; "okcupid"].
    rewrite for_each_print. cbn [stdin trace environ].
    rewrite Hloop, <- app_assoc. reflexivity. }
  intros Hin.
  destruct (Hgen ["abc"; "99"] "2" [] 2 Hin) as (evs & Hrun & Hprompts & Hprinted).
  - constructor; [apply abc_refused|].
    constructor; [apply ninety_nine_refused|constructor].
  - apply two_parsed.
  - lia.
  - exists evs. split; [exact Hrun|]. rewrite Hprompts, Hprinted. split; reflexivity.
Qed.

Lemma interactive_mode_selects_witness :
  (exists evs,
    PlatformFactory.interactive_mode (Demo.env None Demo.no_failure) Demo.factory
      (Demo.world ["abc"; "99"; "2"; "6"]) =
    (Ok (Some "tinder"),
     mk_World (map EvPrint (PlatformFactory.menu ["bumble"; "tinder"; "hinge"; "okcupid"])
               ++ evs) ["6"] ∅) /\
    printed evs = [LNotANumber; LInvalidChoice 6] /\
    length (prompts evs) = 3%nat)
  /\
  (exists evs,
    PlatformFactory.interactive_mode (Demo.env None Demo.no_failure) Demo.factory
      (Demo.world [Demo.fullwidth_one +:+ "9";
                   Demo.no_break_space +:+ Demo.arabic_two; "1"]) =
    (Ok (Some "tinder"),
     mk_World (map EvPrint (PlatformFactory.menu ["bumble"; "tinder"; "hinge"; "okcupid"])
               ++ evs) ["1"] ∅) /\
    printed evs = [LInvalidChoice 6] /\
    length (prompts evs) = 2%nat).
Proof.
  split.
  - destruct (interactive_mode_selects (Demo.env None Demo.no_failure) (VDict ∅) VNone
                (Demo.world ["abc"; "99"; "2"; "6"])) as (_ & Hgen & _).
    destruct (Hgen ["abc"; "99"] "2" ["6"] 2) as (evs & Hrun & Hprompts & Hprinted).
    + reflexivity.
    + constructor; [vm_compute; reflexivity|].
      constructor; [vm_compute; reflexivity|constructor].
    + vm_compute. reflexivity.
    + lia.
    + exists evs. split; [exact Hrun|]. rewrite Hprompts, Hprinted.
      split; vm_compute; reflexivity.
  - destruct (interactive_mode_selects (Demo.env None Demo.no_failure) (VDict ∅) VNone
                (Demo.world [Demo.fullwidth_one +:+ "9";
                             Demo.no_break_space +:+ Demo.arabic_two; "1"]))
      as (_ & Hgen & _).
    destruct (Hgen [Demo.fullwidth_one +:+ "9"] (Demo.no_break_space +:+ Demo.arabic_two)
                ["1"] 2) as (evs & Hrun & Hprompts & Hprinted).
    + reflexivity.
    + constructor; [vm_compute; reflexivity|constructor].
    + vm_compute. reflexivity.
    + lia.
    + exists evs. split; [exact Hrun|]. rewrite Hprompts, Hprinted.
      split; vm_compute; reflexivity.
Defined.

(* ================================================================== *)
(** * Further properties: the configuration store *)
(* ================================================================== *)

Lemma split_no_sep sep k :
  PyStr.any_char (Ascii.eqb sep) k = false -> PyStr.split sep k = [k].
Proof.
  induction k as [|c k IH]; [reflexivity|].
  cbn [PyStr.any_char PyStr.split]. intros [Hc Hk]%orb_false_iff.
  rewrite Ascii.eqb_sym, Hc, (IH Hk). reflexivity.
Qed.

Lemma split_app_sep sep k rest :
  PyStr.any_char (Ascii.eqb sep) k = false ->
  PyStr.split sep (k +:+ String sep rest) = k :: PyStr.split sep rest.
Proof.
  induction k as [|c k IH].
  - intros _. rewrite append_nil. cbn [PyStr.split].
    rewrite Ascii.eqb_refl. reflexivity.
  - cbn [PyStr.any_char]. intros [Hc Hk]%orb_false_iff.
    rewrite append_cons. cbn [PyStr.split].
    rewrite Ascii.eqb_sym, Hc, (IH Hk). reflexivity.
Qed.

(** X1.  A document that is not a mapping - a JSON array, string, number,
    boolean or null at the top of the file - has no key: every dotted
    lookup in it returns the default and raises nothing. *)
Theorem lookup_in_non_mapping :
  forall (config : value) (key_path : string) (default : value),
    is_mapping config = false ->
    get_default_config_value config key_path default = default.
Proof.
  intros config key_path default Hm.
  rewrite get_default_config_value_path.
  pose proof (split_nonempty "." key_path) as Hne.
  destruct (PyStr.split "." key_path) as [|seg rest]; [congruence|].
  destruct config; try reflexivity. discriminate Hm.
Qed.

Lemma lookup_in_non_mapping_witness :
  get_default_config_value (VList [VInt 1; VInt 2]) "browser.headless" (VBool false)
  = VBool false
  /\ get_default_config_value VNone "verbose" (VStr "fallback") = VStr "fallback".
Proof.
  split; apply lookup_in_non_mapping; reflexivity.
Defined.

(** X2.  Dotted lookups compose: looking [k.rest] up in a mapping, for a
    key [k] without a dot, is looking [rest] up in the value stored under
    [k], and is the default when [k] is not a key; a path of one segment
    is a plain key lookup. *)
Theorem lookup_composes :
  forall (d : gmap string value) (k rest : string) (default : value),
    dot_free k = true ->
    get_default_config_value (VDict d) (k +:+ "." +:+ rest) default =
      match d !! k with
      | Some v => get_default_config_value v rest default
      | None => default
      end
    /\
    get_default_config_value (VDict d) k default =
      match d !! k with
      | Some v => v
      | None => default
      end.
Proof.
  intros d k rest default Hk. unfold dot_free in Hk. apply negb_true_iff in Hk.
  unfold get_default_config_value. split.
  - change (k +:+ "." +:+ rest) with (k +:+ String "." rest).
    rewrite (split_app_sep "." k rest Hk). cbn [walk subscript].
    destruct (d !! k); reflexivity.
  - rewrite (split_no_sep "." k Hk). cbn [walk subscript].
    destruct (d !! k); reflexivity.
Qed.

Lemma lookup_composes_witness :
  get_default_config_value
    (VDict {[ "browser" := VDict {[ "viewport" := VDict {[ "width" := VInt 1920 ]} ]} ]})
    "browser.viewport.width" VNone
  = get_default_config_value
      (VDict {[ "viewport" := VDict {[ "width" := VInt 1920 ]} ]})
      "viewport.width" VNone.
Proof.
  destruct (lookup_composes
              {[ "browser" := VDict {[ "viewport" := VDict {[ "width" := VInt 1920 ]} ]} ]}
              "browser" "viewport.width" VNone) as [H _]; [reflexivity|].
  change ("browser" +:+ "." +:+ "viewport.width") with "browser.viewport.width" in H.
  rewrite H. vm_compute. reflexivity.
Defined.

(** X3.  The default configuration file is [wifebot/config.json] under
    [XDG_CONFIG_HOME]; when that variable is unset, and also when it is
    set to the empty string, it is [.config/wifebot/config.json] under
    the home directory.  Computing it changes nothing. *)
Theorem default_config_path_xdg :
  forall (env : Env) (w : World),
    (forall x, environ w !! "XDG_CONFIG_HOME" = Some x -> x <> EmptyString ->
               get_default_config_path env w = (Ok (x +:+ "/wifebot/config.json"), w)) /\
    (environ w !! "XDG_CONFIG_HOME" = None \/
     environ w !! "XDG_CONFIG_HOME" = Some EmptyString ->
     get_default_config_path env w =
     (Ok (home env +:+ "/.config/wifebot/config.json"), w)).
Proof.
  intros env w.
  assert (Hj : forall a, joinpath (joinpath a "wifebot") "config.json" =
                         a +:+ "/wifebot/config.json").
  { intros a. unfold joinpath. rewrite !append_assoc_str. reflexivity. }
  assert (Hh : joinpath (joinpath (joinpath (home env) ".config") "wifebot") "config.json"
               = home env +:+ "/.config/wifebot/config.json").
  { unfold joinpath. rewrite !append_assoc_str. reflexivity. }
  unfold get_default_config_path, bind, get_xdg_config_home, ret. split.
  - intros x Hx Hne. rewrite Hx.
    destruct (String.eqb_spec x ""); [contradiction|]. simpl. rewrite Hj. reflexivity.
  - intros [Hx|Hx]; rewrite Hx; simpl; rewrite Hh; reflexivity.
Qed.

Lemma default_config_path_xdg_witness :
  get_default_config_path (Demo.env None Demo.no_failure)
    (mk_World [] [] {[ "XDG_CONFIG_HOME" := "/srv/etc" ]})
  = (Ok "/srv/etc/wifebot/config.json",
     mk_World [] [] {[ "XDG_CONFIG_HOME" := "/srv/etc" ]})
  /\
  get_default_config_path (Demo.env None Demo.no_failure)
    (mk_World [] [] {[ "XDG_CONFIG_HOME" := "" ]})
  = (Ok "/home/u/.config/wifebot/config.json",
     mk_World [] [] {[ "XDG_CONFIG_HOME" := "" ]}).
Proof.
  split.
  - destruct (default_config_path_xdg (Demo.env None Demo.no_failure)
                (mk_World [] [] {[ "XDG_CONFIG_HOME" := "/srv/etc" ]})) as [H _].
    apply (H "/srv/etc"); [vm_compute; reflexivity|discriminate].
  - destruct (default_config_path_xdg (Demo.env None Demo.no_failure)
                (mk_World [] [] {[ "XDG_CONFIG_HOME" := "" ]})) as [_ H].
    apply H. right. vm_compute. reflexivity.
Defined.

(** X4.  [load_config] with no path is [load_config] with the default
    path; with a path that is neither [None] nor a string it raises
    [TypeError] whatever the file system holds; and in every case it
    leaves the world as it found it: it prints nothing, reads no input
    and sets no variable of the environment. *)
Theorem load_config_outcomes :
  forall (env : Env) (config_path : value) (w : World),
    (forall path, get_default_config_path env w = (Ok path, w) ->
                  load_config env VNone w = load_config env (VStr path) w) /\
    (is_none config_path = false -> is_str config_path = false ->
     exists msg, load_config env config_path w = (Raise (mk_exn TypeError msg), w)) /\
    snd (load_config env config_path w) = w.
Proof.
  intros env config_path w. split; [|split].
  - intros path Hp. unfold load_config, bind. rewrite Hp. reflexivity.
  - intros Hn Hs. destruct config_path; try discriminate; eexists; reflexivity.
  - apply load_config_world.
Qed.

Lemma load_config_outcomes_witness :
  load_config (Demo.env (Some "headless on") Demo.no_failure) VNone (Demo.world [])
  = load_config (Demo.env (Some "headless on") Demo.no_failure)
      (VStr "/home/u/.config/wifebot/config.json") (Demo.world [])
  /\
  exists msg,
    load_config (Demo.env (Some "headless on") Demo.no_failure) (VInt 7) (Demo.world [])
    = (Raise (mk_exn TypeError msg), Demo.world []).
Proof.
  destruct (load_config_outcomes (Demo.env (Some "headless on") Demo.no_failure)
              (VInt 7) (Demo.world [])) as (H1 & H2 & _).
  split.
  - apply H1. vm_compute. reflexivity.
  - apply H2; reflexivity.
Defined.

(* ================================================================== *)
(** * Further properties: prompts and path templates *)
(* ================================================================== *)

Lemma append_empty_r (s : string) : s +:+ EmptyString = s.
Proof. induction s as [|c s IH]; [reflexivity|]. rewrite append_cons, IH. reflexivity. Qed.



(** X6.  [load_template] on [<name>.txt] and [load_prompt] on [<name>]
    read the same file in the same directory: they return the same text
    when it exists, and both raise [FileNotFoundError] when it does not,
    each with its own message. *)
Theorem load_template_agrees_with_load_prompt :
  forall (env : Env) (name : string) (prompts_dir : option string),
    load_template env (name +:+ ".txt") prompts_dir =
    match load_prompt env name prompts_dir with
    | Ok text => Ok text
    | Raise _ =>
        Raise (mk_exn FileNotFoundError
                 ("Template file not found: " +:+
                  joinpath (prompts_dir_or_default env prompts_dir) (name +:+ ".txt")))
    end.
Proof.
  intros env name prompts_dir. unfold load_template, load_prompt, path_exists.
  destruct (files env _); reflexivity.
Qed.

Lemma format_go_text env pre : forall rest out platform,
  brace_free pre = true ->
  format_go env (pre +:+ rest) InText out platform =
  format_go env rest InText (out +:+ pre) platform.
Proof.
  unfold brace_free.
  induction pre as [|c pre IH]; intros rest out platform.
  - intros _. rewrite append_nil, append_empty_r. reflexivity.
  - cbn [PyStr.any_char]. rewrite negb_orb. intros [Hc Hpre]%andb_true_iff.
    unfold is_brace in Hc. apply negb_true_iff, orb_false_iff in Hc as [Ho Hcl].
    rewrite append_cons. cbn [format_go]. rewrite Ho, Hcl.
    rewrite (IH rest (snoc out c) platform Hpre). unfold snoc.
    rewrite append_assoc_str. reflexivity.
Qed.

Lemma format_go_field env name : forall rest acc out platform,
  brace_free name = true ->
  format_go env (name +:+ String "}" rest) (InField 0 acc) out platform =
  match eval_field env (acc +:+ name) platform with
  | Ok v => format_go env rest InText (out +:+ v) platform
  | Raise e => Raise e
  end.
Proof.
  unfold brace_free.
  induction name as [|c name IH]; intros rest acc out platform.
  - intros _. rewrite append_nil, append_empty_r. reflexivity.
  - cbn [PyStr.any_char]. rewrite negb_orb. intros [Hc Hname]%andb_true_iff.
    unfold is_brace in Hc. apply negb_true_iff, orb_false_iff in Hc as [Ho Hcl].
    rewrite append_cons. cbn [format_go]. rewrite Ho, Hcl.
    rewrite (IH rest (snoc acc c) out platform Hname). unfold snoc.
    rewrite append_assoc_str. reflexivity.
Qed.

(** One replacement field after a text without braces. *)
Lemma format_go_one_field env pre name rest platform :
  brace_free pre = true -> brace_free name = true ->
  format_go env (pre +:+ "{" +:+ name +:+ "}" +:+ rest) InText EmptyString platform =
  match eval_field env name platform with
  | Ok v => format_go env rest InText (pre +:+ v) platform
  | Raise e => Raise e
  end.
Proof.
  intros Hpre Hname. rewrite (format_go_text env pre _ _ _ Hpre), append_nil.
  change ("{" +:+ name +:+ "}" +:+ rest) with (String "{" (name +:+ String "}" rest)).
  assert (Hstart : format_go env (String "{" (name +:+ String "}" rest)) InText pre platform
                   = format_go env (name +:+ String "}" rest) (InField 0 EmptyString)
                               pre platform).
  { destruct name as [|c name].
    - rewrite append_nil. reflexivity.
    - rewrite append_cons. cbn [format_go].
      unfold brace_free in Hname. cbn [PyStr.any_char] in Hname.
      apply negb_true_iff, orb_false_iff in Hname as [Hc _].
      unfold is_brace in Hc. apply orb_false_iff in Hc as [Ho _].
      rewrite Ascii.eqb_refl, Ho. reflexivity. }
  rewrite Hstart, (format_go_field env name rest EmptyString pre platform Hname).
  rewrite append_nil. reflexivity.
Qed.

Lemma plain_name_brace_free name : plain_name name = true -> brace_free name = true.
Proof.
  unfold plain_name, brace_free.
  intros [[Hop _]%orb_false_iff _]%negb_true_iff%orb_false_iff. apply negb_true_iff.
  induction name as [|c name IH]; [reflexivity|].
  cbn [PyStr.any_char] in *. apply orb_false_iff in Hop as [Hc Hn].
  rewrite (IH Hn), orb_false_r.
  unfold is_field_operator in Hc. unfold is_brace.
  repeat (apply orb_false_iff in Hc as [Hc ?]). apply orb_false_iff. auto.
Qed.

(** X7.  A path template without braces has nothing to substitute:
    expanding it returns it unchanged, for every platform name. *)
Theorem expand_template_without_braces :
  forall (env : Env) (template platform : string),
    brace_free template = true ->
    expand_path_template env (VStr template) platform = Ok template.
Proof.
  intros env template platform Ht. unfold expand_path_template.
  rewrite <- (append_empty_r template) at 1.
  rewrite (format_go_text env template _ _ _ Ht), append_nil. reflexivity.
Qed.

Lemma expand_template_without_braces_witness :
  expand_path_template (Demo.env None Demo.no_failure) (VStr "/var/lib/wifebot/shared")
    "tinder" = Ok "/var/lib/wifebot/shared".
Proof. apply expand_template_without_braces. reflexivity. Defined.

Lemma expand_prefix_platform_suffix env pre post platform :
  brace_free pre = true -> brace_free post = true ->
  expand_path_template env (VStr (pre +:+ "{platform}" +:+ post)) platform =
  Ok (pre +:+ platform +:+ post).
Proof.
  intros Hpre Hpost. unfold expand_path_template.
  change (pre +:+ "{platform}" +:+ post)
    with (pre +:+ "{" +:+ "platform" +:+ "}" +:+ post).
  rewrite (format_go_one_field env pre "platform" post platform Hpre eq_refl).
  change (eval_field env "platform" platform) with (@Ok string platform).
  cbv beta iota.
  rewrite <- (append_empty_r post) at 1.
  rewrite (format_go_text env post _ _ _ Hpost), append_assoc_str.
  reflexivity.
Qed.

(** X8.  In a template made of a text, the placeholder [{platform}] and
    a text, both texts free of braces, the placeholder is replaced by the
    platform name and the rest is kept: the result is the first text, the
    name, the second text - whatever the name is, braces included, for
    the name is not expanded again. *)
Theorem expand_template_substitutes_platform :
  forall (env : Env) (pre post platform : string),
    brace_free pre = true -> brace_free post = true ->
    expand_path_template env (VStr (pre +:+ "{platform}" +:+ post)) platform =
    Ok (pre +:+ platform +:+ post).
Proof. intros. apply expand_prefix_platform_suffix; assumption. Qed.

Lemma expand_template_substitutes_platform_witness :
  expand_path_template (Demo.env None Demo.no_failure)
    (VStr "/data/{platform}/profile") "{hinge}" = Ok "/data/{hinge}/profile".
Proof.
  apply (expand_template_substitutes_platform (Demo.env None Demo.no_failure)
           "/data/" "/profile" "{hinge}"); reflexivity.
Defined.

(** X9.  A placeholder with another plain name than [platform] makes
    the expansion fail with [KeyError] on that name, whatever follows
    it: [platform] is the only value a template can refer to. *)
Theorem expand_template_unknown_placeholder :
  forall (env : Env) (pre name rest platform : string),
    brace_free pre = true -> plain_name name = true -> name <> "platform" ->
    expand_path_template env (VStr (pre +:+ "{" +:+ name +:+ "}" +:+ rest)) platform =
    Raise (mk_exn KeyError (PyStr.repr_str name)).
Proof.
  intros env pre name rest platform Hpre Hname Hne. unfold expand_path_template.
  rewrite (format_go_one_field env pre name rest platform Hpre
             (plain_name_brace_free name Hname)).
  unfold eval_field. unfold plain_name in Hname. apply negb_true_iff in Hname.
  rewrite Hname. destruct (String.eqb_spec name "platform"); [contradiction|].
  reflexivity.
Qed.

Lemma expand_template_unknown_placeholder_witness :
  expand_path_template (Demo.env None Demo.no_failure)
    (VStr "/data/{user}/{platform}") "tinder" = Raise (mk_exn KeyError "'user'").
Proof.
  apply (expand_template_unknown_placeholder (Demo.env None Demo.no_failure)
           "/data/" "user" "/{platform}" "tinder"); [reflexivity|reflexivity|discriminate].
Defined.

Lemma append_inj_l (a x y : string) : a +:+ x = a +:+ y -> x = y.
Proof.
  induction a as [|c a IH]; [rewrite !append_nil; auto|].
  rewrite !append_cons. intros [= H]. auto.
Qed.

(** X10.  When no custom path is given (absent, [None] or empty) and the
    configuration has no template for it, the profile directory of a
    platform is [~/.config/browseruse/profiles/<name>] and its trace path
    is [/tmp/wifebot/<name>], for every name; so two different platforms
    never share a default profile directory or trace path. *)
Theorem default_paths_per_platform :
  forall (env : Env) (config : value) (custom : value),
    truthy custom = false ->
    (path_value config ["paths"; "profile_dir_template"] = None ->
     (forall platform,
         get_profile_dir env config platform custom =
         Ok (VStr ("~/.config/browseruse/profiles/" +:+ platform))) /\
     (forall p q, get_profile_dir env config p custom =
                  get_profile_dir env config q custom -> p = q)) /\
    (path_value config ["paths"; "trace_path_template"] = None ->
     (forall platform,
         get_trace_path env config platform custom =
         Ok (VStr ("/tmp/wifebot/" +:+ platform))) /\
     (forall p q, get_trace_path env config p custom =
                  get_trace_path env config q custom -> p = q)).
Proof.
  intros env config custom Hc. split; intros Hnone.
  - assert (H : forall platform,
               get_profile_dir env config platform custom =
               Ok (VStr ("~/.config/browseruse/profiles/" +:+ platform))).
    { intros platform. unfold get_profile_dir. rewrite Hc, get_default_config_value_path.
      change (PyStr.split "." "paths.profile_dir_template")
        with ["paths"; "profile_dir_template"].
      rewrite Hnone.
      change "~/.config/browseruse/profiles/{platform}"
        with ("~/.config/browseruse/profiles/" +:+ "{platform}" +:+ EmptyString).
      rewrite (expand_prefix_platform_suffix env "~/.config/browseruse/profiles/"
                 EmptyString platform eq_refl eq_refl).
      rewrite append_empty_r. reflexivity. }
    split; [exact H|]. intros p q. rewrite !H. intros [= Hpq].
    exact (append_inj_l _ _ _ Hpq).
  - assert (H : forall platform,
               get_trace_path env config platform custom =
               Ok (VStr ("/tmp/wifebot/" +:+ platform))).
    { intros platform. unfold get_trace_path. rewrite Hc, get_default_config_value_path.
      change (PyStr.split "." "paths.trace_path_template")
        with ["paths"; "trace_path_template"].
      rewrite Hnone.
      change "/tmp/wifebot/{platform}"
        with ("/tmp/wifebot/" +:+ "{platform}" +:+ EmptyString).
      rewrite (expand_prefix_platform_suffix env "/tmp/wifebot/"
                 EmptyString platform eq_refl eq_refl).
      rewrite append_empty_r. reflexivity. }
    split; [exact H|]. intros p q. rewrite !H. intros [= Hpq].
    exact (append_inj_l _ _ _ Hpq).
Qed.

Lemma default_paths_per_platform_witness :
  get_profile_dir (Demo.env None Demo.no_failure)
    (VDict {[ "paths" := VDict {[ "trace_path_template" := VStr "/var/log/{platform}" ]} ]})
    "okcupid" (VStr EmptyString)
  = Ok (VStr "~/.config/browseruse/profiles/okcupid")
  /\ get_trace_path (Demo.env None Demo.no_failure) (VDict ∅) "okcupid" VNone
     = Ok (VStr "/tmp/wifebot/okcupid").
Proof.
  split.
  - destruct (default_paths_per_platform (Demo.env None Demo.no_failure)
                (VDict {[ "paths" := VDict {[ "trace_path_template" :=
                                                VStr "/var/log/{platform}" ]} ]})
                (VStr EmptyString) eq_refl) as [H _].
    destruct H as [H _]; [vm_compute; reflexivity|]. rewrite H. reflexivity.
  - destruct (default_paths_per_platform (Demo.env None Demo.no_failure)
                (VDict ∅) VNone eq_refl) as [_ H].
    destruct H as [H _]; [vm_compute; reflexivity|]. rewrite H. reflexivity.
Defined.

(** X11.  When no custom path is given and the configuration holds a
    template of the form text, [{platform}], text at
    [paths.profile_dir_template] (resp. [paths.trace_path_template]), the
    profile directory (resp. trace path) is that template with the
    platform name in place of the placeholder: the configured template
    replaces the built-in one. *)
Theorem configured_path_template :
  forall (env : Env) (config custom : value) (pre post platform : string),
    truthy custom = false ->
    brace_free pre = true -> brace_free post = true ->
    (path_value config ["paths"; "profile_dir_template"] =
       Some (VStr (pre +:+ "{platform}" +:+ post)) ->
     get_profile_dir env config platform custom = Ok (VStr (pre +:+ platform +:+ post))) /\
    (path_value config ["paths"; "trace_path_template"] =
       Some (VStr (pre +:+ "{platform}" +:+ post)) ->
     get_trace_path env config platform custom = Ok (VStr (pre +:+ platform +:+ post))).
Proof.
  intros env config custom pre post platform Hc Hpre Hpost.
  split; intros Hsome.
  - unfold get_profile_dir. rewrite Hc, get_default_config_value_path.
    change (PyStr.split "." "paths.profile_dir_template")
      with ["paths"; "profile_dir_template"].
    rewrite Hsome, (expand_prefix_platform_suffix env pre post platform Hpre Hpost).
    reflexivity.
  - unfold get_trace_path. rewrite Hc, get_default_config_value_path.
    change (PyStr.split "." "paths.trace_path_template")
      with ["paths"; "trace_path_template"].
    rewrite Hsome, (expand_prefix_platform_suffix env pre post platform Hpre Hpost).
    reflexivity.
Qed.

Lemma configured_path_template_witness :
  get_trace_path (Demo.env None Demo.no_failure)
    (VDict {[ "paths" := VDict {[ "trace_path_template" := VStr "/var/log/{platform}/run" ]} ]})
    "bumble" VNone
  = Ok (VStr "/var/log/bumble/run").
Proof.
  apply (configured_path_template (Demo.env None Demo.no_failure)
           (VDict {[ "paths" := VDict {[ "trace_path_template" :=
                                           VStr "/var/log/{platform}/run" ]} ]})
           VNone "/var/log/" "/run" "bumble"); vm_compute; reflexivity.
Defined.

(** X12.  A template that is present in the configuration but is not a
    string - a number, a list, a null - is not replaced by the built-in
    one: without a custom path, computing the profile directory or the
    trace path raises [AttributeError]. *)
Theorem non_string_template_raises :
  forall (env : Env) (config custom v : value) (platform : string),
    truthy custom = false -> is_str v = false ->
    (path_value config ["paths"; "profile_dir_template"] = Some v ->
     exists msg, get_profile_dir env config platform custom =
                 Raise (mk_exn AttributeError msg)) /\
    (path_value config ["paths"; "trace_path_template"] = Some v ->
     exists msg, get_trace_path env config platform custom =
                 Raise (mk_exn AttributeError msg)).
Proof.
  intros env config custom v platform Hc Hv.
  split; intros Hsome.
  - unfold get_profile_dir. rewrite Hc, get_default_config_value_path.
    change (PyStr.split "." "paths.profile_dir_template")
      with ["paths"; "profile_dir_template"].
    rewrite Hsome. destruct v; try discriminate Hv; eexists; reflexivity.
  - unfold get_trace_path. rewrite Hc, get_default_config_value_path.
    change (PyStr.split "." "paths.trace_path_template")
      with ["paths"; "trace_path_template"].
    rewrite Hsome. destruct v; try discriminate Hv; eexists; reflexivity.
Qed.

Lemma non_string_template_raises_witness :
  exists msg,
    get_profile_dir (Demo.env None Demo.no_failure)
      (VDict {[ "paths" := VDict {[ "profile_dir_template" := VNone ]} ]})
      "tinder" VNone
    = Raise (mk_exn AttributeError msg).
Proof.
  apply (non_string_template_raises (Demo.env None Demo.no_failure)
           (VDict {[ "paths" := VDict {[ "profile_dir_template" := VNone ]} ]})
           VNone VNone "tinder"); vm_compute; reflexivity.
Defined.

(* ================================================================== *)
(** * Further properties: constructing a profile *)
(* ================================================================== *)

Lemma resolve_three_tier config s kwargs k d :
  Platform._resolve_config_value config s kwargs k d =
  three_tier config kwargs s (PyStr.split "." k) d.
Proof.
  unfold Platform._resolve_config_value, three_tier.
  destruct (kwargs !! s); [reflexivity|].
  rewrite get_default_config_value_path.
  destruct (path_value config (PyStr.split "." k)) as [v|]; [|reflexivity].
  destruct v; reflexivity.
Qed.

(** X13.  A resolved setting is always one of its three sources, and
    without an override it is never [None] unless the default is: a null
    in the configuration file cannot erase a setting. *)
Theorem resolved_setting_sources :
  forall (config : value) (s : string) (kwargs : gmap string value)
         (k : string) (d : value),
    (kwargs !! s = Some (Platform._resolve_config_value config s kwargs k d) \/
     path_value config (PyStr.split "." k) =
       Some (Platform._resolve_config_value config s kwargs k d) \/
     Platform._resolve_config_value config s kwargs k d = d) /\
    (kwargs !! s = None -> is_none d = false ->
     is_none (Platform._resolve_config_value config s kwargs k d) = false).
Proof.
  intros config s kwargs k d. rewrite resolve_three_tier. unfold three_tier.
  destruct (kwargs !! s) as [v|]; [split; [auto|discriminate]|].
  destruct (path_value config (PyStr.split "." k)) as [v|]; [|split; auto].
  destruct (is_none v) eqn:Hv; split; auto.
Qed.

Lemma resolved_setting_sources_witness :
  is_none (Platform._resolve_config_value (VDict {[ "verbose" := VNone ]})
             "verbose" ∅ "verbose" (VBool false)) = false.
Proof.
  apply (resolved_setting_sources (VDict {[ "verbose" := VNone ]}) "verbose" ∅
           "verbose" (VBool false)); reflexivity.
Defined.




(** X15.  Constructing a profile touches the world in one way only: the
    variables of the .env file are added to the environment.  Whether it
    succeeds or raises, it reads no input, prints nothing and calls
    nothing of the automation library. *)
Theorem init_only_loads_dotenv :
  forall (env : Env) (cls : Variant) (config_path : value)
         (kwargs : gmap string value) (w : World),
    snd (Platform.__init__ env cls config_path kwargs w) =
    mk_World (trace w ++ [EvLoadDotenv]) (stdin w) (environ w ∪ dotenv env).
Proof.
  intros env cls config_path kwargs w.
  unfold Platform.__init__, bind, Platform.load_dotenv, try_except, lift, ret.
  pose proof (load_config_world env config_path
                (mk_World (trace w ++ [EvLoadDotenv]) (stdin w)
                          (environ w ∪ dotenv env))) as Hw.
  destruct (load_config env config_path _) as [[cfg|e] w1]; simpl in Hw; subst w1.
  - destruct (render_prompt_template env "base_task.tpl" cfg None); reflexivity.
  - destruct (isinstance e FileNotFoundError); [|reflexivity].
    destruct (render_prompt_template env "base_task.tpl" (VDict ∅) None); reflexivity.
Qed.

(** X16.  Each of the seven settings of a constructed instance is wired
    to its own override name, configuration path and built-in default:
    headless to [browser.headless] and [False], the viewport to
    [browser.viewport.width]/[height] and 1280 by 1100, the waits to
    [browser.minimum_wait_page_load_time]/[maximum_...] and 1 and 10, the
    model to [llm.model] and [gpt-4o-mini], verbose to [verbose] and
    [False]; in each case the override wins, then a non-null value of the
    instance's configuration, then the default. *)
Theorem init_settings_three_tier :
  forall (env : Env) (cls : Variant) (config_path : value)
         (kwargs : gmap string value) (w w' : World) (self : Platform.t),
    Platform.__init__ env cls config_path kwargs w = (Ok self, w') ->
    let tier := three_tier (Platform.config self) kwargs in
    Platform.headless self = tier "headless" ["browser"; "headless"] (VBool false) /\
    Platform.viewport_width self =
      tier "viewport_width" ["browser"; "viewport"; "width"] (VInt 1280) /\
    Platform.viewport_height self =
      tier "viewport_height" ["browser"; "viewport"; "height"] (VInt 1100) /\
    Platform.min_wait self =
      tier "min_wait" ["browser"; "minimum_wait_page_load_time"] (VInt 1) /\
    Platform.max_wait self =
      tier "max_wait" ["browser"; "maximum_wait_page_load_time"] (VInt 10) /\
    Platform.model self = tier "model" ["llm"; "model"] (VStr "gpt-4o-mini") /\
    Platform.verbose self = tier "verbose" ["verbose"] (VBool false).
Proof.
  intros env cls config_path kwargs w w' self.
  unfold Platform.__init__, bind, Platform.load_dotenv, try_except, lift, ret.
  destruct (load_config env config_path _) as [[cfg|e] w1].
  - destruct (render_prompt_template env "base_task.tpl" cfg None); [|discriminate].
    intros [= <- <-]. cbn [Platform.config Platform.headless Platform.viewport_width
      Platform.viewport_height Platform.min_wait Platform.max_wait Platform.model
      Platform.verbose].
    repeat split; apply resolve_three_tier.
  - destruct (isinstance e FileNotFoundError); [|discriminate].
    destruct (render_prompt_template env "base_task.tpl" (VDict ∅) None); [|discriminate].
    intros [= <- <-]. cbn [Platform.config Platform.headless Platform.viewport_width
      Platform.viewport_height Platform.min_wait Platform.max_wait Platform.model
      Platform.verbose].
    repeat split; apply resolve_three_tier.
Qed.

Lemma init_settings_three_tier_witness :
  exists self w',
    Platform.new (Demo.env (Some "headless on") Demo.no_failure) TinderPlatform
      {[ "model" := VStr "gpt-4" ]} (Demo.world []) = (Ok self, w') /\
    Platform.headless self = VBool true /\
    Platform.model self = VStr "gpt-4" /\
    Platform.viewport_width self = VInt 1280.
Proof.
  eexists. eexists. split; [vm_compute; reflexivity|].
  lazymatch goal with
  | |- Platform.headless ?self = _ /\ _ =>
      destruct (init_settings_three_tier (Demo.env (Some "headless on") Demo.no_failure)
                  TinderPlatform VNone {[ "model" := VStr "gpt-4" ]} (Demo.world [])
                  (after_dotenv (Demo.env (Some "headless on") Demo.no_failure)
                                (Demo.world [])) self)
        as (Hh & Hw & _ & _ & _ & Hm & _); [vm_compute; reflexivity|]
  end.
  rewrite Hh, Hm, Hw. split; [|split]; vm_compute; reflexivity.
Defined.

(* ================================================================== *)
(** * Further properties: running a profile *)
(* ================================================================== *)

Ltac run_cases :=
  unfold Platform.run, bind, try_finally, lift, print, emit, Platform.external, ret;
  repeat (case_step; cbn [trace stdin environ fst snd]);
  cbn [trace stdin environ fst snd]; rewrite <- ?app_assoc; cbn [app];
  eexists; (split; [try reflexivity; symmetry; apply app_nil_r|]).

Ltac elem_cases H :=
  repeat (apply elem_of_cons in H as [H|H]; [try discriminate H|]);
  try (apply elem_of_nil in H; contradiction).

(** X17.  When the automation library never fails and the paths and the
    task text can be computed, [run] returns normally after exactly seven
    calls, in this order: the session is created with the browser
    settings, the profile directory and the trace path; it is started;
    the platform's URL is opened; the model client is created from the
    model name; the agent is created with the task and the trace path,
    and run; the session is stopped. *)
Theorem run_calls_in_order :
  forall (env : Env) (self : Platform.t) (w : World) (dir path : value) (text : string),
    reliable env ->
    Platform.profile_dir env self = Ok dir ->
    Platform.trace_path env self = Ok path ->
    Platform.task env self = Ok text ->
    exists evs,
      Platform.run env self w =
        (Ok tt, mk_World (trace w ++ evs) (stdin w) (environ w)) /\
      calls evs =
        map (fun c => (c, None))
            [ NewSession (profile_kwargs self dir path);
              Start (profile_kwargs self dir path);
              Navigate (profile_kwargs self dir path) (Platform.url self);
              NewLlm (Platform.llm_config self);
              NewAgent (Platform.agent_args env text path);
              AgentRun (Platform.agent_args env text path);
              Stop (profile_kwargs self dir path) ].
Proof.
  intros env self w dir path text Hrel Hd Hp Ht.
  unfold Platform.run, bind, try_finally, lift, print, emit, Platform.external, ret.
  rewrite Hd, Hp, Ht.
  destruct (truthy (Platform.verbose self)); cbn [trace stdin environ];
    repeat (rewrite Hrel; cbn [trace stdin environ]);
    rewrite <- ?app_assoc; cbn [app];
    eexists; (split; [reflexivity|reflexivity]).
Qed.

Lemma demo_reliable config_content : reliable (Demo.env config_content Demo.no_failure).
Proof. intros tr c. reflexivity. Qed.

Lemma run_calls_in_order_witness :
  exists evs,
    Platform.run (Demo.env None Demo.no_failure) Demo.tinder (Demo.world []) =
      (Ok tt, mk_World evs [] ∅) /\
    map fst (calls evs) =
      [ NewSession (profile_kwargs Demo.tinder
                      (VStr "~/.config/browseruse/profiles/tinder")
                      (VStr "/tmp/wifebot/tinder"));
        Start (profile_kwargs Demo.tinder
                 (VStr "~/.config/browseruse/profiles/tinder")
                 (VStr "/tmp/wifebot/tinder"));
        Navigate (profile_kwargs Demo.tinder
                    (VStr "~/.config/browseruse/profiles/tinder")
                    (VStr "/tmp/wifebot/tinder")) "https://tinder.com/app/recs";
        NewLlm {[ "model" := VStr "gpt-4o-mini" ]};
        NewAgent (Platform.agent_args (Demo.env None Demo.no_failure)
                    ("You are a dating assistant." +:+ PyStr.nl2 +:+
                     "Swipe right on matching profiles.")
                    (VStr "/tmp/wifebot/tinder"));
        AgentRun (Platform.agent_args (Demo.env None Demo.no_failure)
                    ("You are a dating assistant." +:+ PyStr.nl2 +:+
                     "Swipe right on matching profiles.")
                    (VStr "/tmp/wifebot/tinder"));
        Stop (profile_kwargs Demo.tinder
                (VStr "~/.config/browseruse/profiles/tinder")
                (VStr "/tmp/wifebot/tinder")) ].
Proof.
  destruct (run_calls_in_order (Demo.env None Demo.no_failure) Demo.tinder
              (Demo.world [])
              (VStr "~/.config/browseruse/profiles/tinder")
              (VStr "/tmp/wifebot/tinder")
              ("You are a dating assistant." +:+ PyStr.nl2 +:+
               "Swipe right on matching profiles.")
              (demo_reliable None))
    as (evs & Hrun & Hcalls); try (vm_compute; reflexivity).
  exists evs. split; [exact Hrun|]. rewrite Hcalls. reflexivity.
Defined.

(** X18.  The session is started outside the [try]: when [start] fails,
    [run] raises that error at once - the call of [start] is the last
    thing that happens, and [stop] is not called on the session that did
    not start. *)
Theorem run_failed_start_is_not_stopped :
  forall (env : Env) (self : Platform.t) (w : World),
    exists evs,
      trace (snd (Platform.run env self w)) = trace w ++ evs /\
      forall profile e,
        EvCall (Start profile) (Some e) ∈ evs ->
        fst (Platform.run env self w) = Raise e /\
        last evs = Some (EvCall (Start profile) (Some e)) /\
        forall p f, EvCall (Stop p) f ∉ evs.
Proof.
  intros env self w. run_cases.
  all: intros the_profile the_error Hin; elem_cases Hin.
  all: injection Hin as <- <-.
  all: split; [reflexivity|]; split; [reflexivity|].
  all: intros any_profile any_outcome Hstop; elem_cases Hstop.
Qed.

Lemma run_failed_start_is_not_stopped_witness :
  fst (Platform.run (Demo.env None Demo2.no_browser) Demo.tinder (Demo.world [])) =
    Raise (mk_exn OSError "browser executable not found") /\
  forall p f,
    EvCall (Stop p) f ∉
      trace (snd (Platform.run (Demo.env None Demo2.no_browser) Demo.tinder
                               (Demo.world []))).
Proof.
  destruct (run_failed_start_is_not_stopped (Demo.env None Demo2.no_browser)
              Demo.tinder (Demo.world [])) as (evs & Htr & H).
  rewrite Htr. cbn [Demo.world trace app].
  assert (Hevs : exists profile rest,
             evs = EvCall (NewSession profile) None ::
                   EvCall (Start profile)
                          (Some (mk_exn OSError "browser executable not found")) :: rest).
  { vm_compute in Htr. rewrite <- Htr. eexists. eexists. reflexivity. }
  destruct Hevs as (profile & rest & Hevs).
  destruct (H profile (mk_exn OSError "browser executable not found")) as (Hr & _ & Hno).
  - rewrite Hevs. apply elem_of_cons. right. apply elem_of_cons. left. reflexivity.
  - split; [exact Hr|exact Hno].
Defined.

(** X19.  The instruction file of the platform is read only when the
    agent is about to be created: when it is missing, and the automation
    library does not fail, [run] has already created and started the
    session and opened the platform's URL; it then stops the session and
    raises the [FileNotFoundError], and no model client or agent is
    created. *)
Theorem run_missing_instructions_found_late :
  forall (env : Env) (self : Platform.t) (w : World) (dir path : value) (e : exn),
    reliable env ->
    Platform.profile_dir env self = Ok dir ->
    Platform.trace_path env self = Ok path ->
    Platform.task env self = Raise e ->
    exists evs,
      Platform.run env self w =
        (Raise e, mk_World (trace w ++ evs) (stdin w) (environ w)) /\
      calls evs =
        map (fun c => (c, None))
            [ NewSession (profile_kwargs self dir path);
              Start (profile_kwargs self dir path);
              Navigate (profile_kwargs self dir path) (Platform.url self);
              Stop (profile_kwargs self dir path) ].
Proof.
  intros env self w dir path e Hrel Hd Hp Ht.
  unfold Platform.run, bind, try_finally, lift, print, emit, Platform.external, ret.
  rewrite Hd, Hp, Ht.
  destruct (truthy (Platform.verbose self)); cbn [trace stdin environ];
    repeat (rewrite Hrel; cbn [trace stdin environ]);
    rewrite <- ?app_assoc; cbn [app];
    eexists; (split; [reflexivity|reflexivity]).
Qed.

Lemma run_missing_instructions_found_late_witness :
  exists evs,
    Platform.run (Demo.env None Demo.no_failure) Demo2.grindr (Demo.world []) =
      (Raise (mk_exn FileNotFoundError
                "Prompt file not found: /opt/wifebot/prompts/grindr_instructions.txt"),
       mk_World evs [] ∅) /\
    length (calls evs) = 4%nat.
Proof.
  destruct (run_missing_instructions_found_late (Demo.env None Demo.no_failure)
              Demo2.grindr (Demo.world [])
              (VStr "~/.config/browseruse/profiles/grindr")
              (VStr "/tmp/wifebot/grindr")
              (mk_exn FileNotFoundError
                 "Prompt file not found: /opt/wifebot/prompts/grindr_instructions.txt")
              (demo_reliable None))
    as (evs & Hrun & Hcalls); try (vm_compute; reflexivity).
  exists evs. split; [exact Hrun|]. rewrite Hcalls. reflexivity.
Defined.

(** X20.  An error of [stop] replaces the outcome of the run: whenever
    the last thing [run] did is a call of [stop] that failed, [run]
    raises the error of [stop], also when navigation or the agent had
    failed before with another error. *)
Theorem run_stop_error_wins :
  forall (env : Env) (self : Platform.t) (w : World),
    exists evs,
      trace (snd (Platform.run env self w)) = trace w ++ evs /\
      forall profile e,
        last evs = Some (EvCall (Stop profile) (Some e)) ->
        fst (Platform.run env self w) = Raise e.
Proof.
  intros env self w. run_cases.
  all: intros the_profile the_error Hlast; cbn in Hlast; try discriminate Hlast.
  all: injection Hlast as <- <-; reflexivity.
Qed.

Lemma run_stop_error_wins_witness :
  fst (Platform.run (Demo.env None Demo2.down_and_stuck) Demo.tinder (Demo.world [])) =
    Raise (mk_exn OSError "browser did not exit").
Proof.
  destruct (run_stop_error_wins (Demo.env None Demo2.down_and_stuck) Demo.tinder
              (Demo.world [])) as (evs & Htr & H).
  assert (Hlast : exists profile,
             last evs = Some (EvCall (Stop profile)
                                     (Some (mk_exn OSError "browser did not exit")))).
  { vm_compute in Htr. rewrite <- Htr. eexists. reflexivity. }
  destruct Hlast as (profile & Hlast). exact (H profile _ Hlast).
Defined.

(** X21.  [run] hides no failure: it returns normally only if the paths
    and the task text could be computed and every call into the
    automation library succeeded, the seven calls of a full run having
    been made. *)
Theorem run_ok_means_all_succeeded :
  forall (env : Env) (self : Platform.t) (w : World),
    exists evs,
      trace (snd (Platform.run env self w)) = trace w ++ evs /\
      (fst (Platform.run env self w) = Ok tt ->
       (exists dir path text,
           Platform.profile_dir env self = Ok dir /\
           Platform.trace_path env self = Ok path /\
           Platform.task env self = Ok text) /\
       length (calls evs) = 7%nat /\
       forall c f, EvCall c f ∈ evs -> f = None).
Proof.
  intros env self w. run_cases.
  all: intros Hok; try discriminate Hok.
  all: split; [eauto 7|]; split; [reflexivity|].
  all: intros any_call any_outcome Hin; elem_cases Hin.
  all: injection Hin as _ ->; reflexivity.
Qed.

Lemma run_ok_means_all_succeeded_witness :
  exists evs,
    trace (snd (Platform.run (Demo.env None Demo.no_failure) Demo.tinder (Demo.world [])))
    = evs /\
    length (calls evs) = 7%nat /\
    forall c f, EvCall c f ∈ evs -> f = None.
Proof.
  destruct (run_ok_means_all_succeeded (Demo.env None Demo.no_failure) Demo.tinder
              (Demo.world [])) as (evs & Htr & H).
  exists evs. split; [exact Htr|].
  destruct H as (_ & Hlen & Hnone); [vm_compute; reflexivity|].
  split; [exact Hlen|exact Hnone].
Defined.

(** X22.  [run] prints only in verbose mode: with [verbose] falsy it
    prints nothing at all; with [verbose] truthy, and paths that can be
    computed, it prints four lines - the browser configuration, the
    model configuration, the profile directory and the trace path -
    before it calls anything. *)
Theorem run_prints_only_when_verbose :
  forall (env : Env) (self : Platform.t) (w : World),
    exists evs,
      trace (snd (Platform.run env self w)) = trace w ++ evs /\
      (truthy (Platform.verbose self) = false -> printed evs = []) /\
      (truthy (Platform.verbose self) = true ->
       forall dir path,
         Platform.profile_dir env self = Ok dir ->
         Platform.trace_path env self = Ok path ->
         printed evs =
           [ LConfiguration (VDict (Platform.browser_config self));
             LLlm (VDict (Platform.llm_config self));
             LProfileDir dir; LTracePath path ] /\
         exists rest, evs = map EvPrint (printed evs) ++ rest).
Proof.
  intros env self w. run_cases.
  all: split; [intros Hv; try discriminate Hv; reflexivity|].
  all: intros Hv; try discriminate Hv.
  all: intros the_dir the_path Hd Hp; try discriminate Hd; try discriminate Hp.
  all: injection Hd as <-; injection Hp as <-.
  all: split; [reflexivity|]; eexists; reflexivity.
Qed.

Lemma run_prints_only_when_verbose_witness :
  printed (trace (snd (Platform.run (Demo.env None Demo.two_fail) Demo.tinder
                                    (Demo.world [])))) = [].
Proof.
  destruct (run_prints_only_when_verbose (Demo.env None Demo.two_fail) Demo.tinder
              (Demo.world [])) as (evs & Htr & Hquiet & _).
  rewrite Htr. apply Hquiet. reflexivity.
Defined.

(* ================================================================== *)
(** * Further properties: the dispatcher *)
(* ================================================================== *)

(** X23.  Asked to run a platform that is not registered,
    [run_single_platform] announces it, reports the unknown-platform
    error and raises it again; nothing is loaded, constructed or called
    for it. *)
Theorem run_single_unknown_platform :
  forall (env : Env) (config config_path : value) (name : string)
         (kwargs : gmap string value) (w : World),
    name ∉ ["bumble"; "tinder"; "hinge"; "okcupid"] ->
    let self := PlatformFactory.mk PlatformFactory.registry config config_path in
    PlatformFactory.run_single_platform env self name kwargs w =
    (Raise (PlatformFactory.unknown_platform self name),
     mk_World (trace w ++
               [EvPrint (LStartingSingle name);
                EvPrint (LErrorSingle name (PlatformFactory.unknown_platform self name))])
              (stdin w) (environ w)).
Proof.
  intros env config config_path name kwargs w Hname self.
  unfold PlatformFactory.run_single_platform, PlatformFactory.create_platform, self.
  cbn [PlatformFactory.platforms].
  destruct (PlatformFactory.contains PlatformFactory.registry name) eqn:Hc;
    [exfalso; apply Hname, contains_registry, Hc|].
  unfold bind, print, emit, try_except, raise. cbn [negb trace stdin environ].
  rewrite <- app_assoc. reflexivity.
Qed.

Lemma run_single_unknown_platform_witness :
  fst (PlatformFactory.run_single_platform (Demo.env None Demo.no_failure) Demo.factory
         "grindr" ∅ (Demo.world [])) =
  Raise (mk_exn ValueError
     "Unknown platform: grindr. Available: ['bumble', 'tinder', 'hinge', 'okcupid']")
  /\ length (trace (snd (PlatformFactory.run_single_platform
                           (Demo.env None Demo.no_failure) Demo.factory
                           "grindr" ∅ (Demo.world [])))) = 2%nat.
Proof.
  unfold Demo.factory.
  rewrite (run_single_unknown_platform (Demo.env None Demo.no_failure) (VDict ∅) VNone
             "grindr" ∅ (Demo.world []));
    [|apply (bool_decide_unpack _); vm_compute; exact I].
  split; reflexivity.
Defined.





(** X25.  When the input ends before a number of the menu was entered -
    every line is refused, or there is no line at all -
    [interactive_mode] does not return: after the menu, a prompt and a
    refusal per line and one more prompt, reading fails and [EOFError]
    leaves the call, which the handler for bad numbers does not catch. *)
Theorem interactive_mode_end_of_input :
  forall (env : Env) (config config_path : value) (w : World),
    Forall (fun l => refused env ["bumble"; "tinder"; "hinge"; "okcupid"] l = true)
           (stdin w) ->
    exists evs,
      PlatformFactory.interactive_mode env
        (PlatformFactory.mk PlatformFactory.registry config config_path) w =
      (Raise (mk_exn EOFError "EOF when reading a line"),
       mk_World (trace w ++
                 map EvPrint (PlatformFactory.menu
                                ["bumble"; "tinder"; "hinge"; "okcupid"]) ++ evs)
                [] (environ w)) /\
      length (prompts evs) = S (length (stdin w)) /\
      printed evs = map (refusal env ["bumble"; "tinder"; "hinge"; "okcupid"]) (stdin w).
Proof.
  intros env config config_path w Hall.
  destruct (select_loop_eof env ["bumble"; "tinder"; "hinge"; "okcupid"] (stdin w) Hall)
    as (evs & Hloop & Hprompts & Hprinted).
  exists evs. split; [|split; [exact Hprompts|exact Hprinted]].
  unfold PlatformFactory.interactive_mode, bind.
  change (PlatformFactory.get_available_platforms _)
    with ["bumble"; "tinder"; "hinge"; "okcupid"].
  rewrite for_each_print. cbn [stdin trace environ].
  rewrite Hloop, <- app_assoc. reflexivity.
Qed.

Lemma interactive_mode_end_of_input_witness :
  exists evs,
    PlatformFactory.interactive_mode (Demo.env None Demo.no_failure) Demo.factory
      (Demo.world ["seven"; "0"; Demo.fullwidth_one +:+ "9"]) =
    (Raise (mk_exn EOFError "EOF when reading a line"),
     mk_World (map EvPrint (PlatformFactory.menu ["bumble"; "tinder"; "hinge"; "okcupid"])
               ++ evs) [] ∅) /\
    length (prompts evs) = 4%nat /\
    printed evs = [LNotANumber; LInvalidChoice 6; LInvalidChoice 6].
Proof.
  destruct (interactive_mode_end_of_input (Demo.env None Demo.no_failure) (VDict ∅) VNone
              (Demo.world ["seven"; "0"; Demo.fullwidth_one +:+ "9"]))
    as (evs & Hrun & Hprompts & Hprinted).
  - constructor; [vm_compute; reflexivity|].
    constructor; [vm_compute; reflexivity|].
    constructor; [vm_compute; reflexivity|constructor].
  - exists evs. split; [exact Hrun|]. split; [exact Hprompts|].
    rewrite Hprinted. vm_compute. reflexivity.
Defined.

(* ================================================================== *)
(** * Further properties: from the command line to the constructor *)
(* ================================================================== *)

Lemma lookup_set_some_ne {A} (o : option A) k (inj : A -> value)
      (d : gmap string value) key :
  key <> k -> PlatformFactory.set_some o k inj d !! key = d !! key.
Proof.
  intros Hne. unfold PlatformFactory.set_some.
  destruct o; [apply lookup_insert_ne; congruence|reflexivity].
Qed.

Lemma lookup_set_if_ne {A} (b : bool) k (v : A) (inj : A -> value)
      (d : gmap string value) key :
  key <> k -> PlatformFactory.set_if b k v inj d !! key = d !! key.
Proof.
  intros Hne. unfold PlatformFactory.set_if.
  destruct b; [apply lookup_insert_ne; congruence|reflexivity].
Qed.

Lemma lookup_guarded_ne {A} (b : bool) (o : option A) k (inj : A -> value)
      (d : gmap string value) key :
  key <> k ->
  (if b then PlatformFactory.set_some o k inj d else d) !! key = d !! key.
Proof. intros Hne. destruct b; [apply lookup_set_some_ne, Hne|reflexivity]. Qed.

(** Where a key of the extracted overrides can come from. *)
Lemma extract_lookup_config_path_free self args key :
  key <> "config_path" ->
  (if PlatformFactory.given (a_config args)
   then PlatformFactory.set_some (a_config args) "config_path" VStr ∅
   else if truthy (PlatformFactory.config_path self)
        then <["config_path" := PlatformFactory.config_path self]> ∅
        else (∅ : gmap string value)) !! key = None.
Proof.
  intros Hne. destruct (PlatformFactory.given (a_config args)).
  - rewrite lookup_set_some_ne by exact Hne. apply lookup_empty.
  - destruct (truthy _); [rewrite lookup_insert_ne by congruence|]; apply lookup_empty.
Qed.

Lemma extract_lookup_headless self args :
  PlatformFactory.extract_platform_config self args !! "headless" =
  if a_headless args then Some (VBool true) else None.
Proof.
  unfold PlatformFactory.extract_platform_config. cbv zeta.
  rewrite !lookup_guarded_ne by discriminate.
  rewrite lookup_set_if_ne by discriminate.
  rewrite !lookup_set_some_ne by discriminate.
  unfold PlatformFactory.set_if. destruct (a_headless args).
  - apply lookup_insert_eq.
  - apply extract_lookup_config_path_free. discriminate.
Qed.

Lemma extract_lookup_verbose self args :
  PlatformFactory.extract_platform_config self args !! "verbose" =
  if a_verbose args then Some (VBool true) else None.
Proof.
  unfold PlatformFactory.extract_platform_config. cbv zeta.
  rewrite !lookup_guarded_ne by discriminate.
  unfold PlatformFactory.set_if at 1. destruct (a_verbose args).
  - apply lookup_insert_eq.
  - rewrite !lookup_set_some_ne by discriminate.
    rewrite lookup_set_if_ne by discriminate.
    apply extract_lookup_config_path_free. discriminate.
Qed.

(** X26.  The command line can switch [headless] and [verbose] on but
    not off: the extracted overrides hold [True] under these names when
    the flag is given and nothing otherwise, never [False].  Hence a
    configuration file that sets [browser.headless] to [true] decides:
    the setting resolves to [True] for every command line. *)
Theorem flags_only_switch_on :
  forall (self : PlatformFactory.t) (args : Args),
    PlatformFactory.extract_platform_config self args !! "headless" =
      (if a_headless args then Some (VBool true) else None) /\
    PlatformFactory.extract_platform_config self args !! "verbose" =
      (if a_verbose args then Some (VBool true) else None) /\
    forall config,
      path_value config ["browser"; "headless"] = Some (VBool true) ->
      Platform._resolve_config_value config "headless"
        (delete "config_path" (PlatformFactory.extract_platform_config self args))
        "browser.headless" (VBool false) = VBool true.
Proof.
  intros self args. split; [apply extract_lookup_headless|].
  split; [apply extract_lookup_verbose|].
  intros config Hcfg. rewrite resolve_three_tier. unfold three_tier.
  rewrite lookup_delete_ne by discriminate. rewrite extract_lookup_headless.
  destruct (a_headless args); [reflexivity|].
  change (PyStr.split "." "browser.headless") with ["browser"; "headless"].
  rewrite Hcfg. reflexivity.
Qed.

Lemma flags_only_switch_on_witness :
  Platform._resolve_config_value
    (VDict {[ "browser" := VDict {[ "headless" := VBool true ]} ]}) "headless"
    (delete "config_path" (PlatformFactory.extract_platform_config Demo.factory
                             Demo2.no_args))
    "browser.headless" (VBool false) = VBool true.
Proof.
  apply (flags_only_switch_on Demo.factory Demo2.no_args). vm_compute. reflexivity.
Defined.

Lemma is_Some_set_some {A} (o : option A) k (inj : A -> value)
      (d : gmap string value) key :
  is_Some (PlatformFactory.set_some o k inj d !! key) -> key = k \/ is_Some (d !! key).
Proof.
  destruct (decide (key = k)) as [->|Hne]; [auto|].
  rewrite lookup_set_some_ne by exact Hne. auto.
Qed.

Lemma is_Some_set_if {A} (b : bool) k (v : A) (inj : A -> value)
      (d : gmap string value) key :
  is_Some (PlatformFactory.set_if b k v inj d !! key) -> key = k \/ is_Some (d !! key).
Proof.
  destruct (decide (key = k)) as [->|Hne]; [auto|].
  rewrite lookup_set_if_ne by exact Hne. auto.
Qed.

Lemma is_Some_guarded {A} (b : bool) (o : option A) k (inj : A -> value)
      (d : gmap string value) key :
  is_Some ((if b then PlatformFactory.set_some o k inj d else d) !! key) ->
  key = k \/ is_Some (d !! key).
Proof. destruct b; [apply is_Some_set_some|auto]. Qed.

(** X27.  Every override extracted from the command line is one the
    constructor of a profile reads: the extracted set has no key outside
    [config_path], the seven settings, [profile_dir] and [trace_path]. *)
Theorem extracted_keys_are_recognized :
  forall (self : PlatformFactory.t) (args : Args) (key : string),
    is_Some (PlatformFactory.extract_platform_config self args !! key) ->
    key ∈ recognized.
Proof.
  intros self args key. unfold PlatformFactory.extract_platform_config. cbv zeta.
  assert (Hin : forall k, bool_decide (k ∈ recognized) = true -> k ∈ recognized)
    by (intros k; apply bool_decide_eq_true_1).
  intros H.
  apply is_Some_guarded in H as [->|H]; [apply Hin; reflexivity|].
  apply is_Some_guarded in H as [->|H]; [apply Hin; reflexivity|].
  apply is_Some_set_if in H as [->|H]; [apply Hin; reflexivity|].
  apply is_Some_set_some in H as [->|H]; [apply Hin; reflexivity|].
  apply is_Some_set_some in H as [->|H]; [apply Hin; reflexivity|].
  apply is_Some_set_some in H as [->|H]; [apply Hin; reflexivity|].
  apply is_Some_set_some in H as [->|H]; [apply Hin; reflexivity|].
  apply is_Some_set_some in H as [->|H]; [apply Hin; reflexivity|].
  apply is_Some_set_if in H as [->|H]; [apply Hin; reflexivity|].
  destruct (decide (key = "config_path")) as [->|Hne]; [apply Hin; reflexivity|].
  rewrite (extract_lookup_config_path_free self args key Hne) in H.
  destruct H as [? H]. discriminate H.
Qed.

Lemma extracted_keys_are_recognized_witness :
  PlatformFactory.extract_platform_config Demo.factory Demo2.tinder_args !! "model" =
    Some (VStr "gpt-4") /\
  "model" ∈ recognized.
Proof.
  split; [vm_compute; reflexivity|].
  apply (extracted_keys_are_recognized Demo.factory Demo2.tinder_args "model").
  vm_compute. eexists. reflexivity.
Defined.

(** X28.  Without [--interactive] and without a platform argument,
    [run_from_args] runs nothing: it prints the error line, the list of
    the available platforms and the hint, and raises [SystemExit] with
    status 1, which its own handler for ordinary errors lets through. *)
Theorem run_from_args_without_platform :
  forall (env : Env) (self : PlatformFactory.t) (args : Args) (w : World),
    a_interactive args = false ->
    a_platform args = None ->
    PlatformFactory.run_from_args env self args w =
    (Raise (mk_exn SystemExit "1"),
     mk_World (trace w ++
               [EvPrint LMustSpecify;
                EvPrint (LAvailable (PlatformFactory.get_available_platforms self));
                EvPrint LUseAll])
              (stdin w) (environ w)).
Proof.
  intros env self args w Hi Hp.
  unfold PlatformFactory.run_from_args. rewrite Hi, Hp.
  unfold try_except, bind, print, emit, sys_exit, raise. cbn [trace stdin environ].
  rewrite <- !app_assoc. reflexivity.
Qed.

Lemma run_from_args_without_platform_witness :
  map (render_log (Demo.env None Demo.no_failure))
      (printed (trace (snd (PlatformFactory.run_from_args (Demo.env None Demo.no_failure)
                              Demo.factory Demo2.no_args (Demo.world []))))) =
  ["Error: You must specify a platform or use --interactive";
   "Available platforms: bumble, tinder, hinge, okcupid";
   "Use 'all' to run all platforms or --interactive for interactive mode"].
Proof.
  rewrite (run_from_args_without_platform (Demo.env None Demo.no_failure) Demo.factory
             Demo2.no_args (Demo.world [])); reflexivity.
Defined.

(** [run_all_platforms] over any registry, with collaborators that fail
    with ordinary errors only. *)
Lemma run_all_platforms_completes env self kwargs w :
  ordinary env ->
  exists w' evs,
    PlatformFactory.run_all_platforms env self kwargs w = (Ok tt, w') /\
    trace w' = trace w ++ evs /\
    attempts evs = PlatformFactory.get_available_platforms self /\
    ended evs = PlatformFactory.get_available_platforms self /\
    raised evs = caught evs.
Proof.
  intros Hord. unfold PlatformFactory.run_all_platforms.
  unfold bind at 1, print at 1, emit at 1.
  set (w0 := mk_World _ _ _).
  destruct (run_all_loop env Hord self kwargs
              (PlatformFactory.get_available_platforms self) w0)
    as (w' & evs & Hloop & Htr & Ha & He & Hrc).
  exists w', (EvPrint (LRunningAll (PlatformFactory.get_available_platforms self)) :: evs).
  split; [exact Hloop|].
  split; [rewrite Htr; unfold w0; cbn [trace]; rewrite <- app_assoc; reflexivity|].
  unfold attempts, ended, raised, caught in *.
  cbn [omap list_omap attempt_of ended_of raised_of caught_of].
  auto.
Qed.

(** X30.  With the platform argument [all], and collaborators that fail
    with ordinary errors only, [run_from_args] returns normally - the
    process ends with status 0 - however many platforms failed: every
    registered platform was run once and its turn ended, in registry
    order, and the failures raised are those the loop caught. *)
Theorem run_from_args_all_returns_normally :
  forall (env : Env) (self : PlatformFactory.t) (args : Args) (w : World),
    ordinary env ->
    a_interactive args = false ->
    a_platform args = Some "all" ->
    exists w' evs,
      PlatformFactory.run_from_args env self args w = (Ok tt, w') /\
      trace w' = trace w ++ evs /\
      attempts evs = PlatformFactory.get_available_platforms self /\
      ended evs = PlatformFactory.get_available_platforms self /\
      raised evs = caught evs.
Proof.
  intros env self args w Hord Hi Hp.
  destruct (run_all_platforms_completes env self
              (PlatformFactory.extract_platform_config self args) w Hord)
    as (w' & evs & Hrun & Htr & Ha & He & Hrc).
  exists w', evs. split; [|auto].
  unfold PlatformFactory.run_from_args. rewrite Hi, Hp.
  change (String.eqb "all" "all") with true. cbv iota.
  unfold try_except. rewrite Hrun. reflexivity.
Qed.

Lemma run_from_args_all_returns_normally_witness :
  exists w' evs,
    PlatformFactory.run_from_args (Demo.env None Demo.two_fail) Demo.factory Demo.args
      (Demo.world []) = (Ok tt, w') /\
    trace w' = evs /\
    attempts evs = ["bumble"; "tinder"; "hinge"; "okcupid"] /\
    map fst (caught evs) = ["tinder"; "hinge"].
Proof.
  destruct (run_from_args_all_returns_normally (Demo.env None Demo.two_fail)
              Demo.factory Demo.args (Demo.world []) (demo_ordinary None)
              eq_refl eq_refl)
    as (w' & evs & Hrun & Htr & Ha & _ & _).
  exists w', evs. change (trace (Demo.world []) ++ evs) with evs in Htr.
  split; [exact Hrun|]. split; [exact Htr|]. split; [exact Ha|].
  rewrite <- Htr. change w' with (snd (@Ok unit tt, w')). rewrite <- Hrun.
  vm_compute. reflexivity.
Defined.
